(** * Streaming state reconstruction in the ccxt pro adapters

    A shallow embedding of the WebSocket handlers of the bybit adapter
    (dist/cjs/src/pro/bybit.js), the hitbtc adapter (hitbtc.ts, the file
    unnamed/part_001) and the bingx adapter (bingx.ts, the second half of
    js/src/pro/luno.d.ts), together with the properties their specification
    states about order books, candle and trade caches, authentication and
    error delivery.  The mexc adapter referred to once is unnamed/part_000.

    Conventions of the embedding:
    - prices, amounts and timestamps are integers ([Z]); a price or an
      amount stands for the decimal the exchange sends, counted in the
      market's tick / lot unit, so that comparison and the test "amount is
      zero" are exact;
    - JS objects used as dictionaries are [gmap string _];
    - a handler that mutates [this] and the client is a function from the
      old state to the new one. *)

From Stdlib Require Import ZArith Lia Ascii String Sorted.
From stdpp Require Import gmap strings list fin_maps.

Local Open Scope Z_scope.

(** ** Order book sides *)

(** A price level [[price, amount]]. *)
Definition Level : Type := Z * Z.

Inductive Side : Type := Bids | Asks.

(** [before s p q]: price [p] sorts strictly before price [q] on side [s]
    (bids descending, asks ascending). *)
Definition before (s : Side) (p q : Z) : bool :=
  match s with
  | Bids => q <? p
  | Asks => p <? q
  end.

Module OrderBookSide.

(** Modelled from the spec: [OrderBookSide.store] / [storeArray]
    (base/ws/OrderBookSide.js) is not among the sources.  The spec gives a
    side as a price->amount mapping with deterministic ordering, no two
    entries sharing a price, where "amount of zero removes the price
    level; nonzero amount inserts-or-replaces". *)
Fixpoint store (s : Side) (price amount : Z) (l : list Level) : list Level :=
  match l with
  | [] => if amount =? 0 then [] else [(price, amount)]
  | (p, a) :: rest =>
      if p =? price then
        if amount =? 0 then rest else (price, amount) :: rest
      else if before s price p then
        if amount =? 0 then l else (price, amount) :: l
      else (p, a) :: store s price amount rest
  end.

(** Modelled from the spec: [storeArray (delta)] is [store] on the pair's
    price and amount. *)
Definition storeArray (s : Side) (delta : Level) (l : list Level) : list Level :=
  store s (fst delta) (snd delta) l.

(** The amount stored at a price, if the level is present. *)
Fixpoint amount_at (price : Z) (l : list Level) : option Z :=
  match l with
  | [] => None
  | (p, a) :: rest => if p =? price then Some a else amount_at price rest
  end.

(** Strict ordering of a side: every level sorts before the next one. *)
Fixpoint ordered (s : Side) (l : list Level) : Prop :=
  match l with
  | [] => True
  | (p, _) :: rest =>
      match rest with
      | [] => True
      | (q, _) :: _ => before s p q = true /\ ordered s rest
      end
  end.

(** Every price of [l] sorts strictly after [p]. *)
Definition all_after (s : Side) (p : Z) (l : list Level) : Prop :=
  Forall (fun lv => before s p (fst lv) = true) l.

End OrderBookSide.

(** ** Delta handlers (bybit.js 585-593, hitbtc.ts 280-290) *)

Module Bybit.

(** [parseBidAsk (delta, 0, 1)] reads the price and the amount of the raw
    pair (the mexc adapter's override of it shows the shape); the side the
    pair is stored into is known to the side object itself and is the
    argument [s] here. *)
Definition parseBidAsk (delta : Level) : Level := (fst delta, snd delta).

Definition handleDelta (s : Side) (bookside : list Level) (delta : Level)
  : list Level :=
  let bidAsk := parseBidAsk delta in
  OrderBookSide.storeArray s bidAsk bookside.

Definition handleDeltas (s : Side) (bookside : list Level) (deltas : list Level)
  : list Level :=
  fold_left (handleDelta s) deltas bookside.

End Bybit.

Module Hitbtc.

Definition handleDelta (s : Side) (bookside : list Level) (delta : Level)
  : list Level :=
  let price := fst delta in
  let amount := snd delta in
  OrderBookSide.store s price amount bookside.

Definition handleDeltas (s : Side) (bookside : list Level) (deltas : list Level)
  : list Level :=
  fold_left (handleDelta s) deltas bookside.

End Hitbtc.

(** ** Order books *)

Module OrderBook.

(** The fields of a stored book that the handlers touch; [datetime] is
    [iso8601 (timestamp)] and is left out. *)
Record t : Type := mk {
  asks : list Level;
  bids : list Level;
  timestamp : option Z;
  nonce : option Z;
  symbol : option string
}.

(** The object [parseOrderBook] returns and [reset] consumes. *)
Record Snapshot : Type := mkSnapshot {
  snap_symbol : string;
  snap_bids : list Level;
  snap_asks : list Level;
  snap_timestamp : option Z;
  snap_nonce : option Z
}.

(** Modelled from the spec: [Exchange.orderBook ()] (base/Exchange.js) is
    not among the sources; a book is "created" with two empty sides and
    neither sequence number nor timestamp. *)
Definition orderBook : t :=
  {| asks := []; bids := []; timestamp := None; nonce := None; symbol := None |}.

(** Modelled from the spec: [OrderBook.reset] (base/ws/OrderBook.js) is not
    among the sources.  "On a snapshot message: discard any prior state;
    build both sides from the snapshot's bid/ask arrays", each level going
    through the side's own store, and take over the snapshot's sequence
    number, timestamp and symbol. *)
Definition reset (orderbook : t) (snapshot : Snapshot) : t :=
  {| asks := fold_left (fun side lv => OrderBookSide.storeArray Asks lv side)
                       (snap_asks snapshot) [];
     bids := fold_left (fun side lv => OrderBookSide.storeArray Bids lv side)
                       (snap_bids snapshot) [];
     timestamp := snap_timestamp snapshot;
     nonce := snap_nonce snapshot;
     symbol := Some (snap_symbol snapshot) |}.

(** Modelled from the spec: [Exchange.parseOrderBook] (base/Exchange.js) is
    not among the sources.  It is called with the data object, the symbol,
    the timestamp and the keys of the two arrays, and builds the snapshot
    from these; it is handed no sequence number, and callers that want one
    assign [nonce] themselves after the call (as [fetchOrderBook] of the
    mexc adapter does), so the snapshot's nonce is undefined. *)
Definition parseOrderBook (bidsArr asksArr : list Level) (symbol : string)
    (timestamp : option Z) : Snapshot :=
  {| snap_symbol := symbol;
     snap_bids := bidsArr;
     snap_asks := asksArr;
     snap_timestamp := timestamp;
     snap_nonce := None |}.

End OrderBook.

(** JS [hay.indexOf (needle) >= 0], as in [client.url.indexOf ('spot')]. *)
Fixpoint contains (needle hay : string) : bool :=
  match hay with
  | EmptyString => String.prefix needle hay
  | String _ rest => String.prefix needle hay || contains needle rest
  end.

Module BybitBook.
Import OrderBook.

(** An order book message of the bybit stream:
    [{ topic, type, ts, data: { s, b, a, u, seq } }].  A missing ["b"] or
    ["a"] array is the empty list, as [safeValue (data, key, [])] reads it;
    the pairs are given as numbers, as [safeNumber] reads them. *)
Record Message : Type := mkMessage {
  topic : string;
  type : option string;
  ts : option Z;
  data_s : option string;
  data_b : list Level;
  data_a : list Level;
  data_u : option Z;
  data_seq : option Z
}.

Section Handler.
(** [safeMarket (marketId, undefined, undefined, marketType)['symbol']]:
    the market table is external to the streaming code. *)
Variable safeMarket : option string -> string -> string.

(** bybit.js 556-584.  The result is the new [this.orderbooks] and the
    pair handed to [client.resolve]. *)
Definition handleOrderBook (url : string)
    (orderbooks : gmap string OrderBook.t) (message : Message)
  : gmap string OrderBook.t * (string * OrderBook.t) :=
  let isSpot := contains "spot" url in
  let isSnapshot :=
    match type message with
    | Some ty => String.eqb ty "snapshot"
    | None => false
    end in
  let marketId := data_s message in
  let marketType := if isSpot then "spot"%string else "contract"%string in
  let symbol := safeMarket marketId marketType in
  let timestamp := ts message in
  let orderbook :=
    match orderbooks !! symbol with
    | Some ob => ob
    | None => orderBook
    end in
  let orderbook :=
    if isSnapshot then
      let snapshot :=
        parseOrderBook (data_b message) (data_a message) symbol timestamp in
      reset orderbook snapshot
    else
      let asks' := Bybit.handleDeltas Asks (asks orderbook) (data_a message) in
      let bids' := Bybit.handleDeltas Bids (bids orderbook) (data_b message) in
      {| asks := asks'; bids := bids'; timestamp := timestamp;
         nonce := nonce orderbook; symbol := OrderBook.symbol orderbook |} in
  let messageHash := String.append "orderbook:" symbol in
  (<[symbol := orderbook]> orderbooks, (messageHash, orderbook)).

(** Handling a stream of messages in arrival order. *)
Definition handleAll (url : string) (orderbooks : gmap string OrderBook.t)
    (messages : list Message) : gmap string OrderBook.t :=
  fold_left (fun obs m => fst (handleOrderBook url obs m)) messages orderbooks.

End Handler.

End BybitBook.

Module HitbtcBook.
Import OrderBook.

(** One entry of the ["snapshot"] / ["update"] object:
    [{ t, s, a, b }]. *)
Record Item : Type := mkItem {
  item_t : option Z;
  item_s : option Z;
  item_a : list Level;
  item_b : list Level
}.

(** [{ ch, snapshot | update : { marketId : item, ... } }]; the object of
    items is listed in key order ([Object.keys]).  [safeValue2] reads
    ["snapshot"] and ["update"] alike, so the handler does not see which
    of the two the message carried. *)
Record Message : Type := mkMessage {
  ch : string;
  data : list (string * Item)
}.

Section Handler.
Variable safeMarket : string -> string.

(** Body of the loop of hitbtc.ts 253-277 for one market id.  The depth
    [limit] given to [this.orderBook ({}, limit)] bounds what a view of
    the book shows and is left out. *)
Definition handleItem (channel : string)
    (acc : gmap string OrderBook.t * list (string * OrderBook.t))
    (entry : string * Item)
  : gmap string OrderBook.t * list (string * OrderBook.t) :=
  let '(orderbooks, resolved) := acc in
  let '(marketId, item) := entry in
  let symbol := safeMarket marketId in
  let messageHash := String.append channel (String.append "::" symbol) in
  let orderbooks :=
    match orderbooks !! symbol with
    | Some _ => orderbooks
    | None => <[symbol := orderBook]> orderbooks
    end in
  let timestamp := item_t item in
  let nonce := item_s item in
  let orderbook :=
    match orderbooks !! symbol with
    | Some ob => ob
    | None => orderBook
    end in
  let asks' := Hitbtc.handleDeltas Asks (asks orderbook) (item_a item) in
  let bids' := Hitbtc.handleDeltas Bids (bids orderbook) (item_b item) in
  let orderbook :=
    {| asks := asks'; bids := bids'; timestamp := timestamp;
       nonce := nonce; symbol := Some symbol |} in
  (<[symbol := orderbook]> orderbooks, resolved ++ [(messageHash, orderbook)]).

Definition handleOrderBook (orderbooks : gmap string OrderBook.t)
    (message : Message)
  : gmap string OrderBook.t * list (string * OrderBook.t) :=
  fold_left (handleItem (ch message)) (data message) (orderbooks, []).

End Handler.

End HitbtcBook.

(** bingx (luno.d.ts 315-330, handleOrderBook): every message is a full
    book, parsed and laid over the stored one by [reset]. *)
Module BingxBook.
Import OrderBook.

(** [{ dataType, data: { bids, asks } }]. *)
Record Message : Type := mkMessage {
  dataType : string;
  data_bids : list Level;
  data_asks : list Level
}.

Section Handler.
Variable safeMarket : option string -> string -> string.

(** [messageHash.split ('@')[0]]: the part before the first ['@']. *)
Fixpoint before_at (s : string) : string :=
  match s with
  | EmptyString => EmptyString
  | String c rest =>
      if Ascii.eqb c "@"%char then EmptyString else String c (before_at rest)
  end.

Definition handleOrderBook (url : string)
    (orderbooks : gmap string OrderBook.t) (message : Message)
  : gmap string OrderBook.t * (string * OrderBook.t) :=
  let messageHash := dataType message in
  let marketId := Some (before_at messageHash) in
  let isSwap := contains "swap" url in
  let marketType := if isSwap then "swap"%string else "spot"%string in
  let symbol := safeMarket marketId marketType in
  let orderbook :=
    match orderbooks !! symbol with
    | Some ob => ob
    | None => orderBook
    end in
  let snapshot :=
    parseOrderBook (data_bids message) (data_asks message) symbol None in
  let orderbook := reset orderbook snapshot in
  (<[symbol := orderbook]> orderbooks, (messageHash, orderbook)).

End Handler.

End BingxBook.

(** ** Bounded caches *)

(** JS [s.split (sep)] for a one-character separator. *)
Fixpoint split (sep : ascii) (s : string) : list string :=
  match s with
  | EmptyString => [EmptyString]
  | String c rest =>
      if Ascii.eqb c sep then EmptyString :: split sep rest
      else match split sep rest with
           | [] => [String c EmptyString]
           | hd :: tl => String c hd :: tl
           end
  end.

(** Modelled from the spec: [safeInteger] (base functions) is not among the
    sources; it is one of the "already-available helper operations" and
    reads a key of an object, giving the default when the key is absent:
    [safeInteger (this.options, key, 1000)] for the cache limits. *)
Definition safeInteger (options : gmap string nat) (key : string) (dflt : nat) : nat :=
  match options !! key with
  | Some n => n
  | None => dflt
  end.

Module Cache.

(** Modelled from the spec: "drop-oldest when capacity exceeded", the
    eviction shared by the three caches. *)
Definition evict {A : Type} (limit : nat) (l : list A) : list A :=
  if (limit <? length l)%nat then tail l else l.

(** Modelled from the spec: [ArrayCache] (base/ws/Cache.js) is not among
    the sources.  A trade / raw-append cache is "insertion-ordered,
    drop-oldest when capacity exceeded, no dedup by id"; [append] "always
    appends, evicts oldest on overflow". *)
Record ArrayCache (A : Type) : Type := mkArrayCache {
  maxSize : nat;
  items : list A
}.
Arguments mkArrayCache {A} _ _.
Arguments maxSize {A} _.
Arguments items {A} _.

(** Modelled from the spec: [new ArrayCache (limit)], an empty cache of
    the given capacity. *)
Definition newArrayCache {A : Type} (limit : nat) : ArrayCache A :=
  {| maxSize := limit; items := [] |}.

(** Modelled from the spec: [append (item)] "always appends, evicts oldest
    on overflow". *)
Definition append {A : Type} (c : ArrayCache A) (item : A) : ArrayCache A :=
  {| maxSize := maxSize c; items := evict (maxSize c) (items c ++ [item]) |}.

(** A candle [[timestamp, open, high, low, close, volume]]; the volume may
    be undefined. *)
Record OHLCV : Type := mkOHLCV {
  c_timestamp : Z;
  c_open : Z;
  c_high : Z;
  c_low : Z;
  c_close : Z;
  c_volume : option Z
}.

(** Modelled from the spec: [ArrayCacheByTimestamp] (base/ws/Cache.js) is
    not among the sources.  Its [append] is the spec's
    [appendOrReplaceLast (candle)], which "compares the new candle's
    timestamp to the last stored candle's timestamp - equal timestamps
    replace, greater timestamps append (and evict if over capacity), lesser
    timestamps are rejected as out-of-order". *)
Definition appendByTimestamp (c : ArrayCache OHLCV) (candle : OHLCV)
  : ArrayCache OHLCV :=
  match last (items c) with
  | None =>
      {| maxSize := maxSize c; items := evict (maxSize c) (items c ++ [candle]) |}
  | Some l =>
      if c_timestamp candle =? c_timestamp l then
        {| maxSize := maxSize c; items := removelast (items c) ++ [candle] |}
      else if c_timestamp l <? c_timestamp candle then
        {| maxSize := maxSize c; items := evict (maxSize c) (items c ++ [candle]) |}
      else c
  end.

(** Modelled from the spec: [ArrayCacheBySymbolById] (base/ws/Cache.js) is
    not among the sources.  Orders and my-trades caches are "keyed by
    (symbol, id)"; [upsert (item, key)] "replaces existing entry sharing
    [key], else appends, then evicts oldest on overflow", an upsert being
    "insert-if-absent, else replace-in-place by key". *)
Section BySymbolById.
Context {A : Type}.
Variable key : A -> string * string.

Definition same_key (x y : A) : bool :=
  bool_decide (key x = key y).

Definition has_key (item : A) (l : list A) : bool :=
  existsb (same_key item) l.

Fixpoint replace_in_place (item : A) (l : list A) : list A :=
  match l with
  | [] => []
  | x :: rest =>
      if same_key item x then item :: rest
      else x :: replace_in_place item rest
  end.

(** Modelled from the spec: [append] of the by-id cache, the spec's
    [upsert]. *)
Definition appendById (c : ArrayCache A) (item : A) : ArrayCache A :=
  if has_key item (items c) then
    {| maxSize := maxSize c; items := replace_in_place item (items c) |}
  else
    {| maxSize := maxSize c; items := evict (maxSize c) (items c ++ [item]) |}.
End BySymbolById.

End Cache.

(** ** Trade and candle handlers *)

Module BybitSeries.
Import Cache.

(** One element of the ["data"] array of a kline message, by the fields
    [parseWsOHLCV] reads. *)
Record RawCandle : Type := mkRawCandle {
  start : Z;
  open : Z;
  high : Z;
  low : Z;
  close : Z;
  volume : option Z;
  turnover : option Z
}.

(** bybit.js 440-464; [safeNumber2 (ohlcv, 'volume', 'turnover')] reads the
    first of the two keys that is present. *)
Definition parseWsOHLCV (ohlcv : RawCandle) : OHLCV :=
  {| c_timestamp := start ohlcv;
     c_open := open ohlcv;
     c_high := high ohlcv;
     c_low := low ohlcv;
     c_close := close ohlcv;
     c_volume :=
       match volume ohlcv with
       | Some v => Some v
       | None => turnover ohlcv
       end |}.

(** [{ topic, data: [ ... ] }]. *)
Record Message (R : Type) : Type := mkMessage {
  topic : string;
  data : list R
}.
Arguments mkMessage {R} _ _.
Arguments topic {R} _.
Arguments data {R} _.

Section Handlers.
(** The market table and the timeframe table are external. *)
Variable safeMarket : option string -> string -> string.
Variable findTimeframe : option string -> string.

(** bybit.js 412-438.  The cache object found in (or put into)
    [this.ohlcvs[symbol][timeframe]] is the one the loop appends to, so
    the appended cache is what the table holds afterwards. *)
Definition handleOHLCV (url : string) (options : gmap string nat)
    (ohlcvs : gmap string (gmap string (ArrayCache OHLCV)))
    (message : Message RawCandle)
  : gmap string (gmap string (ArrayCache OHLCV)) * (string * ArrayCache OHLCV) :=
  let topicParts := split "."%char (topic message) in
  let topicLength := length topicParts in
  let timeframeId := topicParts !! 1%nat in
  let timeframe := findTimeframe timeframeId in
  let marketId := topicParts !! (topicLength - 1)%nat in
  let isSpot := contains "spot" url in
  let marketType := if isSpot then "spot"%string else "contract"%string in
  let symbol := safeMarket marketId marketType in
  let ohlcvsByTimeframe := ohlcvs !! symbol in
  let byTimeframe :=
    match ohlcvsByTimeframe with
    | Some tfs => tfs
    | None => ∅
    end in
  let stored :=
    match byTimeframe !! timeframe with
    | Some st => st
    | None =>
        let limit := safeInteger options "OHLCVLimit" 1000 in
        newArrayCache limit
    end in
  let stored :=
    fold_left (fun st raw => appendByTimestamp st (parseWsOHLCV raw))
              (data message) stored in
  let messageHash :=
    String.append "kline:"
      (String.append (default "undefined"%string timeframeId) (String.append ":" symbol)) in
  (<[symbol := <[timeframe := stored]> byTimeframe]> ohlcvs, (messageHash, stored)).

Section Trades.
Context {RawTrade Trade : Type}.
Variable parseWsTrade : RawTrade -> string -> Trade.

(** bybit.js 666-686; the market handed to [parseWsTrade] is
    identified by its symbol. *)
Definition handleTrades (url : string) (options : gmap string nat)
    (trades : gmap string (ArrayCache Trade)) (message : Message RawTrade)
  : gmap string (ArrayCache Trade) * (string * ArrayCache Trade) :=
  let parts := split "."%char (topic message) in
  let isSpot := contains "spot" url in
  let marketType := if isSpot then "spot"%string else "contract"%string in
  let marketId := parts !! 1%nat in
  let symbol := safeMarket marketId marketType in
  let stored :=
    match trades !! symbol with
    | Some st => st
    | None =>
        let limit := safeInteger options "tradesLimit" 1000 in
        newArrayCache limit
    end in
  let stored :=
    fold_left (fun st raw => append st (parseWsTrade raw symbol))
              (data message) stored in
  let messageHash := String.append "trade:" symbol in
  (<[symbol := stored]> trades, (messageHash, stored)).
End Trades.

End Handlers.

End BybitSeries.

Module HitbtcSeries.
Import Cache.

(** [{ ch, snapshot | update : { marketId : [ ... ], ... } }], the object
    listed in key order. *)
Record Message (R : Type) : Type := mkMessage {
  ch : string;
  data : list (string * list R)
}.
Arguments mkMessage {R} _ _.
Arguments ch {R} _.
Arguments data {R} _.

Section Handlers.
Variable safeMarket : string -> string.
Variable findTimeframe : option string -> string.

Section Trades.
Context {RawTrade Trade : Type}.
(** [parseWsTrades (data[marketId], market)]: parses, sorts by
    timestamp and id, filters by symbol. *)
Variable parseWsTrades : list RawTrade -> string -> list Trade.

(** Body of the loop of hitbtc.ts 558-574 for one market id. *)
Definition handleTradesItem (options : gmap string nat)
    (acc : gmap string (ArrayCache Trade) * list (string * ArrayCache Trade))
    (entry : string * list RawTrade)
  : gmap string (ArrayCache Trade) * list (string * ArrayCache Trade) :=
  let '(trades, resolved) := acc in
  let '(marketId, raws) := entry in
  let tradesLimit := safeInteger options "tradesLimit" 1000 in
  let symbol := safeMarket marketId in
  let stored :=
    match trades !! symbol with
    | Some st => st
    | None => newArrayCache tradesLimit
    end in
  let parsed := parseWsTrades raws symbol in
  let stored := fold_left append parsed stored in
  let messageHash := String.append "trades::" symbol in
  (<[symbol := stored]> trades, resolved ++ [(messageHash, stored)]).

Definition handleTrades (options : gmap string nat)
    (trades : gmap string (ArrayCache Trade))
    (message : Message RawTrade)
  : gmap string (ArrayCache Trade) * list (string * ArrayCache Trade) :=
  fold_left (handleTradesItem options) (data message) (trades, []).
End Trades.

Section Candles.
Context {RawCandle : Type}.
Variable parseWsOHLCVs : list RawCandle -> string -> list OHLCV.

(** Body of the loop of hitbtc.ts 689-705 for one market id. *)
Definition handleOHLCVItem (options : gmap string nat)
    (channel timeframe : string)
    (acc : gmap string (gmap string (ArrayCache OHLCV))
           * list (string * ArrayCache OHLCV))
    (entry : string * list RawCandle)
  : gmap string (gmap string (ArrayCache OHLCV))
    * list (string * ArrayCache OHLCV) :=
  let '(ohlcvs, resolved) := acc in
  let '(marketId, raws) := entry in
  let symbol := safeMarket marketId in
  let byTimeframe :=
    match ohlcvs !! symbol with
    | Some tfs => tfs
    | None => ∅
    end in
  let stored :=
    match byTimeframe !! timeframe with
    | Some st => st
    | None =>
        let limit := safeInteger options "OHLCVLimit" 1000 in
        newArrayCache limit
    end in
  let parsed := parseWsOHLCVs raws symbol in
  let stored := fold_left appendByTimestamp parsed stored in
  let messageHash := String.append channel (String.append "::" symbol) in
  (<[symbol := <[timeframe := stored]> byTimeframe]> ohlcvs,
   resolved ++ [(messageHash, stored)]).

Definition handleOHLCV (options : gmap string nat)
    (ohlcvs : gmap string (gmap string (ArrayCache OHLCV)))
    (message : Message RawCandle)
  : gmap string (gmap string (ArrayCache OHLCV))
    * list (string * ArrayCache OHLCV) :=
  let channel := ch message in
  let splitChannel := split "/"%char channel in
  let period := splitChannel !! 1%nat in
  let timeframe := findTimeframe period in
  fold_left (handleOHLCVItem options channel timeframe) (data message)
            (ohlcvs, []).
End Candles.

End Handlers.

End HitbtcSeries.

(** ** The client of one connection: pending futures and subscriptions *)

Inductive ErrorClass : Type :=
| AuthenticationError
| ExchangeError
| OtherError (name : string).

(** An exception object; classes deriving from [AuthenticationError] are
    represented by [AuthenticationError] itself. *)
Record Error : Type := mkError {
  err_class : ErrorClass;
  err_text : string
}.

Definition instanceofAuthenticationError (e : Error) : bool :=
  match err_class e with
  | AuthenticationError => true
  | _ => false
  end.

Inductive Value : Type :=
| VTrue
| VObject (tag : string).

Inductive FutureState : Type :=
| Pending
| Resolved (v : Value)
| Rejected (e : Error).

(** A frame written to the socket. *)
Inductive Frame : Type :=
| BybitAuth (apiKey expires signature : string) (params : gmap string string)
| HitbtcLogin (api_key : string) (timestamp : Z) (signature : string)
| HitbtcSubscribe (id : Z) (ch : string) (symbols : list string)
                  (params : gmap string string).

Module Client.

(** Modelled from the spec: [Client] (base/ws/Client.js) is not among the
    sources.  A connection holds a "map of message-hash -> waiter-list
    (subscriptions / futures)".  A future is an object shared by reference
    among its holders, so the table maps a message hash to a handle and
    [heap] holds the state of every future ever created, by handle. *)
Record t : Type := mk {
  url : string;
  futures : gmap string nat;
  heap : list FutureState;
  subscriptions : gmap string bool;
  sent : list Frame
}.

Definition set_futures (fs : gmap string nat) (hp : list FutureState) (c : t) : t :=
  {| url := url c; futures := fs; heap := hp;
     subscriptions := subscriptions c; sent := sent c |}.

Definition set_subscriptions (subs : gmap string bool) (c : t) : t :=
  {| url := url c; futures := futures c; heap := heap c;
     subscriptions := subs; sent := sent c |}.

Definition send (message : Frame) (c : t) : t :=
  {| url := url c; futures := futures c; heap := heap c;
     subscriptions := subscriptions c; sent := sent c ++ [message] |}.

(** Modelled from the spec: a future settles once ("resolves once and is
    cached"); resolving or rejecting a settled future changes nothing. *)
Definition settle (s : FutureState) (f : nat) (hp : list FutureState)
  : list FutureState :=
  match hp !! f with
  | Some Pending => <[f := s]> hp
  | _ => hp
  end.

(** Modelled from the spec: [client.future (messageHash)] returns the
    pending future registered for the hash, creating it when there is
    none: "concurrent callers before completion share the same pending
    future". *)
Definition future (c : t) (messageHash : string) : t * nat :=
  match futures c !! messageHash with
  | Some f => (c, f)
  | None =>
      let f := length (heap c) in
      (set_futures (<[messageHash := f]> (futures c)) (heap c ++ [Pending]) c, f)
  end.

(** Modelled from the spec: [client.resolve (result, messageHash)]
    fulfils the future registered for the hash and unregisters it, so that
    "subsequently-registered futures for the same hash must await the next
    resolution, not the last one". *)
Definition resolve (c : t) (result : Value) (messageHash : string) : t :=
  match futures c !! messageHash with
  | Some f =>
      set_futures (delete messageHash (futures c))
                  (settle (Resolved result) f (heap c)) c
  | None => c
  end.

(** Modelled from the spec: [client.reject (error, messageHash)] rejects
    the future registered for the hash and unregisters it; without a
    message hash it is the connection-wide rejection, which "rejects every
    Pending Future registered on that connection". *)
Definition reject (c : t) (error : Error) (messageHash : option string) : t :=
  match messageHash with
  | Some h =>
      match futures c !! h with
      | Some f =>
          set_futures (delete h (futures c)) (settle (Rejected error) f (heap c)) c
      | None => c
      end
  | None =>
      let registered : gset nat := map_img (futures c) in
      set_futures ∅
        (imap (fun f s =>
                 match s with
                 | Pending =>
                     if bool_decide (f ∈ registered) then Rejected error else s
                 | _ => s
                 end) (heap c)) c
  end.

(** Modelled from the spec: [Exchange.watch (url, messageHash, message,
    subscribeHash)] (base/Exchange.js) is not among the sources.  "If every
    messageHash already has a registered waiter set and the underlying
    topics are already subscribed, this call simply registers an additional
    waiter and returns a future without re-sending a subscribe frame.
    Otherwise it sends the subscribe frame and registers waiters"; the
    subscription is recorded on the connection when the frame is sent. *)
Definition watch (c : t) (messageHash : string) (message : Frame)
    (subscribeHash : string) : t * nat :=
  let waiting := futures c !! messageHash in
  let subscribed := subscriptions c !! subscribeHash in
  let '(c, f) := future c messageHash in
  match waiting, subscribed with
  | Some _, Some _ => (c, f)
  | _, _ =>
      (send message (set_subscriptions (<[subscribeHash := true]> (subscriptions c)) c), f)
  end.

(** The state of the future behind a handle. *)
Definition state (c : t) (f : nat) : option FutureState := heap c !! f.

End Client.

(** What running a handler leaves: the client it mutated, or the exception
    that escaped it (with the client as it was at the throw). *)
Inductive Outcome : Type :=
| Done (c : Client.t)
| Throws (e : Error) (c : Client.t).

(** ** Authentication and error messages: bybit (bybit.js 1631-1821) *)

Module BybitWs.

(** The fields of an inbound control message that the handlers read;
    [json] is the serialised message. *)
Record Message : Type := mkMessage {
  code : option string;
  ret_code : option string;
  success : option bool;
  ret_msg : option string;
  request_op : option string;
  op : option string;
  type : option string;
  json : string
}.

Definition orUndefined (s : option string) : string :=
  match s with
  | Some v => v
  | None => "undefined"%string
  end.

Section Adapter.
(** [this.id], the credentials, the table [this.exceptions['exact']],
    the signing primitive and number formatting are external. *)
Variable id : string.
Variable apiKey secret : string.
Variable exact : gmap string ErrorClass.
Variable hmac : string -> string -> string.
Variable toString : Z -> string.

(** bybit.js 1631-1653, for a call whose credentials are present
    ([checkRequiredCredentials] throws before anything else otherwise);
    [now] is [this.milliseconds ()].  Nothing is awaited before the
    return, so a call runs to its end before the next one starts. *)
Definition authenticate (params : gmap string string) (now : Z)
    (client : Client.t) : Client.t * nat :=
  let messageHash := "authenticated"%string in
  let '(client, future) := Client.future client messageHash in
  let authenticated := Client.subscriptions client !! messageHash in
  match authenticated with
  | None =>
      let expiresInt := now + 10000 in
      let expires := toString expiresInt in
      let path := "GET/realtime"%string in
      let auth := String.append path expires in
      let signature := hmac auth secret in
      let message := BybitAuth apiKey expires signature params in
      let '(client, _) := Client.watch client messageHash message messageHash in
      (client, future)
  | Some _ => (client, future)
  end.

(** The [try] block of bybit.js 1680-1699: the exception it throws, if
    any ([None]: it returns [false]). *)
Definition raised (message : Message) : option Error :=
  let code :=
    match code message with
    | Some c => Some c
    | None => ret_code message
    end in
  let exactly :=
    match code with
    | Some c =>
        let feedback := String.append id (String.append " " (json message)) in
        match exact !! c with
        | Some cls => Some (mkError cls feedback)
        | None => None
        end
    | None => None
    end in
  match exactly with
  | Some e => Some e
  | None =>
      match success message with
      | Some false =>
          let ret_msg := orUndefined (ret_msg message) in
          match request_op message with
          | Some "auth"%string =>
              Some (mkError AuthenticationError
                      (String.append "Authentication failed: " ret_msg))
          | _ =>
              Some (mkError ExchangeError
                      (String.append id (String.append " " ret_msg)))
          end
      | _ => None
      end
  end.

(** bybit.js 1654-1713: the client afterwards and the returned flag. *)
Definition handleErrorMessage (client : Client.t) (message : Message)
  : Client.t * bool :=
  match raised message with
  | None => (client, false)
  | Some error =>
      if instanceofAuthenticationError error then
        let messageHash := "authenticated"%string in
        let client := Client.reject client error (Some messageHash) in
        let client :=
          match Client.subscriptions client !! messageHash with
          | Some _ =>
              Client.set_subscriptions
                (delete messageHash (Client.subscriptions client)) client
          | None => client
          end in
        (client, true)
      else
        (Client.reject client error None, true)
  end.

(** bybit.js 1798-1821.  [future.resolve (true)] settles the cached
    future and leaves it in the table; with no future registered the
    call on [undefined] throws. *)
Definition handleAuthenticate (client : Client.t) (message : Message)
  : Outcome :=
  let messageHash := "authenticated"%string in
  match success message with
  | Some true =>
      match Client.futures client !! messageHash with
      | Some future =>
          Done (Client.set_futures (Client.futures client)
                  (Client.settle (Resolved VTrue) future (Client.heap client))
                  client)
      | None =>
          Throws (mkError (OtherError "TypeError") "future is undefined") client
      end
  | _ =>
      let error :=
        mkError AuthenticationError
                (String.append id (String.append " " (json message))) in
      let client := Client.reject client error (Some messageHash) in
      let client :=
        match Client.subscriptions client !! messageHash with
        | Some _ =>
            Client.set_subscriptions
              (delete messageHash (Client.subscriptions client)) client
        | None => client
        end in
      Done client
  end.

End Adapter.

End BybitWs.

(** ** Error messages: bingx (luno.d.ts 633-653, handleErrorMessage) *)

Module BingxWs.

Section Adapter.
Variable id : string.
Variable exact : gmap string ErrorClass.

(** The exception matched for the message's [code], if any, is caught
    and handed to [client.reject] without a message hash. *)
Definition handleErrorMessage (client : Client.t) (code : option string)
    (json : string) : Client.t * bool :=
  let client :=
    match code with
    | Some c =>
        let feedback := String.append id (String.append " " json) in
        match exact !! c with
        | Some cls => Client.reject client (mkError cls feedback) None
        | None => client
        end
    | None => client
    end in
  (client, true).
End Adapter.

End BingxWs.

(** ** hitbtc (hitbtc.ts): authentication, subscriptions, dispatch *)

Module HitbtcWs.

(** Modelled from the spec: [safeString] (base functions) is not among the
    sources; [safeString (params, key, default)] reads a key with a default,
    here over params whose values are already strings. *)
Definition safeString (params : gmap string string) (key dflt : string) : string :=
  match params !! key with
  | Some v => v
  | None => dflt
  end.

(** Modelled from the spec: [safeString2 (params, key1, key2, default)]
    reads the first of two keys that is present. *)
Definition safeString2 (params : gmap string string) (key1 key2 dflt : string)
  : string :=
  match params !! key1 with
  | Some v => v
  | None => safeString params key2 dflt
  end.

(** [symbols.join (',')]. *)
Fixpoint join (symbols : list string) : string :=
  match symbols with
  | [] => EmptyString
  | [s] => s
  | s :: rest => String.append s (String.append "," (join rest))
  end.

(** The ["error"] object of a message. *)
Record ErrorObject : Type := mkErrorObject {
  e_code : string;
  e_message : option string;
  e_description : option string
}.

(** The ["result"] of a message: [true], a falsy value, an object (with
    its [client_order_id], if any), or an array of such objects. *)
Inductive Result : Type :=
| RTrue
| RFalsy
| RObject (client_order_id : option string)
| RArray (elements : list (option string)).

Record Message : Type := mkMessage {
  ch : option string;
  method : option string;
  error : option ErrorObject;
  result : option Result;
  has_id : bool;
  json : string
}.

Section Adapter.
Variable id : string.
Variable apiKey secret : string.
Variable exact : gmap string ErrorClass.
(** [throwBroadlyMatchedException (this.exceptions['broad'], ...)]: the
    class matched for an error message, if any. *)
Variable broad : option string -> option ErrorClass.
Variable hmac : string -> string -> string.
Variable numberToString : Z -> string.
(** [this.market (symbol)['id']]. *)
Variable marketId : string -> string.
(** [options['watchOrderBook']['method']]. *)
Variable optionsMethod : option string.
(** The handlers of channel data and of order requests. *)
Variable handleChannel : string -> Client.t -> Message -> Client.t.
Variable handleOrderRequest : Client.t -> Message -> Client.t.

(** hitbtc.ts 69-115, on the client of the private URL. *)
Definition authenticate (now : Z) (client : Client.t) : Client.t * nat :=
  let messageHash := "authenticated"%string in
  let '(client, future) := Client.future client messageHash in
  let authenticated := Client.subscriptions client !! messageHash in
  match authenticated with
  | None =>
      let timestamp := now in
      let signature := hmac (numberToString timestamp) secret in
      let request := HitbtcLogin apiKey timestamp signature in
      let '(client, _) := Client.watch client messageHash request messageHash in
      (client, future)
  | Some _ => (client, future)
  end.

(** hitbtc.ts 117-138, on the client of the public URL; [nonce] is
    [this.nonce ()].  The request object handed in is given by its parts:
    the market ids under ['params']['symbols'] and the caller's params
    laid over them. *)
Definition subscribePublic (name : string) (symbols : option (list string))
    (reqSymbols : list string) (params : gmap string string) (nonce : Z)
    (client : Client.t) : Client.t * nat :=
  let messageHash :=
    match symbols with
    | Some syms => String.append name (String.append "::" (join syms))
    | None => name
    end in
  let request := HitbtcSubscribe nonce name reqSymbols params in
  Client.watch client messageHash request messageHash.

(** hitbtc.ts 202-215: the channel name [watchOrderBook] subscribes
    to. *)
Definition watchOrderBookName (params : gmap string string) : string :=
  let defaultMethod :=
    match optionsMethod with
    | Some m => m
    | None => "orderbook/full"%string
    end in
  let name := safeString2 params "method" "defaultMethod" defaultMethod in
  let depth := safeString params "depth" "20" in
  let speed := safeString params "depth" "100" in
  if String.eqb name "orderbook/{depth}/{speed}" then
    String.append "orderbook/D"
      (String.append depth (String.append "/" (String.append speed "ms")))
  else if String.eqb name "orderbook/{depth}/{speed}/batch" then
    String.append "orderbook/D"
      (String.append depth (String.append "/" (String.append speed "ms/batch")))
  else if String.eqb name "orderbook/top/{speed}" then
    String.append "orderbook/top/" (String.append speed "ms")
  else if String.eqb name "orderbook/top/{speed}/batch" then
    String.append "orderbook/top/" (String.append speed "ms/batch")
  else name.

(** hitbtc.ts 184-224 up to the [await]: the subscription is made under
    the computed name, with the params passed on in the request. *)
Definition watchOrderBook (symbol : string) (params : gmap string string)
    (nonce : Z) (client : Client.t) : Client.t * nat :=
  let name := watchOrderBookName params in
  subscribePublic name (Some [symbol]) [marketId symbol] params nonce client.

(** hitbtc.ts 1288-1310: the exception thrown for a message that carries
    an ["error"], [None] when the function returns. *)
Definition handleError (message : Message) : option Error :=
  match error message with
  | Some err =>
      let feedback :=
        String.append id
          (String.append " " (BybitWs.orUndefined (e_description err))) in
      match exact !! e_code err with
      | Some cls => Some (mkError cls feedback)
      | None =>
          match broad (e_message err) with
          | Some cls => Some (mkError cls feedback)
          | None => Some (mkError ExchangeError feedback)
          end
      end
  | None => None
  end.

(** hitbtc.ts 1266-1286. *)
Definition handleAuthenticate (client : Client.t) (message : Message)
  : Outcome :=
  let messageHash := "authenticated"%string in
  match result message with
  | Some RTrue | Some (RObject _) | Some (RArray _) =>
      match Client.futures client !! messageHash with
      | Some future =>
          Done (Client.set_futures (Client.futures client)
                  (Client.settle (Resolved VTrue) future (Client.heap client))
                  client)
      | None =>
          Throws (mkError (OtherError "TypeError") "future is undefined") client
      end
  | Some RFalsy | None =>
      let error :=
        mkError AuthenticationError
                (String.append id (String.append " " (json message))) in
      let client := Client.reject client error (Some messageHash) in
      let client :=
        match Client.subscriptions client !! messageHash with
        | Some _ =>
            Client.set_subscriptions
              (delete messageHash (Client.subscriptions client)) client
        | None => client
        end in
      Done client
  end.

(** The channels [handleMessage] has a handler for. *)
Definition knownChannel (channel : string) : bool :=
  bool_decide (channel ∈ [ "candles"; "ticker"; "trades"; "orderbook";
                           "spot_order"; "spot_orders"; "margin_order";
                           "margin_orders"; "futures_order"; "futures_orders";
                           "spot_balance"; "futures_balance" ]%string).

(** hitbtc.ts 1222-1264.  [handleError] runs first and its exception is
    not caught here. *)
Definition handleMessage (client : Client.t) (message : Message) : Outcome :=
  match handleError message with
  | Some e => Throws e client
  | None =>
      let channel :=
        match ch message with
        | Some c => Some c
        | None => method message
        end in
      match channel with
      | Some channel =>
          let splitChannel := split "/"%char channel in
          match splitChannel !! 0%nat with
          | Some channel =>
              if knownChannel channel
              then Done (handleChannel channel client message)
              else Done client
          | None => Done client
          end
      | None =>
          let result := result message in
          let clientOrderId :=
            match result with
            | Some (RObject coid) => coid
            | _ => None
            end in
          let client :=
            match clientOrderId with
            | Some _ => handleOrderRequest client message
            | None => client
            end in
          let afterAuth :=
            match result with
            | Some RTrue =>
                if has_id message then Done client
                else handleAuthenticate client message
            | _ => Done client
            end in
          match afterAuth with
          | Throws e c => Throws e c
          | Done client =>
              match result with
              | Some (RArray elements) =>
                  match elements with
                  | [] => Done (handleOrderRequest client message)
                  | first :: _ =>
                      match first with
                      | Some _ => Done (handleOrderRequest client message)
                      | None => Done client
                      end
                  end
              | _ => Done client
              end
          end
      end
  end.

End Adapter.

End HitbtcWs.

(** ** Vocabulary of the statements *)

(** The symbol under which the bybit handler files an order book message
    received on the connection [url]. *)
Definition bybit_symbol (safeMarket : option string -> string -> string)
    (url : string) (message : BybitBook.Message) : string :=
  safeMarket (BybitBook.data_s message)
             (if contains "spot" url then "spot"%string else "contract"%string).

(** A message of the bybit order book stream is a delta when its type is
    not ["snapshot"]. *)
Definition bybit_is_delta (message : BybitBook.Message) : Prop :=
  BybitBook.type message <> Some "snapshot"%string.

(** The same message under other sequence fields. *)
Definition with_sequence (u seq : option Z) (message : BybitBook.Message)
  : BybitBook.Message :=
  {| BybitBook.topic := BybitBook.topic message;
     BybitBook.type := BybitBook.type message;
     BybitBook.ts := BybitBook.ts message;
     BybitBook.data_s := BybitBook.data_s message;
     BybitBook.data_b := BybitBook.data_b message;
     BybitBook.data_a := BybitBook.data_a message;
     BybitBook.data_u := u;
     BybitBook.data_seq := seq |}.

(** The sides a snapshot's arrays build from nothing. *)
Definition built (s : Side) (levels : list Level) : list Level :=
  fold_left (fun side lv => OrderBookSide.storeArray s lv side) levels [].

(** A market table that knows no market: the id is the symbol. *)
Definition unknownMarket (marketId : option string) (marketType : string) : string :=
  match marketId with
  | Some m => m
  | None => "undefined"%string
  end.

(** The timestamps of the stored candles increase strictly. *)
Definition increasing (l : list Cache.OHLCV) : Prop :=
  StronglySorted Z.lt (map Cache.c_timestamp l).


(** ** Scenarios and abbreviations used in the statements *)

(** The stream of the gap scenario: a snapshot, then deltas numbered
    1, 2, 3 and 5, each moving one bid level. *)
Definition gap_snapshot : BybitBook.Message :=
  BybitBook.mkMessage "orderbook.50.BTCUSDT" (Some "snapshot"%string) (Some 1000)
    (Some "BTCUSDT"%string) [(100, 1); (99, 2)] [(101, 1); (102, 3)] (Some 0) (Some 0).

Definition gap_delta (seq price amount : Z) : BybitBook.Message :=
  BybitBook.mkMessage "orderbook.50.BTCUSDT" (Some "delta"%string) (Some (1000 + seq))
    (Some "BTCUSDT"%string) [(price, amount)] [] (Some seq) (Some seq).

Definition gap_url : string := "wss://stream.bybit.com/v5/public/spot".

(** A snapshot as the exchange documents it, with its [u] and [seq]. *)
Definition documented_snapshot : BybitBook.Message :=
  BybitBook.mkMessage "orderbook.50.BTCUSDT" (Some "snapshot"%string)
    (Some 1672304484978) (Some "BTCUSDT"%string)
    [(1649350, 6); (1649300, 100)] [(1661100, 29); (1661200, 213)]
    (Some 18521288) (Some 7961638724).





(** The login frames of the two adapters. *)
Definition bybit_login_frame (apiKey secret : string)
    (hmac : string -> string -> string) (toString : Z -> string)
    (params : gmap string string) (now : Z) : Frame :=
  BybitAuth apiKey (toString (now + 10000))
            (hmac (String.append "GET/realtime" (toString (now + 10000))) secret)
            params.

Definition hitbtc_login_frame (apiKey secret : string)
    (hmac : string -> string -> string) (numberToString : Z -> string)
    (now : Z) : Frame :=
  HitbtcLogin apiKey now (hmac (numberToString now) secret).

(** The client after a first login call that sent [frame]. *)
Definition logged_in (frame : Frame) (c : Client.t) : Client.t :=
  Client.send frame
    (Client.set_subscriptions
       (<["authenticated"%string := true]> (Client.subscriptions c))
       (fst (Client.future c "authenticated"))).

(** A connection on which nothing has happened yet. *)
Definition fresh_client (url : string) : Client.t :=
  Client.mk url ∅ [] ∅ [].

(** The login failure the hitbtc adapter documents:
    [{ "jsonrpc": "2.0", "error": { "code": 1002, "message": "Authorization
    is required or has been failed", "description": "invalid signature
    format" } }]. *)
Definition hitbtc_login_failure : HitbtcWs.Message :=
  HitbtcWs.mkMessage None None
    (Some (HitbtcWs.mkErrorObject "1002"
             (Some "Authorization is required or has been failed"%string)
             (Some "invalid signature format"%string)))
    None false "{jsonrpc: 2.0, error: {code: 1002}}".

(** A bybit connection with two subscribe requests waiting. *)
Definition two_waiters : Client.t :=
  Client.mk "wss://stream.bybit.com/v5/public/spot"
    {[ "orderbook:BTC/USDT"%string := 0%nat; "trade:ETH/USDT"%string := 1%nat ]}
    [Pending; Pending]
    {[ "orderbook:BTC/USDT"%string := true; "trade:ETH/USDT"%string := true ]}
    [].

(** The rejection of a subscribe request:
    [{ success: false, ret_msg, request: { op: 'subscribe', ... } }]. *)
Definition subscribe_rejected : BybitWs.Message :=
  BybitWs.mkMessage None None (Some false)
    (Some "error:handler not found,topic:orderbook.40.BTCUSDT"%string)
    (Some "subscribe"%string) None None "{success: false}".

(** * Further code of the adapters *)

(** ** Strings: characters and separators *)

(** [c] is one of the letters [a] .. [z]. *)
Definition is_lower (c : ascii) : bool :=
  ((97 <=? nat_of_ascii c) && (nat_of_ascii c <=? 122))%nat.

(** No character of [s] is a lowercase letter. *)
Fixpoint no_lowercase (s : string) : bool :=
  match s with
  | EmptyString => true
  | String c rest => negb (is_lower c) && no_lowercase rest
  end.

(** The character [c] does not occur in [s]. *)
Fixpoint lacks (c : ascii) (s : string) : bool :=
  match s with
  | EmptyString => true
  | String d rest => negb (Ascii.eqb d c) && lacks c rest
  end.

(** ** The dispatcher of the bybit adapter (bybit.js 1714-1797) *)

Module BybitRouter.

(** The handlers [handleMessage] can call. *)
Inductive Handler : Type :=
| HandleOrderBook
| HandleOHLCV
| HandleOrder
| HandleTicker
| HandleTrades
| HandleBalance
| HandleMyTrades
| HandlePositions.

(** The table [methods] of bybit.js 1742-1757, in the order it is
    written, which is the order [Object.keys] lists it in. *)
Definition methods : list (string * Handler) :=
  [ ("orderbook", HandleOrderBook);
    ("kline", HandleOHLCV);
    ("order", HandleOrder);
    ("stopOrder", HandleOrder);
    ("ticker", HandleTicker);
    ("trade", HandleTrades);
    ("publicTrade", HandleTrades);
    ("depth", HandleOrderBook);
    ("wallet", HandleBalance);
    ("outboundAccountInfo", HandleBalance);
    ("execution", HandleMyTrades);
    ("ticketInfo", HandleMyTrades);
    ("user.openapi.perp.trade", HandleMyTrades);
    ("position", HandlePositions) ]%string.

(** [this.safeValue (methods, topic)]: the entry whose key is the topic. *)
Fixpoint exactMethod (table : list (string * Handler)) (topic : string)
  : option Handler :=
  match table with
  | [] => None
  | (key, method) :: rest =>
      if String.eqb topic key then Some method else exactMethod rest topic
  end.

(** The loop of bybit.js 1763-1771: the first key, in table order, that
    occurs in the topic. *)
Fixpoint firstKeyIn (table : list (string * Handler)) (topic : string)
  : option Handler :=
  match table with
  | [] => None
  | (key, method) :: rest =>
      if contains key topic then Some method else firstKeyIn rest topic
  end.

(** An inbound message as [handleMessage] reads it: the fields the error
    and authentication handlers read, and ["pong"] (when it is an integer),
    ["event"] and ["topic"]. *)
Record Message : Type := mkMessage {
  base : BybitWs.Message;
  pong : option Z;
  event : option string;
  topic : option string
}.

(** What [handleMessage] does with a message: the branch it leaves
    through, with the client an inline handler left or the data handler it
    calls on the message. *)
Inductive Dispatch : Type :=
| ErrorHandled (client : Client.t)
| PongHandled (lastPong : option Z)
| SubscriptionStatus
| Call (method : Handler)
| Authenticated (outcome : Outcome)
| Unhandled.

Section Adapter.
Variable id : string.
Variable exact : gmap string ErrorClass.

(** bybit.js 1784-1797: [client.lastPong = this.safeInteger (message,
    'pong')]. *)
Definition handlePong (message : Message) : option Z := pong message.

(** bybit.js 1714-1777. *)
Definition handleMessage (client : Client.t) (message : Message) : Dispatch :=
  let '(rejected, handled) :=
    BybitWs.handleErrorMessage id exact client (base message) in
  if handled then ErrorHandled rejected
  else
    let ret_msg := BybitWs.ret_msg (base message) in
    if bool_decide (ret_msg = Some "pong"%string) then
      PongHandled (handlePong message)
    else
      match pong message with
      | Some _ => PongHandled (handlePong message)
      | None =>
          let op := BybitWs.op (base message) in
          if bool_decide (op = Some "pong"%string) then
            PongHandled (handlePong message)
          else if bool_decide (event message = Some "sub"%string) then
            SubscriptionStatus
          else
            let topic := default EmptyString (topic message) in
            match exactMethod methods topic with
            | Some method => Call method
            | None =>
                match firstKeyIn methods topic with
                | Some method => Call method
                | None =>
                    let type := BybitWs.type (base message) in
                    if bool_decide (op = Some "auth"%string)
                       || bool_decide (type = Some "AUTH_RESP"%string)
                    then Authenticated
                           (BybitWs.handleAuthenticate id client (base message))
                    else Unhandled
                end
            end
      end.

End Adapter.

(** bybit.js 759-769. *)
Definition getPrivateType (url : string) : string :=
  if contains "spot" url then "spot"
  else if contains "v5/private" url then "unified"
  else "usdc".

End BybitRouter.

(** ** Vocabulary for the dispatcher statements *)

(** The handler the bybit dispatcher picks for a topic: the exact entry of
    the table, else the first key contained in the topic. *)
Definition bybit_route (topic : string) : option BybitRouter.Handler :=
  match BybitRouter.exactMethod BybitRouter.methods topic with
  | Some method => Some method
  | None => BybitRouter.firstKeyIn BybitRouter.methods topic
  end.

(** A message that is neither an error, nor a pong, nor a subscription
    status: the ones that reach the topic table. *)
Definition bybit_data_message (id : string) (exact : gmap string ErrorClass)
    (message : BybitRouter.Message) : Prop :=
  BybitWs.raised id exact (BybitRouter.base message) = None /\
  BybitWs.ret_msg (BybitRouter.base message) <> Some "pong"%string /\
  BybitRouter.pong message = None /\
  BybitWs.op (BybitRouter.base message) <> Some "pong"%string /\
  BybitRouter.event message <> Some "sub"%string.

(** Every data message carrying the topic is handed by [handleMessage] to
    the handler [method]. *)
Definition bybit_dispatches_to (method : BybitRouter.Handler) (topic : string)
  : Prop :=
  forall (id : string) (exact : gmap string ErrorClass) (client : Client.t)
         (message : BybitRouter.Message),
    bybit_data_message id exact message ->
    BybitRouter.topic message = Some topic ->
    BybitRouter.handleMessage id exact client message = BybitRouter.Call method.

(** ** The watchers of the bybit adapter: what they subscribe to *)

(** A JSON value of an outbound frame. *)
Inductive JVal : Type :=
| JString (s : string)
| JNumber (n : Z)
| JStrings (l : list string).

Module BybitWatch.

(** The fields of a market that the watchers read. *)
Record Market : Type := mkMarket {
  id : string;
  symbol : string;
  spot : bool
}.

(** What a watcher hands to [watchTopics]. *)
Record Subscription : Type := mkSubscription {
  sub_url : string;
  sub_messageHashes : list string;
  sub_topics : list string;
  sub_params : gmap string string
}.


(** bybit.js 168-171: [this.omit (params, [...])]. *)
Definition cleanParams (params : gmap string string) : gmap string string :=
  delete "unifiedMargin"%string
    (delete "defaultSettle"%string
       (delete "settle"%string
          (delete "subType"%string (delete "type"%string params)))).


Definition ArgumentsRequired (text : string) : Error :=
  mkError (OtherError "ArgumentsRequired") text.

Definition BadRequest (text : string) : Error :=
  mkError (OtherError "BadRequest") text.

Section Adapter.
(** [this.id], the market table ([market], [marketId], [marketSymbols]),
    the choice of the public URL ([getUrlByMarketType (symbol, false,
    params)]), the table [this.timeframes], number formatting and the
    options [watchTicker.name] / [watchTickers.name] are external. *)
Variable exchangeId : string.
Variable market : option string -> Market.
Variable marketId : string -> string.
Variable marketSymbols : list string -> list string.
Variable publicUrl : option string -> gmap string string -> string.
Variable timeframes : gmap string string.
Variable toString : Z -> string.
Variable watchTickerName : option string.
Variable watchTickersName : option string.

(** bybit.js 489-519, up to the call of [watchTopics]. *)
Definition watchOrderBookForSymbols (symbols : list string) (limit : option Z)
    (params : gmap string string) : Error + Subscription :=
  let symbolsLength := length symbols in
  if (symbolsLength =? 0)%nat then
    inl (ArgumentsRequired
           (String.append exchangeId
              " watchOrderBookForSymbols() requires a non-empty array of symbols"))
  else
    let symbols := marketSymbols symbols in
    let url := publicUrl (symbols !! 0%nat) params in
    let params := cleanParams params in
    let market := market (symbols !! 0%nat) in
    let checked : Error + Z :=
      match limit with
      | None => inr (if spot market then 50 else 500)
      | Some limit =>
          if negb (spot market)
             && (negb (limit =? 1) && negb (limit =? 50)
                 && negb (limit =? 200) && negb (limit =? 500))
          then
            inl (BadRequest
                   (String.append exchangeId
                      " watchOrderBookForSymbols() can only use limit 1, 50, 200 and 500."))
          else inr limit
      end in
    match checked with
    | inl e => inl e
    | inr limit =>
        let topics :=
          map (fun symbol =>
                 String.append "orderbook."
                   (String.append (toString limit)
                      (String.append "." (marketId symbol)))) symbols in
        let messageHashes :=
          map (fun symbol => String.append "orderbook:" symbol) symbols in
        inr (mkSubscription url messageHashes topics params)
    end.

(** bybit.js 620-638, up to the call of [watchTopics]. *)
Definition watchTradesForSymbols (symbols : list string)
    (params : gmap string string) : Error + Subscription :=
  let symbols := marketSymbols symbols in
  let symbolsLength := length symbols in
  if (symbolsLength =? 0)%nat then
    inl (ArgumentsRequired
           (String.append exchangeId
              " watchTradesForSymbols() requires a non-empty array of symbols"))
  else
    let params := cleanParams params in
    let url := publicUrl (symbols !! 0%nat) params in
    let topics :=
      map (fun symbol => String.append "publicTrade." (id (market (Some symbol))))
          symbols in
    let messageHashes :=
      map (fun symbol => String.append "trade:" symbol) symbols in
    inr (mkSubscription url messageHashes topics params).

(** bybit.js 374-383, up to the call of [watchTopics]. *)
Definition watchOHLCV (symbol timeframe : string) (params : gmap string string)
  : Subscription :=
  let market := market (Some symbol) in
  let symbol := BybitWatch.symbol market in
  let url := publicUrl (Some symbol) params in
  let params := cleanParams params in
  let timeframeId :=
    match timeframes !! timeframe with
    | Some tf => tf
    | None => timeframe
    end in
  let topics :=
    [ String.append "kline."
        (String.append timeframeId (String.append "." (id market))) ] in
  let messageHash :=
    String.append "kline:"
      (String.append timeframeId (String.append ":" symbol)) in
  mkSubscription url [messageHash] topics params.

(** bybit.js 183-196, up to the call of [watchTopics]. *)
Definition watchTicker (symbol : string) (params : gmap string string)
  : Error + Subscription :=
  let market := market (Some symbol) in
  let symbol := BybitWatch.symbol market in
  let messageHash := String.append "ticker:" symbol in
  let url := publicUrl (Some symbol) params in
  let params := cleanParams params in
  let topic :=
    match watchTickerName with
    | Some name => name
    | None => "tickers"%string
    end in
  if negb (spot market) && negb (String.eqb topic "tickers") then
    inl (BadRequest
           (String.append exchangeId
              " watchTicker() only supports name tickers for contract markets"))
  else
    let topic := String.append topic (String.append "." (id market)) in
    inr (mkSubscription url [messageHash] [topic] params).

(** bybit.js 209-223, up to the call of [watchTopics]; here
    [marketSymbols] is called as [marketSymbols (symbols, undefined,
    false)], [this.marketIds (symbols)] is the list of the symbols' market
    ids, and the loop pairs the i-th id with the i-th symbol. *)
Definition watchTickers (symbols : list string) (params : gmap string string)
  : Subscription :=
  let symbols := marketSymbols symbols in
  let url := publicUrl (symbols !! 0%nat) params in
  let params := cleanParams params in
  let topic :=
    match watchTickersName with
    | Some name => name
    | None => "tickers"%string
    end in
  let marketIds := map marketId symbols in
  let topics :=
    map (fun marketId => String.append topic (String.append "." marketId))
        marketIds in
  let messageHashes :=
    map (fun symbol => String.append "ticker:" symbol) symbols in
  mkSubscription url messageHashes topics params.

End Adapter.

(** The topics of the private watchers, chosen by [getPrivateType (url)]
    from the tables of [watchMyTrades] (bybit.js 792-797), [watchOrders]
    (1061-1066), [watchPositions] (931) and [watchBalance] (1347-1383); a
    type the table lacks gives [undefined]. *)
Definition myTradesTopic (url : string) : option string :=
  ({[ "spot" := "ticketInfo"; "unified" := "execution";
      "usdc" := "user.openapi.perp.trade" ]} : gmap string string)%string
    !! BybitRouter.getPrivateType url.

Definition ordersTopics (url : string) : option (list string) :=
  ({[ "spot" := ["order"; "stopOrder"]; "unified" := ["order"];
      "usdc" := ["user.openapi.perp.order"] ]} : gmap string (list string))%string
    !! BybitRouter.getPrivateType url.

Definition positionsTopics : list string := ["position"%string].

Definition balanceTopic (url : string) : option string :=
  ({[ "spot" := "outboundAccountInfo"; "unified" := "wallet" ]}
     : gmap string string)%string
    !! BybitRouter.getPrivateType url.

End BybitWatch.

(** The names of the ticker stream that [describe] documents for the
    options [watchTicker] / [watchTickers]: none set, ['tickers'] or
    ['tickers_lt']. *)
Definition documented_ticker_name (name : option string) : Prop :=
  name = None \/ name = Some "tickers"%string \/ name = Some "tickers_lt"%string.

(** The limits [watchOrderBookForSymbols] accepts for a contract market. *)
Definition bybit_contract_limit (limit : Z) : Prop :=
  limit = 1 \/ limit = 50 \/ limit = 200 \/ limit = 500.



(** The market type the bybit handlers give to [safeMarket] on the
    connection [url]. *)
Definition bybit_market_type (url : string) : string :=
  if contains "spot" url then "spot"%string else "contract"%string.


(** ** The connection a bybit watcher uses (bybit.js 129-167) *)

Module BybitUrl.

(** The fields of a market that [getUrlByMarketType] reads. *)
Record Market : Type := mkMarket {
  settle : option string;
  type : option string
}.

(** [this.urls['api']['ws']['public']] (bybit.js 40-45). *)
Definition publicUrls : gmap string string :=
  {[ "spot" := "wss://stream.{hostname}/v5/public/spot";
     "inverse" := "wss://stream.{hostname}/v5/public/inverse";
     "option" := "wss://stream.{hostname}/v5/public/option";
     "linear" := "wss://stream.{hostname}/v5/public/linear" ]}%string.

(** The two entries of [this.urls['api']['ws']['private']] that
    [getUrlByMarketType] reads (bybit.js 51-52); the entry ['spot'] of that
    table is an object and is not read. *)
Definition privateContract : string := "wss://stream.{hostname}/v5/private".
Definition privateUsdc : string :=
  "wss://stream.{hostname}/trade/option/usdc/private/v1".

Section Adapter.
(** The market table, the resolution of the market type and sub type from
    the method and the params, the option ['defaultSettle'] and the
    substitution of the host name are external.  [implodeHostname] is given
    the table entry, which is [undefined] when the table has none. *)
Variable market : string -> Market.
Variable handleMarketTypeAndParams :
  option string -> gmap string string -> option string * gmap string string.
Variable handleSubTypeAndParams :
  option string -> option Market -> gmap string string -> string * gmap string string.
Variable defaultSettleOption : option string.
Variable implodeHostname : option string -> string.

(** The flag [isUsdcSettled] of bybit.js 136-147. *)
Definition isUsdcSettled (symbol : option string) (method : option string)
    (params : gmap string string) : bool :=
  match symbol with
  | Some symbol => bool_decide (settle (market symbol) = Some "USDC"%string)
  | None =>
      let '(_, params) := handleMarketTypeAndParams method params in
      let defaultSettle :=
        match params !! "settle"%string with
        | Some v => Some v
        | None =>
            match params !! "defaultSettle"%string with
            | Some v => Some v
            | None => defaultSettleOption
            end
        end in
      bool_decide (defaultSettle = Some "USDC"%string)
  end.

(** bybit.js 129-167. *)
Definition getUrlByMarketType (symbol : option string) (isPrivate : bool)
    (method : option string) (params : gmap string string) : string :=
  let type :=
    match symbol with
    | Some symbol => type (market symbol)
    | None => fst (handleMarketTypeAndParams method params)
    end in
  let params' :=
    match symbol with
    | Some _ => params
    | None => snd (handleMarketTypeAndParams method params)
    end in
  let isSpot := bool_decide (type = Some "spot"%string) in
  let url :=
    if isPrivate then
      if isUsdcSettled symbol method params
      then Some privateUsdc else Some privateContract
    else if isSpot then publicUrls !! "spot"%string
    else if bool_decide (type = Some "swap"%string) then
      let subType :=
        fst (handleSubTypeAndParams method (market <$> symbol) params') in
      publicUrls !! subType
    else publicUrls !! "option"%string in
  implodeHostname url.

End Adapter.

End BybitUrl.

(** The host name substitution keeps what [getPrivateType] looks for: the
    two markers occur in the URL exactly when they occur in the table
    entry. *)
Definition keeps_private_markers (implodeHostname : option string -> string) : Prop :=
  Forall (fun entry =>
            contains "spot" (implodeHostname (Some entry)) = contains "spot" entry /\
            contains "v5/private" (implodeHostname (Some entry))
            = contains "v5/private" entry)
         [BybitUrl.privateContract; BybitUrl.privateUsdc].

(** [implodeHostname] for a given host name: every ['{hostname}'] of the
    entry is replaced by the host name; [skip] counts the characters of a
    placeholder still to be dropped. *)
Fixpoint implode_from (hostname : string) (skip : nat) (s : string) : string :=
  match s with
  | EmptyString => EmptyString
  | String c rest =>
      match skip with
      | S k => implode_from hostname k rest
      | O =>
          if String.prefix "{hostname}" s
          then String.append hostname (implode_from hostname 9 rest)
          else String c (implode_from hostname 0 rest)
      end
  end.

Definition implode_with (hostname : string) (entry : option string) : string :=
  match entry with
  | Some s => implode_from hostname 0 s
  | None => "undefined"%string
  end.

(** ** The private handlers of the bybit adapter: what they resolve *)

Module BybitPrivate.
Import Cache.

(** The ["data"] of a private message: an array of raw items, or an
    object whose ["result"], when it has one, is such an array. *)
Inductive Data (Raw : Type) : Type :=
| DArray (elements : list Raw)
| DObject (result : option (list Raw)).
Arguments DArray {Raw} _.
Arguments DObject {Raw} _.

(** [{ topic, data }]; a message without ["data"] has [None]. *)
Record Message (Raw : Type) : Type := mkMessage {
  topic : option string;
  data : option (Data Raw)
}.
Arguments mkMessage {Raw} _ _.
Arguments topic {Raw} _.
Arguments data {Raw} _.

(** [symbols[symbol] = true]: the keys of the object in the order they
    were first set, which is the order [Object.keys] lists them in when
    none of them is an array index. *)
Definition mark (symbols : list string) (symbol : string) : list string :=
  if bool_decide (symbol ∈ symbols) then symbols else symbols ++ [symbol].

Section Handlers.
Context {Raw Parsed : Type}.
(** The parsers ([parseWsTrade], [parseTrade], [parseWsSpotOrder],
    [parseOrder]), the field ['symbol'] of what they return, the key of the
    by-id cache and the field ['category'] of a raw order are external. *)
Variable symbolOf : Parsed -> string.
Variable key : Parsed -> string * string.
Variable parseWsTrade parseTrade : Raw -> Parsed.
Variable parseWsSpotOrder parseOrder : Raw -> Parsed.
Variable category : Raw -> option string.

(** The loop of bybit.js 879-891 and 1170-1181: every raw item is parsed,
    its symbol marked and the parsed item appended to the cache. *)
Definition appendAll (parse : Raw -> Parsed) (raws : list Raw)
    (cache : ArrayCache Parsed) : ArrayCache Parsed * list string :=
  fold_left (fun acc raw =>
               let parsed := parse raw in
               (appendById key (fst acc) parsed, mark (snd acc) (symbolOf parsed)))
            raws (cache, []).

(** bybit.js 804-900.  The result is the cache [this.myTrades] and the
    message hashes handed to [client.resolve], in order; each is resolved
    with that cache. *)
Definition handleMyTrades (options : gmap string nat)
    (myTrades : option (ArrayCache Parsed)) (message : Message Raw)
  : ArrayCache Parsed * list string :=
  let spot := bool_decide (topic message = Some "ticketInfo"%string) in
  let data :=
    match data message with
    | None => []
    | Some (DArray elements) => elements
    | Some (DObject (Some result)) => result
    | Some (DObject None) => []
    end in
  let trades :=
    match myTrades with
    | Some cache => cache
    | None => newArrayCache (safeInteger options "tradesLimit" 1000)
    end in
  let '(trades, symbols) :=
    appendAll (if spot then parseWsTrade else parseTrade) data trades in
  let resolved :=
    map (fun key => String.append "myTrades:" key) symbols in
  (trades, resolved ++ ["myTrades"%string]).

(** bybit.js 1073-1189.  An object without ["result"] is left as it is
    and has no [length], so the loop does not run. *)
Definition handleOrder (options : gmap string nat)
    (orders : option (ArrayCache Parsed)) (message : Message Raw)
  : ArrayCache Parsed * list string :=
  let orders :=
    match orders with
    | Some cache => cache
    | None => newArrayCache (safeInteger options "ordersLimit" 1000)
    end in
  let first :=
    match data message with
    | Some (DArray (first :: _)) => Some first
    | _ => None
    end in
  let category :=
    match first with
    | Some first => category first
    | None => None
    end in
  let isSpot := bool_decide (category = Some "spot"%string) in
  let rawOrders :=
    match data message with
    | None => []
    | Some (DArray elements) => elements
    | Some (DObject (Some result)) => if isSpot then [] else result
    | Some (DObject None) => []
    end in
  let '(orders, symbols) :=
    appendAll (if isSpot then parseWsSpotOrder else parseOrder) rawOrders orders in
  let resolved :=
    map (fun key => String.append "orders:" key) symbols in
  (orders, resolved ++ ["orders"%string]).

End Handlers.

End BybitPrivate.

(** The raw items a private bybit message carries. *)
Definition bybit_private_items {Raw : Type} (message : BybitPrivate.Message Raw)
  : list Raw :=
  match BybitPrivate.data message with
  | Some (BybitPrivate.DArray elements) => elements
  | Some (BybitPrivate.DObject (Some result)) => result
  | _ => []
  end.

(** The ['category'] of the first item of an array-shaped private
    message. *)
Definition bybit_first_category {Raw : Type} (category : Raw -> option string)
    (message : BybitPrivate.Message Raw) : option string :=
  match BybitPrivate.data message with
  | Some (BybitPrivate.DArray (first :: _)) => category first
  | _ => None
  end.

(** ** hitbtc: channel names, message hashes and the channel table *)

(** JS [s.split (sep)[0]] for a separator of several characters: the part
    of [s] before the first occurrence of [sep], all of [s] when there is
    none. *)
Fixpoint before_first (sep s : string) : string :=
  match s with
  | EmptyString => EmptyString
  | String c rest =>
      if String.prefix sep s then EmptyString
      else String c (before_first sep rest)
  end.

Module HitbtcRouter.

(** The handlers of channel data. *)
Inductive Handler : Type :=
| HandleOHLCV
| HandleTicker
| HandleTrades
| HandleOrderBook
| HandleOrder
| HandleBalance.

(** The table [methods] of hitbtc.ts 1228-1241. *)
Definition methods : gmap string Handler :=
  {[ "candles" := HandleOHLCV;
     "ticker" := HandleTicker;
     "trades" := HandleTrades;
     "orderbook" := HandleOrderBook;
     "spot_order" := HandleOrder;
     "spot_orders" := HandleOrder;
     "margin_order" := HandleOrder;
     "margin_orders" := HandleOrder;
     "futures_order" := HandleOrder;
     "futures_orders" := HandleOrder;
     "spot_balance" := HandleBalance;
     "futures_balance" := HandleBalance ]}%string.

(** hitbtc.ts 1224-1245: the handler [handleMessage] calls for a message
    with the fields ["ch"] and ["method"], once [handleError] has
    returned. *)
Definition channelMethod (ch method : option string) : option Handler :=
  let channel :=
    match ch with
    | Some c => Some c
    | None => method
    end in
  match channel with
  | Some channel =>
      let splitChannel := split "/"%char channel in
      match splitChannel !! 0%nat with
      | Some channel => methods !! channel
      | None => None
      end
  | None => None
  end.

End HitbtcRouter.

Module HitbtcNames.

(** hitbtc.ts 127-130: the message hash of [subscribePublic]. *)
Definition publicHash (name : string) (symbols : option (list string)) : string :=
  match symbols with
  | Some syms => String.append name (String.append "::" (HitbtcWs.join syms))
  | None => name
  end.

(** [safeString (array, 0)] of a split string: an empty first part reads
    as [undefined]. *)
Definition firstPart (sep s : string) : option string :=
  let part := before_first sep s in
  if String.eqb part EmptyString then None else Some part.

(** hitbtc.ts 151-155: the message hash of [subscribePrivate]; an
    undefined first part is concatenated as ['undefined']. *)
Definition privateHash (name : string) (symbol : option string) : option string :=
  let messageHash := firstPart "_subscribe" name in
  match symbol with
  | Some symbol =>
      Some (String.append (BybitWs.orUndefined messageHash)
              (String.append "::" symbol))
  | None => messageHash
  end.

(** hitbtc.ts 631-632: the channel of [watchOHLCV]; [timeframes] is
    [this.timeframes]. *)
Definition watchOHLCVName (timeframes : gmap string string) (timeframe : string)
  : string :=
  let period :=
    match timeframes !! timeframe with
    | Some p => p
    | None => timeframe
    end in
  String.append "candles/" period.

(** hitbtc.ts 487-514: the channel of [watchTrades]. *)
Definition watchTradesName : string := "trades".





End HitbtcNames.

(** The methods of [watchOrderBook] that [describe] documents. *)
Definition hitbtc_orderbook_methods : list string :=
  [ "orderbook/full"; "orderbook/{depth}/{speed}";
    "orderbook/{depth}/{speed}/batch"; "orderbook/top/{speed}";
    "orderbook/top/{speed}/batch" ]%string.

(** The method [watchOrderBook] starts from: the param ['method'], else the
    param ['defaultMethod'], else the option, else ['orderbook/full']. *)
Definition hitbtc_orderbook_method (optionsMethod : option string)
    (params : gmap string string) : string :=
  HitbtcWs.safeString2 params "method" "defaultMethod"
    (default "orderbook/full"%string optionsMethod).

(** ** bingx: watchers, candle and trade handlers, dispatch *)

Module BingxWatch.

(** The fields of a market that the watchers read. *)
Record Market : Type := mkMarket {
  id : string;
  symbol : string
}.

(** [this.urls['api']['ws']] (luno.d.ts 52-57). *)
Definition urls : gmap string string :=
  {[ "spot" := "wss://open-api-ws.bingx.com/market";
     "swap" := "wss://open-api-swap.bingx.com/swap-market" ]}%string.

(** What a public watcher hands to [this.watch]: the URL, the message
    hash (which is also the subscribe hash) and the request. *)
Record Subscription : Type := mkSubscription {
  sub_url : string;
  sub_messageHash : string;
  sub_request : gmap string JVal
}.

Definition BadRequest (text : string) : Error :=
  mkError (OtherError "BadRequest") text.

(** The request [{ id: uuid, dataType: messageHash }], with
    [reqType: 'sub'] for a swap market, and the query laid over it. *)
Definition request (uuid messageHash marketType : string)
    (query : gmap string string) : gmap string JVal :=
  let request : gmap string JVal :=
    {[ "id"%string := JString uuid; "dataType"%string := JString messageHash ]} in
  let request :=
    if String.eqb marketType "swap"
    then <["reqType"%string := JString "sub"]> request else request in
  (JString <$> query) ∪ request.

Section Adapter.
(** [this.id], number formatting and [this.uuid ()] are external; the
    market type and the query are what [handleMarketTypeAndParams] gives
    for the market and the params. *)
Variable exchangeId : string.
Variable toString : Z -> string.
Variable uuid : string.

(** luno.d.ts 224-267, up to the call of [this.watch]. *)
Definition watchOrderBook (market : Market) (marketType : string)
    (query : gmap string string) (limit : option Z) : Error + Subscription :=
  let checked : Error + Z :=
    match limit with
    | None => inr 100
    | Some limit =>
        if String.eqb marketType "swap" then
          if negb (limit =? 5) && negb (limit =? 10) && negb (limit =? 20)
             && negb (limit =? 50) && negb (limit =? 100)
          then inl (BadRequest
                      (String.append exchangeId
                         " watchOrderBook() (swap) only supports limit 5, 10, 20, 50, and 100"))
          else inr limit
        else if String.eqb marketType "spot" then
          if negb (limit =? 20) && negb (limit =? 100)
          then inl (BadRequest
                      (String.append exchangeId
                         " watchOrderBook() (spot) only supports limit 20, and 100"))
          else inr limit
        else inr limit
    end in
  match checked with
  | inl e => inl e
  | inr limit =>
      match urls !! marketType with
      | None =>
          inl (BadRequest
                 (String.append exchangeId
                    (String.append " watchOrderBook is not supported for "
                       (String.append marketType " markets."))))
      | Some url =>
          let messageHash :=
            String.append (id market) (String.append "@depth" (toString limit)) in
          inr (mkSubscription url messageHash
                 (request uuid messageHash marketType query))
      end
  end.

(** luno.d.ts 103-137, up to the call of [this.watch]. *)
Definition watchTrades (market : Market) (marketType : string)
    (query : gmap string string) : Error + Subscription :=
  match urls !! marketType with
  | None =>
      inl (BadRequest
             (String.append exchangeId
                (String.append " watchTrades is not supported for "
                   (String.append marketType " markets."))))
  | Some url =>
      let messageHash := String.append (id market) "@trade" in
      inr (mkSubscription url messageHash
             (request uuid messageHash marketType query))
  end.

(** luno.d.ts 431-468, up to the call of [this.watch]; [timeframes] is
    [this.options[marketType]['timeframes']], empty when there is none. *)
Definition watchOHLCV (market : Market) (marketType : string)
    (query : gmap string string) (timeframes : gmap string string)
    (timeframe : string) : Error + Subscription :=
  match urls !! marketType with
  | None =>
      inl (BadRequest
             (String.append exchangeId
                (String.append " watchOHLCV is not supported for "
                   (String.append marketType " markets."))))
  | Some url =>
      let interval :=
        match timeframes !! timeframe with
        | Some i => i
        | None => timeframe
        end in
      let messageHash :=
        String.append (id market) (String.append "@kline_" interval) in
      inr (mkSubscription url messageHash
             (request uuid messageHash marketType query))
  end.

End Adapter.

(** luno.d.ts 470-516 and 518-564: the message hash of [watchOrders]
    ([kind] is ['order']) and of [watchMyTrades] ([kind] is ['mytrades'])
    for the market type [type] and the symbol of the market, if one is
    given. *)
Definition privateHash (kind : string) (type : option string)
    (symbol : option string) : string :=
  let isSpot := bool_decide (type = Some "spot"%string) in
  let messageHash :=
    String.append (if isSpot then "spot:" else "swap:") kind in
  match symbol with
  | Some symbol => String.append messageHash (String.append ":" symbol)
  | None => messageHash
  end.

(** The request of [watchOrders] and [watchMyTrades]: only a spot
    subscription sends one. *)
Definition privateRequest (uuid : string) (type : option string)
  : option (gmap string JVal) :=
  if bool_decide (type = Some "spot"%string)
  then Some {[ "id"%string := JString uuid;
               "dataType"%string := JString "spot.executionReport" ]}
  else None.

End BingxWatch.

Module BingxSeries.
Import Cache.

(** The ["data"] of a public message: an array of raw items or a single
    one. *)
Inductive Data (Raw : Type) : Type :=
| Many (elements : list Raw)
| One (element : Raw).
Arguments Many {Raw} _.
Arguments One {Raw} _.

(** [{ dataType, data }]; a message without ["data"] has the empty
    array. *)
Record Message (Raw : Type) : Type := mkMessage {
  dataType : string;
  data : Data Raw
}.
Arguments mkMessage {Raw} _ _.
Arguments dataType {Raw} _.
Arguments data {Raw} _.

Section Handlers.
(** The market table is external; a market is identified by its
    symbol. *)
Variable safeMarket : option string -> string -> string.

Definition marketType (url : string) : string :=
  if contains "swap" url then "swap"%string else "spot"%string.

Section Trades.
Context {RawTrade Trade : Type}.
Variable parseTrades : list RawTrade -> string -> list Trade.
Variable parseTrade : RawTrade -> string -> Trade.

(** luno.d.ts 139-222. *)
Definition handleTrades (url : string) (options : gmap string nat)
    (trades : gmap string (ArrayCache Trade)) (message : Message RawTrade)
  : gmap string (ArrayCache Trade) * (string * ArrayCache Trade) :=
  let messageHash := dataType message in
  let marketId := Some (BingxBook.before_at messageHash) in
  let symbol := safeMarket marketId (marketType url) in
  let parsed :=
    match data message with
    | Many elements => parseTrades elements symbol
    | One element => [parseTrade element symbol]
    end in
  let stored :=
    match trades !! symbol with
    | Some st => st
    | None => newArrayCache (safeInteger options "tradesLimit" 1000)
    end in
  let stored := fold_left append parsed stored in
  (<[symbol := stored]> trades, (messageHash, stored)).
End Trades.

Section Candles.
Context {RawCandle : Type}.
(** [parseWsOHLCV (candle, market)] and the field ['K'] of a single
    item. *)
Variable parseWsOHLCV : RawCandle -> string -> OHLCV.
Variable fieldK : RawCandle -> RawCandle.

(** luno.d.ts 357-429.  The candles are filed under the timeframe id read
    from the data type, [messageHash.split ('_')[1]]; when the data type
    has no second part the key is [undefined]. *)
Definition handleOHLCV (url : string) (options : gmap string nat)
    (ohlcvs : gmap string (gmap string (ArrayCache OHLCV)))
    (message : Message RawCandle)
  : gmap string (gmap string (ArrayCache OHLCV)) * (string * ArrayCache OHLCV) :=
  let candles :=
    match data message with
    | Many elements => elements
    | One element => [fieldK element]
    end in
  let messageHash := dataType message in
  let timeframeId :=
    BybitWs.orUndefined (split "_"%char messageHash !! 1%nat) in
  let marketId := Some (BingxBook.before_at messageHash) in
  let symbol := safeMarket marketId (marketType url) in
  let byTimeframe :=
    match ohlcvs !! symbol with
    | Some tfs => tfs
    | None => ∅
    end in
  let stored :=
    match byTimeframe !! timeframeId with
    | Some st => st
    | None => newArrayCache (safeInteger options "OHLCVLimit" 1000)
    end in
  let stored :=
    fold_left (fun st candle => appendByTimestamp st (parseWsOHLCV candle symbol))
              candles stored in
  (<[symbol := <[timeframeId := stored]> byTimeframe]> ohlcvs, (messageHash, stored)).
End Candles.

End Handlers.

End BingxSeries.

Module BingxRouter.

(** The fields of an inbound object that [handleMessage] reads: ["code"],
    the text [this.json (message)], whether it has a ["ping"] and a
    ["dataType"], ["data"]["x"], ["e"], and ["o"]["x"] and ["o"]["X"]. *)
Record Fields : Type := mkFields {
  code : option string;
  json : string;
  has_ping : bool;
  dataType : option string;
  data_x : option string;
  e : option string;
  o_x : option string;
  o_X : option string
}.

(** An inbound message: the text ['Ping'] or an object. *)
Inductive Message : Type :=
| Ping
| Object (fields : Fields).

(** The handlers [handleMessage] calls. *)
Inductive Call : Type :=
| CallPong
| CallOrderBook
| CallTrades
| CallOHLCV
| CallMyTrades
| CallOrder
| CallBalance.

Section Adapter.
Variable id : string.
Variable exact : gmap string ErrorClass.

(** luno.d.ts 936-980: the client [handleErrorMessage] leaves and the
    handlers called on the message, in order. *)
Definition handleMessage (client : Client.t) (message : Message)
  : Client.t * list Call :=
  let '(client, ok) :=
    match message with
    | Ping => BingxWs.handleErrorMessage id exact client None EmptyString
    | Object fields =>
        BingxWs.handleErrorMessage id exact client (code fields) (json fields)
    end in
  if negb ok then (client, [])
  else
    match message with
    | Ping => (client, [CallPong])
    | Object fields =>
        if has_ping fields then (client, [CallPong])
        else
          let dataType :=
            match dataType fields with
            | Some d => d
            | None => EmptyString
            end in
          if contains "@depth" dataType then (client, [CallOrderBook])
          else if contains "@trade" dataType then (client, [CallTrades])
          else if contains "@kline" dataType then (client, [CallOHLCV])
          else if contains "executionReport" dataType then
            let type := data_x fields in
            (client,
             (if bool_decide (type = Some "TRADE"%string) then [CallMyTrades] else [])
             ++ [CallOrder])
          else
            let e := e fields in
            let balance :=
              if bool_decide (e = Some "ACCOUNT_UPDATE"%string)
              then [CallBalance] else [] in
            let order :=
              if bool_decide (e = Some "ORDER_TRADE_UPDATE"%string) then
                let type := o_x fields in
                let status := o_X fields in
                CallOrder
                :: (if bool_decide (type = Some "TRADE"%string)
                       && bool_decide (status = Some "FILLED"%string)
                    then [CallMyTrades] else [])
              else [] in
            (client, balance ++ order)
    end.

End Adapter.

(** luno.d.ts 700-799 and 801-874: the two message hashes [handleOrder]
    ([kind] is ['order']) and [handleMyTrades] ([kind] is ['mytrades'])
    resolve for a message and the symbol of what they parsed from it. *)
Definition privateHashes (kind : string) (message : Fields) (symbol : string)
  : list string :=
  let isSpot :=
    match dataType message with
    | Some _ => true
    | None => false
    end in
  let messageHash := String.append (if isSpot then "spot:" else "swap:") kind in
  [messageHash; String.append messageHash (String.append ":" symbol)].

End BingxRouter.

(** The limits bingx's [watchOrderBook] accepts for a market type. *)
Definition bingx_limit_ok (marketType : string) (limit : Z) : Prop :=
  (marketType = "swap"%string ->
   limit = 5 \/ limit = 10 \/ limit = 20 \/ limit = 50 \/ limit = 100) /\
  (marketType = "spot"%string -> limit = 20 \/ limit = 100).

(** The same object under another ["code"] and text. *)
Definition bingx_with_code (code : option string) (json : string)
    (fields : BingxRouter.Fields) : BingxRouter.Fields :=
  {| BingxRouter.code := code;
     BingxRouter.json := json;
     BingxRouter.has_ping := BingxRouter.has_ping fields;
     BingxRouter.dataType := BingxRouter.dataType fields;
     BingxRouter.data_x := BingxRouter.data_x fields;
     BingxRouter.e := BingxRouter.e fields;
     BingxRouter.o_x := BingxRouter.o_x fields;
     BingxRouter.o_X := BingxRouter.o_X fields |}.

(** ** bingx: the listen key (luno.d.ts 655-671) *)

Module BingxAuth.

(** The options [authenticate] reads and writes. *)
Record Options : Type := mkOptions {
  listenKey : option string;
  lastAuthenticatedTime : option Z;
  listenKeyRefreshRate : option Z
}.

(** The REST calls [authenticate] makes. *)
Inductive Rest : Type :=
| PostUserDataStream
| PutUserDataStream (listenKey : string).

Section Adapter.
(** The ['listenKey'] of the responses of the two REST endpoints. *)
Variable postResponse : option string.
Variable putResponse : string -> option string.

(** luno.d.ts 655-671; [time] is [this.milliseconds ()]. *)
Definition authenticate (options : Options) (time : Z) : Options * list Rest :=
  match listenKey options with
  | None =>
      ({| listenKey := postResponse;
          lastAuthenticatedTime := Some time;
          listenKeyRefreshRate := listenKeyRefreshRate options |},
       [PostUserDataStream])
  | Some key =>
      let lastAuthenticatedTime :=
        match lastAuthenticatedTime options with
        | Some t => t
        | None => 0
        end in
      let listenKeyRefreshRate :=
        match BingxAuth.listenKeyRefreshRate options with
        | Some r => r
        | None => 3600000
        end in
      if time - lastAuthenticatedTime >? listenKeyRefreshRate then
        ({| listenKey := putResponse key;
            lastAuthenticatedTime := Some time;
            listenKeyRefreshRate := BingxAuth.listenKeyRefreshRate options |},
         [PutUserDataStream key])
      else (options, [])
  end.

End Adapter.

End BingxAuth.

(** The refresh rate [authenticate] works with. *)
Definition bingx_refresh_rate (options : BingxAuth.Options) : Z :=
  default 3600000 (BingxAuth.listenKeyRefreshRate options).

(** ** bybit: tickers (bybit.js 229-359) *)

Module BybitTicker.

(** [{ topic, type, data, ts }]; [data] holds the fields of the ticker
    that have a value (an absent, null or empty field reads as
    [undefined]). *)
Record Message : Type := mkMessage {
  topic : option string;
  type : option string;
  data : gmap string string;
  ts : option Z
}.

Section Handler.
(** [parseTicker] (of the REST adapter), the fields ['symbol'] and
    ['info'] of what it returns, and the market table are external. *)
Context {Ticker : Type}.
Variable parseTicker : gmap string string -> Ticker.
Variable symbolOf : Ticker -> string.
Variable infoOf : Ticker -> gmap string string.
Variable safeMarket : option string -> string -> string.

(** bybit.js 229-359.  A stored ticker is a parsed ticker with the
    message's timestamp written over its own.  [None] is the TypeError of
    [parsed['timestamp'] = timestamp] on an undefined [parsed]. *)
Definition handleTicker (tickers : gmap string (Ticker * option Z))
    (message : Message)
  : option (gmap string (Ticker * option Z) * (string * (Ticker * option Z))) :=
  let topic :=
    match topic message with
    | Some t => t
    | None => EmptyString
    end in
  let updateType :=
    match type message with
    | Some t => t
    | None => EmptyString
    end in
  let data := data message in
  let isSpot := bool_decide (data !! "fundingRate"%string = None) in
  let type := if isSpot then "spot"%string else "contract"%string in
  let parsed : option (string * Ticker) :=
    if String.eqb updateType "snapshot" || isSpot then
      let parsed := parseTicker data in
      Some (symbolOf parsed, parsed)
    else if String.eqb updateType "delta" then
      let topicParts := split "."%char topic in
      let topicLength := length topicParts in
      let marketId := topicParts !! (topicLength - 1)%nat in
      let symbol := safeMarket marketId type in
      let rawTicker :=
        match tickers !! symbol with
        | Some (ticker, _) => infoOf ticker
        | None => ∅
        end in
      let merged := data ∪ rawTicker in
      Some (symbol, parseTicker merged)
    else None in
  match parsed with
  | None => None
  | Some (symbol, parsed) =>
      let timestamp := ts message in
      let stored := (parsed, timestamp) in
      let messageHash := String.append "ticker:" symbol in
      Some (<[symbol := stored]> tickers, (messageHash, stored))
  end.

End Handler.

End BybitTicker.

(** The symbol of the market named last in a bybit topic. *)
Definition bybit_topic_symbol (safeMarket : option string -> string -> string)
    (message : BybitTicker.Message) : string :=
  let parts := split "."%char (default EmptyString (BybitTicker.topic message)) in
  safeMarket (parts !! (length parts - 1)%nat) "contract".

(** The raw ticker stored for a symbol, empty when there is none. *)
Definition bybit_stored_info {Ticker : Type} (infoOf : Ticker -> gmap string string)
    (tickers : gmap string (Ticker * option Z)) (symbol : string)
  : gmap string string :=
  match tickers !! symbol with
  | Some (ticker, _) => infoOf ticker
  | None => ∅
  end.

(** ** bybit: what [handleBalance] reads from a message (bybit.js 1529-1578) *)

Module BybitBalance.

(** An element of the ["data"] array, by the fields the handler reads:
    ["B"] (spot), ["accountType"] and ["coin"] (wallet); a missing array is
    empty. *)
Record Element (Raw : Type) : Type := mkElement {
  B : list Raw;
  accountType : option string;
  coin : list Raw
}.
Arguments mkElement {Raw} _ _ _.
Arguments B {Raw} _.
Arguments accountType {Raw} _.
Arguments coin {Raw} _.

(** [{ topic, data }]. *)
Record Message (Raw : Type) : Type := mkMessage {
  topic : option string;
  data : list (Element Raw)
}.
Arguments mkMessage {Raw} _ _.
Arguments topic {Raw} _.
Arguments data {Raw} _.

Section Handler.
Context {Raw : Type}.
(** Lowercasing, as [safeStringLower] does. *)
Variable toLower : string -> string.

(** bybit.js 1533-1554: the account and the raw balances the handler
    takes from the message before it parses them.  In the wallet loop
    [this.safeValue (data, 0, {})] is read on every round. *)
Definition rawBalances (message : Message Raw) : option string * list Raw :=
  let topic := topic message in
  let data := data message in
  let '(account, rawBalances) :=
    if bool_decide (topic = Some "outboundAccountInfo"%string) then
      (Some "spot"%string,
       fold_left (fun rawBalances element => rawBalances ++ B element) data [])
    else (None, []) in
  if bool_decide (topic = Some "wallet"%string) then
    fold_left (fun acc _ =>
                 let result :=
                   match data !! 0%nat with
                   | Some result => result
                   | None => mkElement [] None []
                   end in
                 (toLower <$> accountType result, snd acc ++ coin result))
              data (account, rawBalances)
  else (account, rawBalances).

(** bybit.js 1558-1578: the message hash [handleBalance] resolves. *)
Definition messageHash (message : Message Raw) : string :=
  match fst (rawBalances message) with
  | Some account => String.append "balances:" account
  | None => "balances"%string
  end.

End Handler.

End BybitBalance.

(** ** Scenarios of the further properties *)

(** A data message of the bybit stream that carries only a topic. *)
Definition bybit_push (topic : string) : BybitRouter.Message :=
  BybitRouter.mkMessage
    (BybitWs.mkMessage None None None None None None None "{topic, data}")
    None None (Some topic).

(** The pong of the spot stream, [{ pong: 1653296711335 }]. *)
Definition bybit_spot_pong : BybitRouter.Message :=
  BybitRouter.mkMessage
    (BybitWs.mkMessage None None None None None None None "{pong: 1653296711335}")
    (Some 1653296711335) None None.

(** A market table with the one market BTCUSDT. *)
Definition btc_market (symbol : option string) : BybitWatch.Market :=
  BybitWatch.mkMarket "BTCUSDT" "BTC/USDT" false.

Definition btc_safeMarket (marketId : option string) (marketType : string) : string :=
  "BTC/USDT".

(** A bybit market table in which every market is settled in the given
    currency. *)
Definition settled_in (currency : string) (symbol : string) : BybitUrl.Market :=
  BybitUrl.mkMarket (Some currency) (Some "swap"%string).

(** bingx's market BTC-USDT. *)
Definition bingx_btc : BingxWatch.Market :=
  BingxWatch.mkMarket "BTC-USDT" "BTC/USDT".

(** An object of the bingx stream with the given data type and execution
    type and nothing else. *)
Definition bingx_object (dataType : option string) (data_x : option string)
  : BingxRouter.Fields :=
  BingxRouter.mkFields None "{dataType, data}" false dataType data_x None None None.
(** * Properties *)

(** ** Facts about sides *)

Section SideFacts.
Import OrderBookSide.

Lemma before_irrefl s p : before s p p = false.
Proof. destruct s; simpl; lia. Qed.

Lemma before_trans s p q r :
  before s p q = true -> before s q r = true -> before s p r = true.
Proof. destruct s; simpl; lia. Qed.

Lemma before_total s p q :
  p <> q -> before s p q = false -> before s q p = true.
Proof. destruct s; simpl; lia. Qed.

Lemma ordered_cons s p a l :
  ordered s ((p, a) :: l) <-> all_after s p l /\ ordered s l.
Proof.
  revert p a. induction l as [|[q b] l IH]; intros p a.
  - simpl. split; [intros _; split; [constructor | exact I] | tauto].
  - change (ordered s ((p, a) :: (q, b) :: l))
      with (before s p q = true /\ ordered s ((q, b) :: l)).
    split.
    + intros [Hpq Hord]. split; [| exact Hord].
      constructor; [exact Hpq |].
      apply (IH q b) in Hord. destruct Hord as [Hq _].
      unfold all_after in *. eapply Forall_impl; [exact Hq |].
      intros [r c] Hr. simpl in *. eapply before_trans; eauto.
    + intros [Hall Hord]. split; [| exact Hord].
      inversion Hall; subst. assumption.
Qed.

Lemma all_after_store s p price amount l :
  before s p price = true -> all_after s p l ->
  all_after s p (store s price amount l).
Proof.
  intros Hp. induction l as [|[q b] l IH]; intros Hall; simpl.
  - destruct (amount =? 0); constructor; [exact Hp | constructor].
  - inversion Hall as [|x xs Hq Hl]; subst. simpl in Hq.
    destruct (q =? price) eqn:E1.
    + destruct (amount =? 0); [exact Hl |]. constructor; [exact Hp | exact Hl].
    + destruct (before s price q) eqn:E2.
      * destruct (amount =? 0); [exact Hall |].
        constructor; [exact Hp | exact Hall].
      * constructor; [exact Hq | apply IH; exact Hl].
Qed.

Lemma store_ordered s price amount l :
  ordered s l -> ordered s (store s price amount l).
Proof.
  induction l as [|[q b] l IH]; intros Hord.
  - simpl. destruct (amount =? 0); exact I.
  - apply ordered_cons in Hord. destruct Hord as [Hall Hord].
    simpl. destruct (q =? price) eqn:E1.
    + apply Z.eqb_eq in E1. subst q.
      destruct (amount =? 0); [exact Hord |].
      apply ordered_cons. split; assumption.
    + apply Z.eqb_neq in E1.
      destruct (before s price q) eqn:E2.
      * destruct (amount =? 0).
        -- apply ordered_cons. split; assumption.
        -- apply ordered_cons. split.
           ++ constructor; [exact E2 |].
              unfold all_after in *. eapply Forall_impl; [exact Hall |].
              intros [r c] Hr. simpl in *. eapply before_trans; eauto.
           ++ apply ordered_cons. split; assumption.
      * apply ordered_cons. split.
        -- apply all_after_store; [| exact Hall].
           apply before_total; [lia | exact E2].
        -- apply IH. exact Hord.
Qed.

Lemma all_after_amount_at s p l :
  all_after s p l -> amount_at p l = None.
Proof.
  induction l as [|[q b] l IH]; intros Hall; [reflexivity |].
  inversion Hall as [|x xs Hq Hl]; subst. simpl in *.
  destruct (q =? p) eqn:E.
  - apply Z.eqb_eq in E. subst q. rewrite before_irrefl in Hq. discriminate.
  - apply IH. exact Hl.
Qed.

Lemma all_after_weaken s p q l :
  before s p q = true -> all_after s q l -> all_after s p l.
Proof.
  intros Hpq Hall. unfold all_after in *.
  eapply Forall_impl; [exact Hall |].
  intros [r c] Hr. simpl in *. eapply before_trans; eauto.
Qed.

Lemma store_amount_at_same s price amount l :
  ordered s l ->
  amount_at price (store s price amount l)
  = if amount =? 0 then None else Some amount.
Proof.
  induction l as [|[q b] l IH]; intros Hord.
  - simpl. destruct (amount =? 0); simpl; [reflexivity |].
    rewrite Z.eqb_refl. reflexivity.
  - apply ordered_cons in Hord. destruct Hord as [Hall Hord].
    simpl. destruct (q =? price) eqn:E1.
    + apply Z.eqb_eq in E1. subst q.
      destruct (amount =? 0).
      * eapply all_after_amount_at. exact Hall.
      * simpl. rewrite Z.eqb_refl. reflexivity.
    + destruct (before s price q) eqn:E2.
      * destruct (amount =? 0).
        -- simpl. rewrite E1.
           eapply all_after_amount_at, all_after_weaken; eauto.
        -- simpl. rewrite Z.eqb_refl. reflexivity.
      * simpl. rewrite E1. apply IH. exact Hord.
Qed.

Lemma store_amount_at_other s price amount q l :
  q <> price ->
  amount_at q (store s price amount l) = amount_at q l.
Proof.
  intros Hne. induction l as [|[r c] l IH].
  - simpl. destruct (amount =? 0); simpl; [reflexivity |].
    destruct (price =? q) eqn:E; [apply Z.eqb_eq in E; congruence | reflexivity].
  - simpl. destruct (r =? price) eqn:E1.
    + apply Z.eqb_eq in E1. subst r.
      assert ((price =? q) = false) as E by (apply Z.eqb_neq; congruence).
      destruct (amount =? 0); simpl; rewrite E; reflexivity.
    + destruct (before s price r) eqn:E2.
      * destruct (amount =? 0); [reflexivity |].
        assert ((price =? q) = false) as E by (apply Z.eqb_neq; congruence).
        simpl. rewrite E. reflexivity.
      * simpl. destruct (r =? q); [reflexivity | exact IH].
Qed.

Lemma bybit_handleDeltas_ordered s deltas l :
  ordered s l -> ordered s (Bybit.handleDeltas s l deltas).
Proof.
  unfold Bybit.handleDeltas. revert l.
  induction deltas as [|d ds IH]; intros l Hord; simpl; [exact Hord |].
  apply IH. apply store_ordered. exact Hord.
Qed.

Lemma hitbtc_handleDeltas_ordered s deltas l :
  ordered s l -> ordered s (Hitbtc.handleDeltas s l deltas).
Proof.
  unfold Hitbtc.handleDeltas. revert l.
  induction deltas as [|d ds IH]; intros l Hord; simpl; [exact Hord |].
  apply IH. apply store_ordered. exact Hord.
Qed.

Lemma hitbtc_bybit_handleDeltas s deltas l :
  Hitbtc.handleDeltas s l deltas = Bybit.handleDeltas s l deltas.
Proof. reflexivity. Qed.

End SideFacts.

(** ** Delta application (C2) *)

Section DeltaFacts.
Import OrderBookSide.

Lemma all_after_not_In s p a l : all_after s p l -> ~ In (p, a) l.
Proof.
  intros Hall Hin. unfold all_after in Hall.
  rewrite Forall_forall in Hall.
  apply list_elem_of_In in Hin.
  specialize (Hall _ Hin). simpl in Hall.
  rewrite before_irrefl in Hall. discriminate.
Qed.

Lemma amount_at_In s l p a :
  ordered s l -> (amount_at p l = Some a <-> In (p, a) l).
Proof.
  induction l as [|[q b] l IH]; intros Hord.
  - simpl. split; [discriminate | tauto].
  - apply ordered_cons in Hord. destruct Hord as [Hall Hord].
    simpl. destruct (q =? p) eqn:E.
    + apply Z.eqb_eq in E. subst q. split.
      * intros [= ->]. left. reflexivity.
      * intros [[= ->] | Hin]; [reflexivity |].
        exfalso. eapply all_after_not_In; eauto.
    + apply Z.eqb_neq in E. rewrite (IH Hord). split.
      * intros Hin. right. exact Hin.
      * intros [[= -> _] | Hin]; [congruence | exact Hin].
Qed.

End DeltaFacts.

(** C2: applying one [(price, amount)] pair of a delta with [handleDelta]
    (bybit and hitbtc alike) to an ordered side keeps the side ordered
    (bids descending, asks ascending); an amount of zero leaves no level
    at that price; a nonzero amount leaves exactly one level at that
    price, carrying the new amount, whether or not the price was present;
    every other level is untouched; [handleDeltas] applies the pairs one
    after the other and keeps the order.  On bids [[100,1],[99,2]] the
    delta [[99,0],[98,5]] yields [[100,1],[98,5]]. *)
Theorem C2_delta_application :
  forall (s : Side) (bookside : list Level) (price amount : Z),
    OrderBookSide.ordered s bookside ->
    let after := Bybit.handleDelta s bookside (price, amount) in
    Hitbtc.handleDelta s bookside (price, amount) = after /\
    OrderBookSide.ordered s after /\
    (amount = 0 -> forall a, ~ In (price, a) after) /\
    (amount <> 0 ->
       In (price, amount) after /\ forall a, In (price, a) after -> a = amount) /\
    (forall q a, q <> price -> In (q, a) after <-> In (q, a) bookside) /\
    (forall d deltas,
       Bybit.handleDeltas s bookside (d :: deltas)
       = Bybit.handleDeltas s (Bybit.handleDelta s bookside d) deltas) /\
    (forall deltas,
       OrderBookSide.ordered s (Bybit.handleDeltas s bookside deltas) /\
       Hitbtc.handleDeltas s bookside deltas = Bybit.handleDeltas s bookside deltas) /\
    Bybit.handleDeltas Bids [(100, 1); (99, 2)] [(99, 0); (98, 5)]
    = [(100, 1); (98, 5)].
Proof.
  intros s bookside price amount Hord after.
  assert (Hafter : OrderBookSide.ordered s after)
    by (apply store_ordered; exact Hord).
  assert (Hsame := store_amount_at_same s price amount bookside Hord).
  change (OrderBookSide.store s price amount bookside) with after in Hsame.
  split; [reflexivity |].
  split; [exact Hafter |].
  split.
  { intros Hz a Hin. apply (amount_at_In s after price a Hafter) in Hin.
    rewrite Hsame in Hin. subst amount. simpl in Hin. discriminate. }
  split.
  { intros Hnz. apply Z.eqb_neq in Hnz. rewrite Hnz in Hsame. split.
    - apply (amount_at_In s after price amount Hafter). exact Hsame.
    - intros a Hin. apply (amount_at_In s after price a Hafter) in Hin.
      congruence. }
  split.
  { intros q a Hne.
    rewrite <- (amount_at_In s after q a Hafter).
    rewrite <- (amount_at_In s bookside q a Hord).
    unfold after, Bybit.handleDelta, OrderBookSide.storeArray. simpl.
    rewrite store_amount_at_other by exact Hne. reflexivity. }
  split; [reflexivity |].
  split; [| reflexivity].
  intros deltas. split; [| reflexivity].
  apply bybit_handleDeltas_ordered. exact Hord.
Qed.

Lemma C2_delta_application_witness :
  OrderBookSide.ordered Bids [(100, 1); (99, 2)] /\
  OrderBookSide.ordered Bids (Bybit.handleDelta Bids [(100, 1); (99, 2)] (99, 0)).
Proof.
  split.
  - simpl. split; [reflexivity | exact I].
  - apply (C2_delta_application Bids [(100, 1); (99, 2)] 99 0).
    simpl. split; [reflexivity | exact I].
Defined.

(** ** The bybit order book handler (C1, C5, C6) *)

Section BybitBookFacts.
Import OrderBook BybitBook.
Variable safeMarket : option string -> string -> string.

Lemma is_delta_eqb message :
  bybit_is_delta message ->
  match type message with
  | Some ty => String.eqb ty "snapshot"
  | None => false
  end = false.
Proof.
  unfold bybit_is_delta. destruct (type message) as [ty|]; [| reflexivity].
  intros Hne. apply String.eqb_neq. congruence.
Qed.

(** What the handler stores for a delta: the levels are laid over the
    book found under the symbol, or over a fresh empty book. *)
Lemma handleOrderBook_delta url orderbooks message :
  bybit_is_delta message ->
  let symbol := bybit_symbol safeMarket url message in
  let base := default orderBook (orderbooks !! symbol) in
  let merged :=
    {| asks := Bybit.handleDeltas Asks (asks base) (data_a message);
       bids := Bybit.handleDeltas Bids (bids base) (data_b message);
       timestamp := ts message;
       nonce := nonce base;
       symbol := OrderBook.symbol base |} in
  handleOrderBook safeMarket url orderbooks message
  = (<[symbol := merged]> orderbooks, (String.append "orderbook:" symbol, merged)).
Proof.
  intros Hdelta symbol base merged.
  unfold handleOrderBook. rewrite (is_delta_eqb _ Hdelta).
  fold (bybit_symbol safeMarket url message). fold symbol.
  unfold merged, base. destruct (orderbooks !! symbol); reflexivity.
Qed.

(** What the handler stores for a snapshot. *)
Lemma handleOrderBook_snapshot url orderbooks message :
  type message = Some "snapshot"%string ->
  let symbol := bybit_symbol safeMarket url message in
  let rebuilt :=
    {| asks := built Asks (data_a message);
       bids := built Bids (data_b message);
       timestamp := ts message;
       nonce := None;
       symbol := Some symbol |} in
  handleOrderBook safeMarket url orderbooks message
  = (<[symbol := rebuilt]> orderbooks, (String.append "orderbook:" symbol, rebuilt)).
Proof.
  intros Hsnap symbol rebuilt.
  unfold handleOrderBook. rewrite Hsnap. simpl.
  fold (bybit_symbol safeMarket url message). fold symbol.
  destruct (orderbooks !! symbol); reflexivity.
Qed.

Lemma handleOrderBook_sequence_blind url orderbooks message u seq :
  handleOrderBook safeMarket url orderbooks (with_sequence u seq message)
  = handleOrderBook safeMarket url orderbooks message.
Proof. reflexivity. Qed.

End BybitBookFacts.

(** The hitbtc handler treats snapshots and updates alike: the levels of
    the item are laid over the book found under the symbol, or over a fresh
    empty book, and the item's sequence number overwrites the nonce without
    being compared with the stored one. *)
Lemma hitbtc_handleItem_stored (safeMarket : string -> string) channel
    (orderbooks : gmap string OrderBook.t) resolved marketId item :
  let symbol := safeMarket marketId in
  let base := default OrderBook.orderBook (orderbooks !! symbol) in
  fst (HitbtcBook.handleItem safeMarket channel (orderbooks, resolved) (marketId, item))
    !! symbol
  = Some {| OrderBook.asks :=
              Hitbtc.handleDeltas Asks (OrderBook.asks base) (HitbtcBook.item_a item);
            OrderBook.bids :=
              Hitbtc.handleDeltas Bids (OrderBook.bids base) (HitbtcBook.item_b item);
            OrderBook.timestamp := HitbtcBook.item_t item;
            OrderBook.nonce := HitbtcBook.item_s item;
            OrderBook.symbol := Some symbol |}.
Proof.
  intros symbol base. unfold HitbtcBook.handleItem. fold symbol.
  unfold base. destruct (orderbooks !! symbol) as [ob|] eqn:E; cbn [fst].
  - rewrite E. rewrite lookup_insert_eq. reflexivity.
  - rewrite !lookup_insert_eq. reflexivity.
Qed.

(** C1 (as stated, refuted): after the snapshot and the deltas numbered 1, 2
    and 3, the delta numbered 5 (the one numbered 4 was lost) is merged: the
    stored book holds its level [[95, 7]], the book is still filed under the
    symbol, and the handler leaves exactly what it leaves for the same delta
    numbered 4. *)
Lemma C1_gap_delta_is_merged :
  let before5 :=
    BybitBook.handleAll unknownMarket gap_url ∅
      [gap_snapshot; gap_delta 1 98 5; gap_delta 2 97 1; gap_delta 3 96 2] in
  let after5 := BybitBook.handleOrderBook unknownMarket gap_url before5 (gap_delta 5 95 7) in
  (OrderBook.bids <$> (fst after5 !! "BTCUSDT"%string))
  = Some [(100, 1); (99, 2); (98, 5); (97, 1); (96, 2); (95, 7)] /\
  (OrderBook.nonce <$> (fst after5 !! "BTCUSDT"%string)) = Some None /\
  after5
  = BybitBook.handleOrderBook unknownMarket gap_url before5
      (with_sequence (Some 4) (Some 4) (gap_delta 5 95 7)).
Proof.
  split; [| split]; [vm_compute; reflexivity | vm_compute; reflexivity | reflexivity].
Qed.

(** C1 (amended): for a delta message arriving while a book is stored for
    its symbol, the bybit handler makes no sequence check: what it stores
    and resolves does not depend on the message's [u] and [seq] fields; the
    delta's levels are applied to the stored sides by [handleDeltas], the
    timestamp is updated, the book's nonce is left as it was, and the
    book stays filed under the symbol. *)
Theorem C1_delta_merged_without_sequence_check :
  forall (safeMarket : option string -> string -> string) (url : string)
         (orderbooks : gmap string OrderBook.t) (message : BybitBook.Message)
         (stored : OrderBook.t),
    bybit_is_delta message ->
    orderbooks !! bybit_symbol safeMarket url message = Some stored ->
    let symbol := bybit_symbol safeMarket url message in
    let merged :=
      {| OrderBook.asks :=
           Bybit.handleDeltas Asks (OrderBook.asks stored) (BybitBook.data_a message);
         OrderBook.bids :=
           Bybit.handleDeltas Bids (OrderBook.bids stored) (BybitBook.data_b message);
         OrderBook.timestamp := BybitBook.ts message;
         OrderBook.nonce := OrderBook.nonce stored;
         OrderBook.symbol := OrderBook.symbol stored |} in
    (forall u seq,
       BybitBook.handleOrderBook safeMarket url orderbooks (with_sequence u seq message)
       = BybitBook.handleOrderBook safeMarket url orderbooks message) /\
    fst (BybitBook.handleOrderBook safeMarket url orderbooks message) !! symbol
    = Some merged /\
    snd (BybitBook.handleOrderBook safeMarket url orderbooks message)
    = (String.append "orderbook:" symbol, merged).
Proof.
  intros safeMarket url orderbooks message stored Hdelta Hstored symbol merged.
  split; [intros u seq; reflexivity |].
  rewrite (handleOrderBook_delta safeMarket url orderbooks message Hdelta).
  fold symbol. unfold symbol in *. rewrite Hstored. simpl.
  split; [apply lookup_insert_eq | reflexivity].
Qed.

Lemma C1_delta_merged_without_sequence_check_witness :
  let stored :=
    OrderBook.mk [(101, 1)] [(100, 1)] (Some 1000) None (Some "BTCUSDT"%string) in
  fst (BybitBook.handleOrderBook unknownMarket gap_url
         {[ "BTCUSDT"%string := stored ]} (gap_delta 5 95 7)) !! "BTCUSDT"%string
  = Some (OrderBook.mk [(101, 1)] [(100, 1); (95, 7)] (Some 1005) None
            (Some "BTCUSDT"%string)).
Proof.
  intros stored.
  apply (C1_delta_merged_without_sequence_check unknownMarket gap_url
           {[ "BTCUSDT"%string := stored ]} (gap_delta 5 95 7) stored).
  - unfold bybit_is_delta. simpl. discriminate.
  - vm_compute. reflexivity.
Defined.

(** C5 (as stated, refuted): the book stored for a snapshot carrying
    [u = 18521288] and [seq = 7961638724] has no sequence number: its nonce
    is undefined, whatever was stored before. *)
Lemma C5_snapshot_sequence_not_recorded :
  let prior :=
    OrderBook.mk [(1700000, 1)] [(1600000, 1)] (Some 5) None (Some "BTCUSDT"%string) in
  let stored :=
    fst (BybitBook.handleOrderBook unknownMarket gap_url
           {[ "BTCUSDT"%string := prior ]} documented_snapshot) !! "BTCUSDT"%string in
  (OrderBook.nonce <$> stored) = Some None /\
  (OrderBook.nonce <$> stored) <> Some (BybitBook.data_seq documented_snapshot) /\
  (OrderBook.nonce <$> stored) <> Some (BybitBook.data_u documented_snapshot).
Proof.
  split; [| split]; vm_compute; [reflexivity | discriminate | discriminate].
Qed.

(** C5 (amended): for every snapshot-typed order book message the bybit
    handler discards the prior levels of both sides and rebuilds asks and
    bids from the snapshot's arrays alone (the stored book is the same
    whatever was stored before), records the message's timestamp and the
    symbol, and records no sequence number (the nonce of the stored book is
    undefined); a delta that follows is applied to the rebuilt sides.  The
    bingx handler, for which every message is a snapshot, rebuilds the book
    in the same way. *)
Theorem C5_snapshot_rebuilds_book :
  forall (safeMarket : option string -> string -> string) (url : string)
         (orderbooks : gmap string OrderBook.t) (message : BybitBook.Message),
    BybitBook.type message = Some "snapshot"%string ->
    let symbol := bybit_symbol safeMarket url message in
    let rebuilt :=
      {| OrderBook.asks := built Asks (BybitBook.data_a message);
         OrderBook.bids := built Bids (BybitBook.data_b message);
         OrderBook.timestamp := BybitBook.ts message;
         OrderBook.nonce := None;
         OrderBook.symbol := Some symbol |} in
    let after := BybitBook.handleOrderBook safeMarket url orderbooks message in
    fst after !! symbol = Some rebuilt /\
    snd after = (String.append "orderbook:" symbol, rebuilt) /\
    OrderBookSide.ordered Asks (OrderBook.asks rebuilt) /\
    OrderBookSide.ordered Bids (OrderBook.bids rebuilt) /\
    (forall delta,
       bybit_is_delta delta ->
       bybit_symbol safeMarket url delta = symbol ->
       fst (BybitBook.handleOrderBook safeMarket url (fst after) delta) !! symbol
       = Some {| OrderBook.asks :=
                   Bybit.handleDeltas Asks (built Asks (BybitBook.data_a message))
                                      (BybitBook.data_a delta);
                 OrderBook.bids :=
                   Bybit.handleDeltas Bids (built Bids (BybitBook.data_b message))
                                      (BybitBook.data_b delta);
                 OrderBook.timestamp := BybitBook.ts delta;
                 OrderBook.nonce := None;
                 OrderBook.symbol := Some symbol |}) /\
    (forall (bingxMarket : option string -> string -> string) bingxUrl bingxBooks
            bingxMessage,
       snd (snd (BingxBook.handleOrderBook bingxMarket bingxUrl bingxBooks bingxMessage))
       = {| OrderBook.asks := built Asks (BingxBook.data_asks bingxMessage);
            OrderBook.bids := built Bids (BingxBook.data_bids bingxMessage);
            OrderBook.timestamp := None;
            OrderBook.nonce := None;
            OrderBook.symbol :=
              Some (bingxMarket (Some (BingxBook.before_at (BingxBook.dataType bingxMessage)))
                      (if contains "swap" bingxUrl then "swap" else "spot")%string) |}).
Proof.
  intros safeMarket url orderbooks message Hsnap symbol rebuilt after.
  unfold after.
  rewrite (handleOrderBook_snapshot safeMarket url orderbooks message Hsnap).
  fold symbol. fold rebuilt. cbn [fst snd].
  split; [apply lookup_insert_eq |].
  split; [reflexivity |].
  split; [apply (bybit_handleDeltas_ordered Asks (BybitBook.data_a message) []); exact I |].
  split; [apply (bybit_handleDeltas_ordered Bids (BybitBook.data_b message) []); exact I |].
  split.
  - intros delta Hdelta Hsym.
    rewrite (handleOrderBook_delta safeMarket url _ delta Hdelta).
    cbn [fst snd]. rewrite Hsym. rewrite !lookup_insert_eq. reflexivity.
  - intros bingxMarket bingxUrl bingxBooks bingxMessage.
    unfold BingxBook.handleOrderBook. simpl.
    destruct (bingxBooks !! _); reflexivity.
Qed.

Lemma C5_snapshot_rebuilds_book_witness :
  fst (BybitBook.handleOrderBook unknownMarket gap_url ∅ gap_snapshot) !! "BTCUSDT"%string
  = Some (OrderBook.mk [(101, 1); (102, 3)] [(100, 1); (99, 2)] (Some 1000) None
            (Some "BTCUSDT"%string)).
Proof.
  apply (C5_snapshot_rebuilds_book unknownMarket gap_url ∅ gap_snapshot).
  reflexivity.
Defined.

(** C6 (as stated, refuted): with no book stored for the symbol, a delta
    carrying the bid [[98, 5]] is neither buffered nor discarded: the
    handler files a book whose only level is that bid and resolves the
    symbol's message hash with it. *)
Lemma C6_delta_before_snapshot_is_applied :
  BybitBook.handleOrderBook unknownMarket gap_url ∅ (gap_delta 1 98 5)
  = ({[ "BTCUSDT"%string := OrderBook.mk [] [(98, 5)] (Some 1001) None None ]},
     ("orderbook:BTCUSDT"%string, OrderBook.mk [] [(98, 5)] (Some 1001) None None)).
Proof. vm_compute. reflexivity. Qed.

(** C6 (amended): a delta-typed message that arrives while no book is
    stored for its symbol is applied to a freshly created empty book: the
    handler stores, and resolves the symbol's message hash with, the book
    whose sides are the delta's levels laid over empty sides, with the
    delta's timestamp and no nonce. *)
Theorem C6_delta_applied_to_fresh_book :
  forall (safeMarket : option string -> string -> string) (url : string)
         (orderbooks : gmap string OrderBook.t) (message : BybitBook.Message),
    bybit_is_delta message ->
    orderbooks !! bybit_symbol safeMarket url message = None ->
    let symbol := bybit_symbol safeMarket url message in
    let fresh :=
      {| OrderBook.asks := Bybit.handleDeltas Asks [] (BybitBook.data_a message);
         OrderBook.bids := Bybit.handleDeltas Bids [] (BybitBook.data_b message);
         OrderBook.timestamp := BybitBook.ts message;
         OrderBook.nonce := None;
         OrderBook.symbol := None |} in
    BybitBook.handleOrderBook safeMarket url orderbooks message
    = (<[symbol := fresh]> orderbooks, (String.append "orderbook:" symbol, fresh)).
Proof.
  intros safeMarket url orderbooks message Hdelta Hnone symbol fresh.
  rewrite (handleOrderBook_delta safeMarket url orderbooks message Hdelta).
  fold symbol. unfold symbol in *. rewrite Hnone. reflexivity.
Qed.

Lemma C6_delta_applied_to_fresh_book_witness :
  fst (BybitBook.handleOrderBook unknownMarket gap_url ∅ (gap_delta 1 98 5))
  = <[ "BTCUSDT"%string := OrderBook.mk [] [(98, 5)] (Some 1001) None None ]> ∅.
Proof.
  rewrite (C6_delta_applied_to_fresh_book unknownMarket gap_url ∅ (gap_delta 1 98 5)).
  - reflexivity.
  - unfold bybit_is_delta. simpl. discriminate.
  - reflexivity.
Defined.

(** ** Bounded caches (C3, C4) *)

Section CacheFacts.
Import Cache.
Local Open Scope nat_scope.

Lemma evict_drop {A : Type} (limit : nat) (l : list A) :
  length l <= S limit -> evict limit l = drop (length l - limit) l.
Proof.
  intros Hlen. unfold evict.
  destruct (limit <? length l) eqn:E.
  - apply Nat.ltb_lt in E.
    replace (length l - limit) with 1 by lia.
    destruct l; reflexivity.
  - apply Nat.ltb_ge in E.
    replace (length l - limit) with 0 by lia. reflexivity.
Qed.

Lemma evict_length {A : Type} (limit : nat) (l : list A) :
  length l <= S limit -> length (evict limit l) <= limit.
Proof.
  intros Hlen. rewrite evict_drop by exact Hlen.
  rewrite length_drop. lia.
Qed.





(** *** Caches keyed by (symbol, id) *)

Section ById.
Context {A : Type}.
Variable key : A -> string * string.






End ById.

End CacheFacts.

Section CandleFacts.
Import Cache.

Lemma sorted_snoc (l : list Z) (x : Z) :
  StronglySorted Z.lt l ->
  (forall y, last l = Some y -> y < x) ->
  StronglySorted Z.lt (l ++ [x]).
Proof.
  induction l as [|a l IH]; intros Hs Hlast.
  - simpl. constructor; constructor.
  - inversion Hs as [|a' l' Hs' Hall]; subst. simpl. constructor.
    + apply IH; [exact Hs' |].
      intros y Hy. apply Hlast.
      destruct l as [|b l]; [discriminate | exact Hy].
    + apply Forall_app. split; [exact Hall |].
      constructor; [| constructor].
      destruct l as [|b l].
      * apply Hlast. reflexivity.
      * destruct (last (b :: l)) as [y|] eqn:Ey.
        -- assert (Hya : a < y).
           { rewrite Forall_forall in Hall. apply Hall.
             apply last_Some in Ey. destruct Ey as [l' ->].
             apply list_elem_of_In, in_or_app. right. left. reflexivity. }
           assert (Hyx : y < x) by (apply Hlast; exact Ey).
           lia.
        -- apply last_None in Ey. discriminate.
Qed.

Lemma sorted_tail (l : list Z) :
  StronglySorted Z.lt l -> StronglySorted Z.lt (tail l).
Proof.
  intros Hs. destruct l; [exact Hs |]. inversion Hs; subst. assumption.
Qed.

Lemma increasing_evict limit (l : list OHLCV) :
  increasing l -> increasing (evict limit l).
Proof.
  unfold increasing, evict. intros Hs.
  destruct (limit <? length l)%nat; [| exact Hs].
  destruct l; [exact Hs |]. simpl in *. inversion Hs; subst. assumption.
Qed.

Lemma increasing_snoc (l : list OHLCV) (x : OHLCV) :
  increasing l ->
  (forall y, last l = Some y -> c_timestamp y < c_timestamp x) ->
  increasing (l ++ [x]).
Proof.
  unfold increasing. intros Hs Hlast. rewrite map_app. simpl.
  apply sorted_snoc; [exact Hs |].
  intros t Ht.
  destruct (last l) as [y|] eqn:Ey.
  - apply last_Some in Ey. destruct Ey as [l' ->].
    rewrite map_app in Ht.
    change (map c_timestamp [y]) with [c_timestamp y] in Ht.
    rewrite last_snoc in Ht.
    injection Ht as <-. apply Hlast. reflexivity.
  - apply last_None in Ey. subst l. discriminate.
Qed.

Lemma replace_last_timestamps (l : list OHLCV) (y x : OHLCV) :
  last l = Some y -> c_timestamp x = c_timestamp y ->
  map c_timestamp (removelast l ++ [x]) = map c_timestamp l.
Proof.
  intros Hy Hts. apply last_Some in Hy. destruct Hy as [l' ->].
  rewrite removelast_last, !map_app. simpl. rewrite Hts. reflexivity.
Qed.

Lemma replace_last_length (l : list OHLCV) (y x : OHLCV) :
  last l = Some y -> length (removelast l ++ [x]) = length l.
Proof.
  intros Hy. apply last_Some in Hy. destruct Hy as [l' ->].
  rewrite removelast_last, !length_app. reflexivity.
Qed.

Lemma appendByTimestamp_maxSize (c : ArrayCache OHLCV) (candle : OHLCV) :
  maxSize (appendByTimestamp c candle) = maxSize c.
Proof.
  unfold appendByTimestamp. destruct (last (items c)) as [l|]; [| reflexivity].
  destruct (c_timestamp candle =? c_timestamp l); [reflexivity |].
  destruct (c_timestamp l <? c_timestamp candle); reflexivity.
Qed.

Lemma appendByTimestamp_increasing (c : ArrayCache OHLCV) (candle : OHLCV) :
  increasing (items c) -> increasing (items (appendByTimestamp c candle)).
Proof.
  intros Hinc. unfold appendByTimestamp.
  destruct (last (items c)) as [l|] eqn:El.
  - destruct (c_timestamp candle =? c_timestamp l) eqn:E1.
    + apply Z.eqb_eq in E1. simpl. unfold increasing.
      rewrite (replace_last_timestamps _ l candle El E1). exact Hinc.
    + destruct (c_timestamp l <? c_timestamp candle) eqn:E2; [| exact Hinc].
      apply Z.ltb_lt in E2. simpl. apply increasing_evict, increasing_snoc.
      * exact Hinc.
      * intros y Hy. rewrite El in Hy. injection Hy as <-. exact E2.
  - simpl. apply increasing_evict, increasing_snoc; [exact Hinc |].
    intros y Hy. rewrite El in Hy. discriminate.
Qed.

Lemma appendByTimestamp_length (c : ArrayCache OHLCV) (candle : OHLCV) :
  (length (items c) <= maxSize c)%nat ->
  (length (items (appendByTimestamp c candle)) <= maxSize c)%nat.
Proof.
  intros Hlen. unfold appendByTimestamp.
  destruct (last (items c)) as [l|] eqn:El.
  - destruct (c_timestamp candle =? c_timestamp l).
    + simpl. rewrite (replace_last_length _ l candle El). exact Hlen.
    + destruct (c_timestamp l <? c_timestamp candle); [| exact Hlen].
      simpl. apply evict_length. rewrite length_app. simpl. lia.
  - simpl. apply evict_length. rewrite length_app. simpl. lia.
Qed.

Lemma fold_appendByTimestamp_invariant (candles : list OHLCV) (c : ArrayCache OHLCV) :
  increasing (items c) -> (length (items c) <= maxSize c)%nat ->
  let c' := fold_left appendByTimestamp candles c in
  maxSize c' = maxSize c /\ increasing (items c') /\
  (length (items c') <= maxSize c)%nat.
Proof.
  revert c. induction candles as [|x xs IH]; intros c Hinc Hlen; simpl.
  - split; [reflexivity |]. split; assumption.
  - destruct (IH (appendByTimestamp c x)) as (Hm & Hi & Hl).
    + apply appendByTimestamp_increasing. exact Hinc.
    + rewrite appendByTimestamp_maxSize. apply appendByTimestamp_length. exact Hlen.
    + rewrite appendByTimestamp_maxSize in Hm, Hl. split; [exact Hm |]. split; assumption.
Qed.

End CandleFacts.

Section SeriesHandlerFacts.
Import Cache.




End SeriesHandlerFacts.





(** ** The client and the authentication handshake (C7, C8, C9) *)

Section ClientFacts.
Import Client.

Lemma future_fresh c h :
  futures c !! h = None ->
  future c h
  = (set_futures (<[h := length (heap c)]> (futures c)) (heap c ++ [Pending]) c,
     length (heap c)).
Proof. intros Hnone. unfold future. rewrite Hnone. reflexivity. Qed.

Lemma future_registered c h f :
  futures c !! h = Some f -> future c h = (c, f).
Proof. intros Hsome. unfold future. rewrite Hsome. reflexivity. Qed.

Lemma future_after c h :
  futures (fst (future c h)) !! h = Some (snd (future c h)).
Proof.
  unfold future. destruct (futures c !! h) as [f|] eqn:E; simpl.
  - exact E.
  - apply lookup_insert_eq.
Qed.

Lemma future_subscriptions c h :
  subscriptions (fst (future c h)) = subscriptions c.
Proof. unfold future. destruct (futures c !! h); reflexivity. Qed.

Lemma future_sent c h : sent (fst (future c h)) = sent c.
Proof. unfold future. destruct (futures c !! h); reflexivity. Qed.

Lemma future_twice c h :
  future (fst (future c h)) h = (fst (future c h), snd (future c h)).
Proof. apply future_registered, future_after. Qed.

(** The first login on a connection: the future is registered, the
    subscription recorded and the frame sent. *)
Lemma watch_first c h message :
  subscriptions c !! h = None ->
  watch (fst (future c h)) h message h
  = (send message
       (set_subscriptions (<[h := true]> (subscriptions c)) (fst (future c h))),
     snd (future c h)).
Proof.
  intros Hnone. unfold watch. rewrite future_twice.
  rewrite future_after, future_subscriptions, Hnone. reflexivity.
Qed.

Lemma settle_pending s f hp :
  hp !! f = Some Pending -> settle s f hp !! f = Some s.
Proof.
  intros Hp. unfold settle. rewrite Hp.
  apply list_lookup_insert_eq. eapply lookup_lt_Some. exact Hp.
Qed.

Lemma settle_other s f g hp : f <> g -> settle s f hp !! g = hp !! g.
Proof.
  intros Hne. unfold settle.
  destruct (hp !! f) as [[| |]|]; try reflexivity.
  apply list_lookup_insert_ne. exact Hne.
Qed.

Lemma settle_length s f hp : length (settle s f hp) = length hp.
Proof.
  unfold settle. destruct (hp !! f) as [[| |]|]; try reflexivity.
  apply length_insert.
Qed.

(** Rejecting without a message hash settles every registered pending
    future and empties the table. *)
Lemma reject_all_state c e f :
  state (reject c e None) f
  = match state c f with
    | Some Pending =>
        if bool_decide (f ∈ (map_img (futures c) : gset nat))
        then Some (Rejected e) else Some Pending
    | other => other
    end.
Proof.
  unfold state, reject. simpl. rewrite list_lookup_imap.
  destruct (heap c !! f) as [[| |]|]; simpl; try reflexivity.
  destruct (bool_decide _); reflexivity.
Qed.

Lemma reject_all_registered c e h f :
  futures c !! h = Some f -> state c f = Some Pending ->
  state (reject c e None) f = Some (Rejected e).
Proof.
  intros Hreg Hpend. rewrite reject_all_state, Hpend.
  rewrite bool_decide_eq_true_2; [reflexivity |].
  apply elem_of_map_img. exists h. exact Hreg.
Qed.

Lemma reject_one_other c e h g f :
  h <> g -> futures c !! g = Some f ->
  (forall f', futures c !! h = Some f' -> f' <> f) ->
  futures (reject c e (Some h)) !! g = Some f /\
  state (reject c e (Some h)) f = state c f.
Proof.
  intros Hne Hg Hdistinct. unfold reject, state.
  destruct (futures c !! h) as [f'|] eqn:E; simpl.
  - split; [rewrite lookup_delete_ne by exact Hne; exact Hg |].
    apply settle_other. apply Hdistinct. reflexivity.
  - split; [exact Hg | reflexivity].
Qed.

End ClientFacts.

Section AuthenticateFacts.
Import Client.
Variable id apiKey secret : string.
Variable hmac : string -> string -> string.
Variable toString : Z -> string.

Lemma bybit_authenticate_first params now c :
  subscriptions c !! "authenticated"%string = None ->
  BybitWs.authenticate apiKey secret hmac toString params now c
  = (logged_in (bybit_login_frame apiKey secret hmac toString params now) c,
     snd (future c "authenticated")).
Proof.
  intros Hnone. unfold BybitWs.authenticate.
  pose proof (future_subscriptions c "authenticated") as Hsubs.
  pose proof (watch_first c "authenticated"
                (bybit_login_frame apiKey secret hmac toString params now) Hnone) as Hw.
  destruct (future c "authenticated") as [c0 f] eqn:E. simpl in Hsubs, Hw.
  rewrite Hsubs, Hnone.
  unfold bybit_login_frame in Hw. rewrite Hw.
  unfold logged_in, bybit_login_frame. rewrite E. reflexivity.
Qed.

Lemma bybit_authenticate_again params now c :
  subscriptions c !! "authenticated"%string <> None ->
  BybitWs.authenticate apiKey secret hmac toString params now c
  = future c "authenticated".
Proof.
  intros Hsome. unfold BybitWs.authenticate.
  pose proof (future_subscriptions c "authenticated") as Hsubs.
  destruct (future c "authenticated") as [c0 f] eqn:E. simpl in Hsubs.
  rewrite Hsubs. destruct (subscriptions c !! "authenticated"%string); [reflexivity |].
  congruence.
Qed.

Lemma hitbtc_authenticate_first now c :
  subscriptions c !! "authenticated"%string = None ->
  HitbtcWs.authenticate apiKey secret hmac toString now c
  = (logged_in (hitbtc_login_frame apiKey secret hmac toString now) c,
     snd (future c "authenticated")).
Proof.
  intros Hnone. unfold HitbtcWs.authenticate.
  pose proof (future_subscriptions c "authenticated") as Hsubs.
  pose proof (watch_first c "authenticated"
                (hitbtc_login_frame apiKey secret hmac toString now) Hnone) as Hw.
  destruct (future c "authenticated") as [c0 f] eqn:E. simpl in Hsubs, Hw.
  rewrite Hsubs, Hnone.
  unfold hitbtc_login_frame in Hw. rewrite Hw.
  unfold logged_in, hitbtc_login_frame. rewrite E. reflexivity.
Qed.

Lemma hitbtc_authenticate_again now c :
  subscriptions c !! "authenticated"%string <> None ->
  HitbtcWs.authenticate apiKey secret hmac toString now c
  = future c "authenticated".
Proof.
  intros Hsome. unfold HitbtcWs.authenticate.
  pose proof (future_subscriptions c "authenticated") as Hsubs.
  destruct (future c "authenticated") as [c0 f] eqn:E. simpl in Hsubs.
  rewrite Hsubs. destruct (subscriptions c !! "authenticated"%string); [reflexivity |].
  congruence.
Qed.

(** The client left by a first login call. *)
Lemma logged_in_facts frame c :
  subscriptions (logged_in frame c) !! "authenticated"%string = Some true /\
  futures (logged_in frame c) !! "authenticated"%string
  = Some (snd (future c "authenticated")) /\
  sent (logged_in frame c) = sent c ++ [frame] /\
  future (logged_in frame c) "authenticated"
  = (logged_in frame c, snd (future c "authenticated")) /\
  (futures c !! "authenticated"%string = None ->
   state (logged_in frame c) (snd (future c "authenticated")) = Some Pending).
Proof.
  unfold logged_in. simpl.
  split; [apply lookup_insert_eq |].
  split; [apply future_after |].
  split; [rewrite future_sent; reflexivity |].
  split.
  - apply future_registered. simpl. apply future_after.
  - intros Hfresh. unfold state. simpl.
    rewrite (future_fresh c _ Hfresh). simpl.
    rewrite lookup_app_r by lia. rewrite Nat.sub_diag. reflexivity.
Qed.

(** The acknowledgement of a login settles the cached future with [true]
    and leaves it registered. *)
Lemma acknowledged c f :
  futures c !! "authenticated"%string = Some f ->
  state c f = Some Pending ->
  let c' := set_futures (futures c) (settle (Resolved VTrue) f (heap c)) c in
  state c' f = Some (Resolved VTrue) /\
  sent c' = sent c /\ subscriptions c' = subscriptions c /\
  future c' "authenticated" = (c', f).
Proof.
  intros Hreg Hpend c'. unfold c', state. simpl.
  split; [apply settle_pending; exact Hpend |].
  split; [reflexivity |]. split; [reflexivity |].
  apply future_registered. simpl. exact Hreg.
Qed.

End AuthenticateFacts.

(** C7: [authenticate] is idempotent per connection.  On a connection with
    no ['authenticated'] entry, the first call sends one login frame (signed
    with the HMAC of its own timestamp) and registers the entry; a second
    call made before the response changes nothing on the connection (no
    second frame) and returns the same future, which is pending; when the
    single login response arrives, that future is resolved with [true] for
    both callers, no frame is sent, and later calls return the same resolved
    future without sending; in general a call made while the entry exists
    sends nothing.  This holds for the bybit and for the hitbtc adapter. *)
Theorem C7_authenticate_idempotent :
  forall (id apiKey secret : string) (hmac : string -> string -> string)
         (toString : Z -> string) (params1 params2 : gmap string string)
         (now1 now2 : Z) (c : Client.t),
    Client.subscriptions c !! "authenticated"%string = None ->
    Client.futures c !! "authenticated"%string = None ->
    (let first := BybitWs.authenticate apiKey secret hmac toString params1 now1 c in
     let second :=
       BybitWs.authenticate apiKey secret hmac toString params2 now2 (fst first) in
     Client.sent (fst first)
     = Client.sent c ++ [bybit_login_frame apiKey secret hmac toString params1 now1] /\
     fst second = fst first /\
     snd second = snd first /\
     Client.state (fst second) (snd first) = Some Pending /\
     (forall message,
        BybitWs.success message = Some true ->
        exists c3,
          BybitWs.handleAuthenticate id (fst second) message = Done c3 /\
          Client.state c3 (snd first) = Some (Resolved VTrue) /\
          Client.state c3 (snd second) = Some (Resolved VTrue) /\
          Client.sent c3 = Client.sent (fst first) /\
          forall p n,
            BybitWs.authenticate apiKey secret hmac toString p n c3 = (c3, snd first)) /\
     (forall c' p n,
        Client.subscriptions c' !! "authenticated"%string <> None ->
        Client.sent (fst (BybitWs.authenticate apiKey secret hmac toString p n c'))
        = Client.sent c')) /\
    (let first := HitbtcWs.authenticate apiKey secret hmac toString now1 c in
     let second := HitbtcWs.authenticate apiKey secret hmac toString now2 (fst first) in
     Client.sent (fst first)
     = Client.sent c ++ [hitbtc_login_frame apiKey secret hmac toString now1] /\
     fst second = fst first /\
     snd second = snd first /\
     Client.state (fst second) (snd first) = Some Pending /\
     (forall message,
        HitbtcWs.result message = Some HitbtcWs.RTrue ->
        exists c3,
          HitbtcWs.handleAuthenticate id (fst second) message = Done c3 /\
          Client.state c3 (snd first) = Some (Resolved VTrue) /\
          Client.state c3 (snd second) = Some (Resolved VTrue) /\
          Client.sent c3 = Client.sent (fst first) /\
          forall n,
            HitbtcWs.authenticate apiKey secret hmac toString n c3 = (c3, snd first)) /\
     (forall c' n,
        Client.subscriptions c' !! "authenticated"%string <> None ->
        Client.sent (fst (HitbtcWs.authenticate apiKey secret hmac toString n c'))
        = Client.sent c')).
Proof.
  intros id apiKey secret hmac toString params1 params2 now1 now2 c Hnosub Hfresh.
  split.
  - intros first second.
    set (frame := bybit_login_frame apiKey secret hmac toString params1 now1).
    pose proof (logged_in_facts frame c) as (Hsub & Hreg & Hsent & Hfut & Hpend).
    specialize (Hpend Hfresh).
    assert (Hfirst : first = (logged_in frame c, snd (Client.future c "authenticated")))
      by (apply bybit_authenticate_first; exact Hnosub).
    assert (Hsecond : second = first).
    { unfold second. rewrite Hfirst. cbn [fst].
      rewrite bybit_authenticate_again by (rewrite Hsub; discriminate).
      exact Hfut. }
    rewrite Hsecond, Hfirst. cbn [fst snd].
    split; [exact Hsent |]. split; [reflexivity |]. split; [reflexivity |].
    split; [exact Hpend |].
    split.
    + intros message Hok.
      destruct (acknowledged (logged_in frame c) _ Hreg Hpend) as (Hres & Hs & Hsubs & Hf).
      eexists. unfold BybitWs.handleAuthenticate. rewrite Hok, Hreg.
      split; [reflexivity |].
      split; [exact Hres |]. split; [exact Hres |]. split; [exact Hs |].
      intros p n. rewrite bybit_authenticate_again; [exact Hf |].
      rewrite Hsubs, Hsub. discriminate.
    + intros c' p n Hsome. rewrite bybit_authenticate_again by exact Hsome.
      apply future_sent.
  - intros first second.
    set (frame := hitbtc_login_frame apiKey secret hmac toString now1).
    pose proof (logged_in_facts frame c) as (Hsub & Hreg & Hsent & Hfut & Hpend).
    specialize (Hpend Hfresh).
    assert (Hfirst : first = (logged_in frame c, snd (Client.future c "authenticated")))
      by (apply hitbtc_authenticate_first; exact Hnosub).
    assert (Hsecond : second = first).
    { unfold second. rewrite Hfirst. cbn [fst].
      rewrite hitbtc_authenticate_again by (rewrite Hsub; discriminate).
      exact Hfut. }
    rewrite Hsecond, Hfirst. cbn [fst snd].
    split; [exact Hsent |]. split; [reflexivity |]. split; [reflexivity |].
    split; [exact Hpend |].
    split.
    + intros message Hok.
      destruct (acknowledged (logged_in frame c) _ Hreg Hpend) as (Hres & Hs & Hsubs & Hf).
      eexists. unfold HitbtcWs.handleAuthenticate. rewrite Hok, Hreg.
      split; [reflexivity |].
      split; [exact Hres |]. split; [exact Hres |]. split; [exact Hs |].
      intros n. rewrite hitbtc_authenticate_again; [exact Hf |].
      rewrite Hsubs, Hsub. discriminate.
    + intros c' n Hsome. rewrite hitbtc_authenticate_again by exact Hsome.
      apply future_sent.
Qed.

Lemma C7_authenticate_idempotent_witness :
  let sign := fun (payload key : string) => String.append key payload in
  let show := fun _ : Z => "1700000010000"%string in
  let c := fresh_client "wss://stream.bybit.com/v5/private" in
  let first := BybitWs.authenticate "key" "secret" sign show ∅ 1700000000000 c in
  let second := BybitWs.authenticate "key" "secret" sign show ∅ 1700000000001 (fst first) in
  Client.sent (fst second)
  = [BybitAuth "key" "1700000010000" "secretGET/realtime1700000010000" ∅] /\
  snd second = snd first.
Proof.
  intros sign show c first second.
  destruct (C7_authenticate_idempotent "bybit" "key" "secret" sign show ∅ ∅
              1700000000000 1700000000001 c eq_refl eq_refl)
    as [(Hsent & Hsame & Hfut & _) _].
  fold first in Hsent, Hsame, Hfut. fold second in Hsame, Hfut.
  split; [rewrite Hsame, Hsent; reflexivity | exact Hfut].
Defined.

Section FailureFacts.
Import Client.
Variable id : string.
Variable exact : gmap string ErrorClass.

(** bybit, failure response of the documented shape
    [{ success: false, ret_msg, request: { op: 'auth', ... } }] with no
    code: the error handler rejects the ['authenticated'] future with an
    [AuthenticationError] and removes the subscription entry. *)
Lemma bybit_auth_failure_handled c message f :
  BybitWs.code message = None -> BybitWs.ret_code message = None ->
  BybitWs.success message = Some false ->
  BybitWs.request_op message = Some "auth"%string ->
  futures c !! "authenticated"%string = Some f ->
  state c f = Some Pending ->
  let error :=
    mkError AuthenticationError
      (String.append "Authentication failed: "
                     (BybitWs.orUndefined (BybitWs.ret_msg message))) in
  let c' := fst (BybitWs.handleErrorMessage id exact c message) in
  snd (BybitWs.handleErrorMessage id exact c message) = true /\
  state c' f = Some (Rejected error) /\
  futures c' !! "authenticated"%string = None /\
  subscriptions c' !! "authenticated"%string = None /\
  sent c' = sent c.
Proof.
  intros Hcode Hret Hfail Hop Hreg Hpend error c'.
  assert (Hraised : BybitWs.raised id exact message = Some error).
  { unfold BybitWs.raised. rewrite Hcode, Hret, Hfail, Hop. reflexivity. }
  unfold c', BybitWs.handleErrorMessage. rewrite Hraised.
  cbn [instanceofAuthenticationError err_class error].
  unfold reject. rewrite Hreg.
  split.
  { destruct (subscriptions _ !! _); reflexivity. }
  assert (Hstate : settle (Rejected error) f (heap c) !! f = Some (Rejected error))
    by (apply settle_pending; exact Hpend).
  destruct (subscriptions (set_futures _ _ c) !! "authenticated"%string) eqn:E;
    cbn [fst]; unfold state; simpl.
  - split; [exact Hstate |]. split; [apply lookup_delete_eq |].
    split; [apply lookup_delete_eq | reflexivity].
  - split; [exact Hstate |]. split; [apply lookup_delete_eq |].
    split; [exact E | reflexivity].
Qed.

(** After such a failure a new call logs in again. *)
Lemma bybit_retry_after_failure apiKey secret hmac toString params now c :
  subscriptions c !! "authenticated"%string = None ->
  sent (fst (BybitWs.authenticate apiKey secret hmac toString params now c))
  = sent c ++ [bybit_login_frame apiKey secret hmac toString params now].
Proof.
  intros Hnone. rewrite bybit_authenticate_first by exact Hnone.
  cbn [fst]. apply logged_in_facts.
Qed.

(** bybit: an error that is not an authentication error goes to
    [client.reject] without a message hash. *)
Lemma bybit_other_error_rejects_all c message e :
  BybitWs.raised id exact message = Some e ->
  instanceofAuthenticationError e = false ->
  BybitWs.handleErrorMessage id exact c message = (reject c e None, true).
Proof.
  intros Hraised Hcls. unfold BybitWs.handleErrorMessage.
  rewrite Hraised, Hcls. reflexivity.
Qed.

(** hitbtc: a message that carries an ["error"] makes [handleMessage]
    throw before any handler runs. *)
Lemma hitbtc_error_message_throws broad handleChannel handleOrderRequest c message :
  HitbtcWs.error message <> None ->
  exists e,
    HitbtcWs.handleMessage id exact broad handleChannel handleOrderRequest c message
    = Throws e c.
Proof.
  intros Herr. unfold HitbtcWs.handleMessage, HitbtcWs.handleError.
  destruct (HitbtcWs.error message) as [err|]; [| congruence].
  destruct (exact !! HitbtcWs.e_code err); [eexists; reflexivity |].
  destruct (broad (HitbtcWs.e_message err)); eexists; reflexivity.
Qed.

(** hitbtc: [handleMessage] hands a message to [handleAuthenticate] only
    when its result is [true]; the branch of [handleAuthenticate] that
    rejects and removes the entry is never taken from there. *)
Lemma hitbtc_handleAuthenticate_only_on_success c message :
  HitbtcWs.result message = Some HitbtcWs.RTrue ->
  HitbtcWs.handleAuthenticate id c message
  = match futures c !! "authenticated"%string with
    | Some future =>
        Done (set_futures (futures c) (settle (Resolved VTrue) future (heap c)) c)
    | None => Throws (mkError (OtherError "TypeError") "future is undefined") c
    end.
Proof. intros Hres. unfold HitbtcWs.handleAuthenticate. rewrite Hres. reflexivity. Qed.

End FailureFacts.

(** C8 (hitbtc, at the failing input): after a login has been sent, the
    documented login failure makes [handleMessage] throw out of
    [handleError]: the adapter leaves the connection as it was, the
    ['authenticated'] entry stays in the subscriptions, the future is not
    settled by the handler, and a later [authenticate] sends no new login
    frame. *)
Lemma C8_hitbtc_login_failure_keeps_entry :
  let sign := fun (payload key : string) => String.append key payload in
  let show := fun _ : Z => "1700000000000"%string in
  let exact : gmap string ErrorClass := {[ "1002"%string := AuthenticationError ]} in
  let broad := fun _ : option string => @None ErrorClass in
  let orders := fun (c : Client.t) (_ : HitbtcWs.Message) => c in
  let channels := fun (_ : string) (c : Client.t) (_ : HitbtcWs.Message) => c in
  let c0 := fresh_client "wss://api.hitbtc.com/api/3/ws/trading" in
  let first := HitbtcWs.authenticate "key" "secret" sign show 1700000000000 c0 in
  let outcome :=
    HitbtcWs.handleMessage "hitbtc" exact broad channels orders (fst first)
      hitbtc_login_failure in
  let retry := HitbtcWs.authenticate "key" "secret" sign show 1700000005000 (fst first) in
  outcome
  = Throws (mkError AuthenticationError "hitbtc invalid signature format") (fst first) /\
  Client.subscriptions (fst first) !! "authenticated"%string = Some true /\
  Client.state (fst first) (snd first) = Some Pending /\
  Client.sent (fst retry) = Client.sent (fst first) /\
  length (Client.sent (fst retry)) = 1%nat.
Proof.
  intros sign show exact broad orders channels c0 first outcome retry.
  split; [reflexivity |].
  split; [reflexivity |].
  split; [reflexivity |].
  split; reflexivity.
Qed.

(** C9 (as stated, refuted): the error answering the order book request
    also rejects the future of the trades request waiting on the same
    connection. *)
Lemma C9_error_rejects_other_waiters :
  let error :=
    mkError ExchangeError "bybit error:handler not found,topic:orderbook.40.BTCUSDT" in
  let after := fst (BybitWs.handleErrorMessage "bybit" ∅ two_waiters subscribe_rejected) in
  Client.futures two_waiters !! "trade:ETH/USDT"%string = Some 1%nat /\
  Client.state two_waiters 1%nat = Some Pending /\
  Client.state after 0%nat = Some (Rejected error) /\
  Client.state after 1%nat = Some (Rejected error).
Proof.
  intros error after.
  split; [reflexivity |]. split; [reflexivity |].
  split; vm_compute; reflexivity.
Qed.

(** C9 (amended): an inbound error that is not an authentication failure is
    handed to [client.reject] without a message hash, in the bybit and in
    the bingx adapter: every pending future registered on the connection is
    rejected with the decoded exception, whatever request the error answers,
    and the table of futures is emptied.  Only an authentication failure is
    delivered to a single message hash, ['authenticated']: a future
    registered under another hash keeps its registration and its state. *)
Theorem C9_error_delivery :
  forall (id : string) (exact : gmap string ErrorClass) (c : Client.t)
         (message : BybitWs.Message) (e : Error),
    BybitWs.raised id exact message = Some e ->
    (instanceofAuthenticationError e = false ->
     BybitWs.handleErrorMessage id exact c message = (Client.reject c e None, true) /\
     Client.futures (Client.reject c e None) = ∅ /\
     (forall h f,
        Client.futures c !! h = Some f -> Client.state c f = Some Pending ->
        Client.state (Client.reject c e None) f = Some (Rejected e))) /\
    (instanceofAuthenticationError e = true ->
     forall g f,
       g <> "authenticated"%string ->
       Client.futures c !! g = Some f ->
       (forall f', Client.futures c !! "authenticated"%string = Some f' -> f' <> f) ->
       let after := fst (BybitWs.handleErrorMessage id exact c message) in
       Client.futures after !! g = Some f /\
       Client.state after f = Client.state c f) /\
    (forall (code : string) (json : string) (cls : ErrorClass),
       exact !! code = Some cls ->
       BingxWs.handleErrorMessage id exact c (Some code) json
       = (Client.reject c (mkError cls (String.append id (String.append " " json))) None,
          true)).
Proof.
  intros id exact c message e Hraised.
  split; [| split].
  - intros Hcls.
    split; [apply bybit_other_error_rejects_all; assumption |].
    split; [reflexivity |].
    intros h f Hreg Hpend. eapply reject_all_registered; eauto.
  - intros Hcls g f Hne Hreg Hdistinct after.
    unfold after, BybitWs.handleErrorMessage. rewrite Hraised, Hcls.
    destruct (reject_one_other c e "authenticated" g f) as [Hf Hs]; auto.
    destruct (Client.subscriptions _ !! _); cbn [fst]; split; assumption.
  - intros code json cls Hcode. unfold BingxWs.handleErrorMessage.
    rewrite Hcode. reflexivity.
Qed.

Lemma C9_error_delivery_witness :
  Client.state
    (Client.reject two_waiters
       (mkError ExchangeError "bybit error:handler not found,topic:orderbook.40.BTCUSDT")
       None) 1%nat
  = Some (Rejected
            (mkError ExchangeError
               "bybit error:handler not found,topic:orderbook.40.BTCUSDT")).
Proof.
  destruct (C9_error_delivery "bybit" ∅ two_waiters subscribe_rejected
              (mkError ExchangeError
                 "bybit error:handler not found,topic:orderbook.40.BTCUSDT") eq_refl)
    as [Hall _].
  destruct (Hall eq_refl) as (_ & _ & Hrejected).
  apply (Hrejected "trade:ETH/USDT"%string 1%nat); reflexivity.
Defined.

(** ** The channel name of hitbtc's [watchOrderBook] (C10) *)

Section ChannelNameFacts.
Variable optionsMethod : option string.

Lemma watchOrderBookName_ignores_speed params v :
  HitbtcWs.watchOrderBookName optionsMethod (<["speed"%string := v]> params)
  = HitbtcWs.watchOrderBookName optionsMethod params.
Proof.
  unfold HitbtcWs.watchOrderBookName, HitbtcWs.safeString2, HitbtcWs.safeString.
  rewrite !lookup_insert_ne by discriminate. reflexivity.
Qed.

Lemma watchOrderBookName_without_speed params :
  HitbtcWs.watchOrderBookName optionsMethod (delete "speed"%string params)
  = HitbtcWs.watchOrderBookName optionsMethod params.
Proof.
  unfold HitbtcWs.watchOrderBookName, HitbtcWs.safeString2, HitbtcWs.safeString.
  rewrite !lookup_delete_ne by discriminate. reflexivity.
Qed.

End ChannelNameFacts.

(** C10: in hitbtc's [watchOrderBook] the [{speed}] part of the channel name
    is read from [params['depth']] with default ['100']: for each of the four
    templates the name is built from [safeString (params, 'depth', '20')] and
    [safeString (params, 'depth', '100')]; [params['speed']] is never read
    (setting, changing or removing it leaves the name unchanged), so a call
    that asks for the template ['orderbook/{depth}/{speed}'] and gives only a
    speed subscribes to ['orderbook/D20/100ms'], the frame it sends carrying
    that channel. *)
Theorem C10_speed_read_from_depth :
  forall (optionsMethod : option string) (params : gmap string string),
    let name := HitbtcWs.watchOrderBookName optionsMethod params in
    let template :=
      HitbtcWs.safeString2 params "method" "defaultMethod"
        (default "orderbook/full"%string optionsMethod) in
    let depth := HitbtcWs.safeString params "depth" "20" in
    let speed := HitbtcWs.safeString params "depth" "100" in
    (forall v,
       HitbtcWs.watchOrderBookName optionsMethod (<["speed"%string := v]> params) = name) /\
    HitbtcWs.watchOrderBookName optionsMethod (delete "speed"%string params) = name /\
    (template = "orderbook/{depth}/{speed}"%string ->
     name = String.append "orderbook/D"
              (String.append depth (String.append "/" (String.append speed "ms")))) /\
    (template = "orderbook/{depth}/{speed}/batch"%string ->
     name = String.append "orderbook/D"
              (String.append depth (String.append "/" (String.append speed "ms/batch")))) /\
    (template = "orderbook/top/{speed}"%string ->
     name = String.append "orderbook/top/" (String.append speed "ms")) /\
    (template = "orderbook/top/{speed}/batch"%string ->
     name = String.append "orderbook/top/" (String.append speed "ms/batch")) /\
    (forall v : string,
       HitbtcWs.watchOrderBookName optionsMethod
         {[ "method"%string := "orderbook/{depth}/{speed}"%string; "speed"%string := v ]}
       = "orderbook/D20/100ms"%string) /\
    (forall (v : string) (marketId : string -> string) (symbol : string) (nonce : Z)
            (url : string),
       let only_speed : gmap string string :=
         {[ "method"%string := "orderbook/{depth}/{speed}"%string; "speed"%string := v ]} in
       Client.sent
         (fst (HitbtcWs.watchOrderBook marketId optionsMethod symbol only_speed nonce
                 (fresh_client url)))
       = [HitbtcSubscribe nonce "orderbook/D20/100ms" [marketId symbol] only_speed]).
Proof.
  intros optionsMethod params name template depth speed.
  split; [intros v; apply watchOrderBookName_ignores_speed |].
  split; [apply watchOrderBookName_without_speed |].
  assert (Htemplate :
            name
            = if String.eqb template "orderbook/{depth}/{speed}" then
                String.append "orderbook/D"
                  (String.append depth (String.append "/" (String.append speed "ms")))
              else if String.eqb template "orderbook/{depth}/{speed}/batch" then
                String.append "orderbook/D"
                  (String.append depth
                     (String.append "/" (String.append speed "ms/batch")))
              else if String.eqb template "orderbook/top/{speed}" then
                String.append "orderbook/top/" (String.append speed "ms")
              else if String.eqb template "orderbook/top/{speed}/batch" then
                String.append "orderbook/top/" (String.append speed "ms/batch")
              else template).
  { unfold name, HitbtcWs.watchOrderBookName, template.
    destruct optionsMethod; reflexivity. }
  split; [intros Ht; rewrite Htemplate, Ht; reflexivity |].
  split; [intros Ht; rewrite Htemplate, Ht; reflexivity |].
  split; [intros Ht; rewrite Htemplate, Ht; reflexivity |].
  split; [intros Ht; rewrite Htemplate, Ht; reflexivity |].
  assert (Hname : forall v : string,
            HitbtcWs.watchOrderBookName optionsMethod
              {[ "method"%string := "orderbook/{depth}/{speed}"%string;
                 "speed"%string := v ]}
            = "orderbook/D20/100ms"%string).
  { intros v. unfold HitbtcWs.watchOrderBookName, HitbtcWs.safeString2, HitbtcWs.safeString.
    rewrite lookup_insert_eq.
    rewrite lookup_insert_ne by discriminate.
    rewrite lookup_singleton_ne by discriminate.
    reflexivity. }
  split; [exact Hname |].
  intros v marketId symbol nonce url only_speed.
  unfold HitbtcWs.watchOrderBook. unfold only_speed at 1. rewrite Hname.
  reflexivity.
Qed.

Lemma C10_speed_read_from_depth_witness :
  HitbtcWs.watchOrderBookName None
    {[ "method"%string := "orderbook/{depth}/{speed}"%string;
       "depth"%string := "5"%string; "speed"%string := "500"%string ]}
  = "orderbook/D5/5ms"%string.
Proof.
  destruct (C10_speed_read_from_depth None
              {[ "method"%string := "orderbook/{depth}/{speed}"%string;
                 "depth"%string := "5"%string; "speed"%string := "500"%string ]})
    as (_ & _ & Htemplate & _).
  rewrite Htemplate; reflexivity.
Defined.

(** * Further properties *)

(** ** Strings *)

Section StringFacts.

Lemma contains_cons needle c rest :
  contains needle (String c rest)
  = String.prefix needle (String c rest) || contains needle rest.
Proof. reflexivity. Qed.

Lemma prefix_cons a k c rest :
  String.prefix (String a k) (String c rest)
  = if Ascii.eqb a c then String.prefix k rest else false.
Proof.
  simpl. destruct (ascii_dec a c) as [->|Hne].
  - rewrite Ascii.eqb_refl. reflexivity.
  - apply Ascii.eqb_neq in Hne. rewrite Hne. reflexivity.
Qed.

(** A needle does not occur in a string that lacks its first character. *)
Lemma contains_lacks a k s :
  lacks a s = true -> contains (String a k) s = false.
Proof.
  induction s as [|c rest IH]; intros Hs.
  - reflexivity.
  - simpl in Hs. apply andb_true_iff in Hs. destruct Hs as [Hc Hrest].
    rewrite contains_cons, prefix_cons, (IH Hrest).
    destruct (Ascii.eqb a c) eqn:E; [| reflexivity].
    apply Ascii.eqb_eq in E. subst c. rewrite Ascii.eqb_refl in Hc. discriminate.
Qed.

Lemma no_lowercase_lacks a s :
  is_lower a = true -> no_lowercase s = true -> lacks a s = true.
Proof.
  intros Ha. induction s as [|c rest IH]; intros Hs; [reflexivity |].
  simpl in Hs. apply andb_true_iff in Hs. destruct Hs as [Hc Hrest].
  simpl. rewrite (IH Hrest), andb_true_r.
  destruct (Ascii.eqb c a) eqn:E; [| reflexivity].
  apply Ascii.eqb_eq in E. subst c. rewrite Ha in Hc. discriminate.
Qed.

(** A needle that starts with a lowercase letter does not occur in a
    string without lowercase letters. *)
Lemma contains_no_lowercase a k s :
  is_lower a = true -> no_lowercase s = true ->
  contains (String a k) s = false.
Proof.
  intros Ha Hs. apply contains_lacks, no_lowercase_lacks; assumption.
Qed.

Lemma lacks_app a s t :
  lacks a (String.append s t) = lacks a s && lacks a t.
Proof.
  induction s as [|c s IH]; [reflexivity |].
  simpl. rewrite IH. rewrite andb_assoc. reflexivity.
Qed.

Lemma split_lacks sep s :
  lacks sep s = true -> split sep s = [s].
Proof.
  induction s as [|c rest IH]; intros Hs; [reflexivity |].
  simpl in Hs. apply andb_true_iff in Hs. destruct Hs as [Hc Hrest].
  simpl. apply negb_true_iff in Hc. rewrite Hc, (IH Hrest). reflexivity.
Qed.

Lemma split_app_sep sep s t :
  lacks sep s = true ->
  split sep (String.append s (String sep t)) = s :: split sep t.
Proof.
  induction s as [|c rest IH]; intros Hs.
  - simpl. rewrite Ascii.eqb_refl. reflexivity.
  - simpl in Hs. apply andb_true_iff in Hs. destruct Hs as [Hc Hrest].
    simpl. apply negb_true_iff in Hc. rewrite Hc, (IH Hrest). reflexivity.
Qed.

Lemma no_lowercase_app s t :
  no_lowercase (String.append s t) = no_lowercase s && no_lowercase t.
Proof.
  induction s as [|c s IH]; [reflexivity |].
  simpl. rewrite IH. rewrite andb_assoc. reflexivity.
Qed.

End StringFacts.

(** ** The bybit dispatcher *)

Section BybitRouterFacts.
Import BybitRouter.
Variable id : string.
Variable exact : gmap string ErrorClass.

Lemma handleMessage_data client message method :
  bybit_data_message id exact message ->
  bybit_route (default EmptyString (topic message)) = Some method ->
  handleMessage id exact client message = Call method.
Proof.
  intros (Hraised & Hret & Hpong & Hop & Hevent) Hroute.
  unfold handleMessage, BybitWs.handleErrorMessage. rewrite Hraised.
  rewrite bool_decide_eq_false_2 by exact Hret.
  rewrite Hpong.
  rewrite bool_decide_eq_false_2 by exact Hop.
  rewrite bool_decide_eq_false_2 by exact Hevent.
  unfold bybit_route in Hroute.
  destruct (exactMethod methods _) as [m|]; [congruence |].
  rewrite Hroute. reflexivity.
Qed.

End BybitRouterFacts.

Section BybitRouteFacts.
Import BybitRouter.

Lemma append_nil_l s : String.append EmptyString s = s.
Proof. reflexivity. Qed.

(** Case analysis on the exact entry of the table. *)
Ltac exact_cases t H :=
  repeat match goal with
  | |- context [String.eqb t ?k] =>
      destruct (String.eqb_spec t k) as [-> | _];
      [ solve [ reflexivity | vm_compute in H; discriminate H ] | ]
  end.

Lemma route_orderbook t :
  contains "orderbook" t = true -> bybit_route t = Some HandleOrderBook.
Proof.
  intros H. unfold bybit_route. simpl exactMethod.
  exact_cases t H.
  simpl. rewrite H. reflexivity.
Qed.

Lemma route_position : bybit_route "position" = Some HandlePositions.
Proof. reflexivity. Qed.

End BybitRouteFacts.

(** X1: whatever else a topic holds, a data message whose topic contains
    ["orderbook"] is handed to [handleOrderBook] (never to [handleOrder],
    whose key ["order"] it also contains); in particular every topic that
    [watchOrderBookForSymbols] subscribes to is, for any limit and any
    market id. *)
Theorem X1_orderbook_topics_reach_handleOrderBook :
  forall (id : string) (exact : gmap string ErrorClass) (client : Client.t)
         (message : BybitRouter.Message) (topic : string),
    bybit_data_message id exact message ->
    BybitRouter.topic message = Some topic ->
    (contains "orderbook" topic = true ->
     BybitRouter.handleMessage id exact client message
     = BybitRouter.Call BybitRouter.HandleOrderBook) /\
    (forall market marketId marketSymbols publicUrl toString symbols limit params sub,
       BybitWatch.watchOrderBookForSymbols id market marketId marketSymbols publicUrl
         toString symbols limit params = inr sub ->
       In topic (BybitWatch.sub_topics sub) ->
       BybitRouter.handleMessage id exact client message
       = BybitRouter.Call BybitRouter.HandleOrderBook).
Proof.
  intros id exact client message topic Hdata Htopic.
  assert (Hroute : contains "orderbook" topic = true ->
                   BybitRouter.handleMessage id exact client message
                   = BybitRouter.Call BybitRouter.HandleOrderBook).
  { intros Hc. apply handleMessage_data; [exact Hdata |].
    rewrite Htopic. apply route_orderbook. exact Hc. }
  split; [exact Hroute |].
  intros market marketId marketSymbols publicUrl toString symbols limit params sub
         Hsub Hin.
  apply Hroute.
  unfold BybitWatch.watchOrderBookForSymbols in Hsub.
  destruct (length symbols =? 0)%nat; [discriminate |].
  destruct limit as [l|].
  - destruct (negb _ && _); [discriminate |].
    injection Hsub as <-. simpl in Hin.
    apply in_map_iff in Hin. destruct Hin as (s & <- & _). reflexivity.
  - injection Hsub as <-. simpl in Hin.
    apply in_map_iff in Hin. destruct Hin as (s & <- & _). reflexivity.
Qed.

Lemma X1_orderbook_topics_reach_handleOrderBook_witness :
  BybitRouter.handleMessage "bybit" ∅ (fresh_client gap_url)
    (bybit_push "orderbook.50.BTCUSDT")
  = BybitRouter.Call BybitRouter.HandleOrderBook.
Proof.
  assert (Hdata : bybit_data_message "bybit" ∅ (bybit_push "orderbook.50.BTCUSDT")).
  { repeat split; (reflexivity || discriminate). }
  destruct (X1_orderbook_topics_reach_handleOrderBook "bybit" ∅ (fresh_client gap_url)
              (bybit_push "orderbook.50.BTCUSDT") "orderbook.50.BTCUSDT" Hdata eq_refl)
    as [Hroute _].
  apply Hroute. reflexivity.
Defined.

Section PublicTopicFacts.
Import BybitRouter.

Lemma route_publicTrade marketId :
  no_lowercase marketId = true ->
  bybit_route (String.append "publicTrade." marketId) = Some HandleTrades.
Proof.
  intros Hid. unfold bybit_route. simpl.
  rewrite append_nil_l.
  rewrite !contains_no_lowercase by (reflexivity || exact Hid).
  reflexivity.
Qed.

Lemma route_kline timeframeId marketId :
  lacks "o" timeframeId = true -> no_lowercase marketId = true ->
  bybit_route
    (String.append "kline." (String.append timeframeId (String.append "." marketId)))
  = Some HandleOHLCV.
Proof.
  intros Htf Hid. unfold bybit_route. simpl.
  rewrite append_nil_l.
  assert (Hrest : lacks "o" (String.append timeframeId (String "." marketId)) = true).
  { rewrite lacks_app. simpl. rewrite Htf. simpl.
    apply no_lowercase_lacks; [reflexivity | exact Hid]. }
  rewrite contains_lacks by exact Hrest.
  reflexivity.
Qed.

Lemma route_tickers marketId :
  no_lowercase marketId = true ->
  bybit_route (String.append "tickers" (String.append "." marketId))
  = Some HandleTicker /\
  bybit_route (String.append "tickers_lt" (String.append "." marketId))
  = Some HandleTicker.
Proof.
  intros Hid. unfold bybit_route. simpl.
  rewrite !append_nil_l.
  rewrite !contains_no_lowercase by (reflexivity || exact Hid).
  split; reflexivity.
Qed.

End PublicTopicFacts.

Lemma route_dispatches method topic :
  bybit_route topic = Some method -> bybit_dispatches_to method topic.
Proof.
  intros Hroute id exact client message Hdata Htopic.
  apply handleMessage_data; [exact Hdata |].
  rewrite Htopic. exact Hroute.
Qed.

(** X2: for markets whose ids hold no lowercase letter (as bybit's do), the
    topics the public watchers subscribe to come back to the handler that
    resolves them: every topic of [watchTradesForSymbols] is dispatched to
    [handleTrades], the topic of [watchOHLCV] (for a timeframe id without
    the letter o, as all ids of the timeframe tables are) to [handleOHLCV]
    and not to [handleOrderBook], and the topics of [watchTicker] and
    [watchTickers] (for the documented stream names) to [handleTicker]. *)
Theorem X2_public_topics_reach_their_handlers :
  forall (exchangeId : string) (market : option string -> BybitWatch.Market)
         (marketId : string -> string) (marketSymbols : list string -> list string)
         (publicUrl : option string -> gmap string string -> string)
         (timeframes : gmap string string),
    (forall s, no_lowercase (BybitWatch.id (market s)) = true) ->
    (forall s, no_lowercase (marketId s) = true) ->
    (forall symbols params sub,
       BybitWatch.watchTradesForSymbols exchangeId market marketSymbols publicUrl
         symbols params = inr sub ->
       Forall (bybit_dispatches_to BybitRouter.HandleTrades)
              (BybitWatch.sub_topics sub)) /\
    (forall symbol timeframe params,
       lacks "o" (default timeframe (timeframes !! timeframe)) = true ->
       Forall (bybit_dispatches_to BybitRouter.HandleOHLCV)
              (BybitWatch.sub_topics
                 (BybitWatch.watchOHLCV market publicUrl timeframes symbol timeframe
                    params))) /\
    (forall name symbol params sub,
       documented_ticker_name name ->
       BybitWatch.watchTicker exchangeId market publicUrl name symbol params = inr sub ->
       Forall (bybit_dispatches_to BybitRouter.HandleTicker)
              (BybitWatch.sub_topics sub)) /\
    (forall name symbols params,
       documented_ticker_name name ->
       Forall (bybit_dispatches_to BybitRouter.HandleTicker)
              (BybitWatch.sub_topics
                 (BybitWatch.watchTickers marketId marketSymbols publicUrl name symbols
                    params))).
Proof.
  intros exchangeId market marketId marketSymbols publicUrl timeframes Hmarket Hid.
  split; [| split; [| split]].
  - intros symbols params sub Hsub.
    unfold BybitWatch.watchTradesForSymbols in Hsub.
    destruct (length (marketSymbols symbols) =? 0)%nat; [discriminate |].
    injection Hsub as <-. simpl.
    apply Forall_map, Forall_forall. intros s _.
    apply route_dispatches, route_publicTrade, Hmarket.
  - intros symbol timeframe params Htf.
    unfold BybitWatch.watchOHLCV. simpl.
    constructor; [| constructor].
    apply route_dispatches.
    destruct (timeframes !! timeframe); apply route_kline; auto.
  - intros name symbol params sub Hname Hsub.
    unfold BybitWatch.watchTicker in Hsub.
    destruct (negb _ && _); [discriminate |].
    injection Hsub as <-. simpl.
    constructor; [| constructor].
    apply route_dispatches.
    destruct (route_tickers (BybitWatch.id (market (Some symbol))) (Hmarket _))
      as [Ht Hlt].
    destruct Hname as [-> | [-> | ->]]; assumption.
  - intros name symbols params Hname.
    unfold BybitWatch.watchTickers. simpl.
    apply Forall_map, Forall_map, Forall_forall. intros s _.
    apply route_dispatches.
    destruct (route_tickers (marketId s) (Hid s)) as [Ht Hlt].
    destruct Hname as [-> | [-> | ->]]; assumption.
Qed.

Lemma X2_public_topics_reach_their_handlers_witness :
  Forall (bybit_dispatches_to BybitRouter.HandleOHLCV) ["kline.60.BTCUSDT"%string] /\
  Forall (bybit_dispatches_to BybitRouter.HandleTicker) ["tickers.BTCUSDT"%string].
Proof.
  destruct (X2_public_topics_reach_their_handlers "bybit" btc_market
              (fun _ => "BTCUSDT"%string) (fun symbols => symbols)
              (fun _ _ => gap_url) {[ "1h"%string := "60"%string ]}
              (fun _ => eq_refl) (fun _ => eq_refl))
    as (_ & Hkline & _ & Htickers).
  split.
  - exact (Hkline "BTC/USDT"%string "1h"%string ∅ eq_refl).
  - exact (Htickers None ["BTC/USDT"%string] ∅ (or_introl eq_refl)).
Defined.

(** X3: the topic a private watcher picks by [getPrivateType (url)] comes
    back to the handler of that watcher, whatever the URL: the topic of
    [watchMyTrades] is always defined and dispatched to [handleMyTrades],
    the topics of [watchOrders] to [handleOrder], the topic of
    [watchPositions] to [handlePositions]; the topic of [watchBalance] is
    dispatched to [handleBalance] when the URL is a spot or a ['v5/private']
    one, and is undefined for any other URL, for which the table of
    [watchBalance] has no entry. *)
Theorem X3_private_topics_reach_their_handlers :
  forall url : string,
    (exists topic,
       BybitWatch.myTradesTopic url = Some topic /\
       bybit_dispatches_to BybitRouter.HandleMyTrades topic) /\
    (exists topics,
       BybitWatch.ordersTopics url = Some topics /\ topics <> [] /\
       Forall (bybit_dispatches_to BybitRouter.HandleOrder) topics) /\
    Forall (bybit_dispatches_to BybitRouter.HandlePositions)
           BybitWatch.positionsTopics /\
    (contains "spot" url = true \/ contains "v5/private" url = true ->
     exists topic,
       BybitWatch.balanceTopic url = Some topic /\
       bybit_dispatches_to BybitRouter.HandleBalance topic) /\
    (contains "spot" url = false -> contains "v5/private" url = false ->
     BybitWatch.balanceTopic url = None).
Proof.
  intros url.
  unfold BybitWatch.myTradesTopic, BybitWatch.ordersTopics, BybitWatch.balanceTopic,
    BybitRouter.getPrivateType.
  destruct (contains "spot" url) eqn:Hspot;
    [| destruct (contains "v5/private" url) eqn:Hv5].
  - split; [eexists; split; [reflexivity | apply route_dispatches; reflexivity] |].
    split.
    { eexists. split; [reflexivity |]. split; [discriminate |].
      repeat constructor; apply route_dispatches; reflexivity. }
    split; [repeat constructor; apply route_dispatches; reflexivity |].
    split; [| discriminate].
    intros _. eexists. split; [reflexivity | apply route_dispatches; reflexivity].
  - split; [eexists; split; [reflexivity | apply route_dispatches; reflexivity] |].
    split.
    { eexists. split; [reflexivity |]. split; [discriminate |].
      repeat constructor; apply route_dispatches; reflexivity. }
    split; [repeat constructor; apply route_dispatches; reflexivity |].
    split; [| discriminate].
    intros _. eexists. split; [reflexivity | apply route_dispatches; reflexivity].
  - split; [eexists; split; [reflexivity | apply route_dispatches; reflexivity] |].
    split.
    { eexists. split; [reflexivity |]. split; [discriminate |].
      repeat constructor; apply route_dispatches; reflexivity. }
    split; [repeat constructor; apply route_dispatches; reflexivity |].
    split; [intros [H | H]; discriminate H | reflexivity].
Qed.

Lemma X3_private_topics_reach_their_handlers_witness :
  BybitWatch.balanceTopic "wss://stream.bybit.com/trade/option/usdc/private/v1" = None.
Proof.
  destruct (X3_private_topics_reach_their_handlers
              "wss://stream.bybit.com/trade/option/usdc/private/v1")
    as (_ & _ & _ & _ & Hnone).
  apply Hnone; reflexivity.
Defined.

(** X4: [handlePong] stores the message's integer ["pong"] field as
    [client.lastPong].  A pong recognised only by [ret_msg === 'pong'] or
    [op === 'pong'] (the contract streams' pongs, which have no ["pong"]
    field) therefore leaves [lastPong] undefined; a message with an integer
    ["pong"] field records that integer. *)
Theorem X4_pong_records_pong_field :
  forall (id : string) (exact : gmap string ErrorClass) (client : Client.t)
         (message : BybitRouter.Message),
    BybitWs.raised id exact (BybitRouter.base message) = None ->
    (BybitRouter.pong message = None ->
     BybitWs.ret_msg (BybitRouter.base message) = Some "pong"%string \/
     BybitWs.op (BybitRouter.base message) = Some "pong"%string ->
     BybitRouter.handleMessage id exact client message
     = BybitRouter.PongHandled None) /\
    (forall n,
       BybitRouter.pong message = Some n ->
       BybitRouter.handleMessage id exact client message
       = BybitRouter.PongHandled (Some n)).
Proof.
  intros id exact client message Hraised.
  unfold BybitRouter.handleMessage, BybitWs.handleErrorMessage, BybitRouter.handlePong.
  rewrite Hraised. split.
  - intros Hnone [Hret | Hop].
    + rewrite bool_decide_eq_true_2 by exact Hret. rewrite Hnone. reflexivity.
    + rewrite Hnone. rewrite (bool_decide_eq_true_2 _ Hop).
      destruct (bool_decide _); reflexivity.
  - intros n Hn. rewrite Hn. destruct (bool_decide _); reflexivity.
Qed.

Lemma X4_pong_records_pong_field_witness :
  BybitRouter.handleMessage "bybit" ∅ (fresh_client gap_url) bybit_spot_pong
  = BybitRouter.PongHandled (Some 1653296711335).
Proof.
  destruct (X4_pong_records_pong_field "bybit" ∅ (fresh_client gap_url)
              bybit_spot_pong eq_refl)
    as [_ Hpong].
  apply Hpong. reflexivity.
Defined.

(** X5: [watchOrderBookForSymbols] fails fast: it accepts a call exactly
    when the symbol list is not empty and the limit is undefined, or the
    first symbol's market is a spot market, or the limit is 1, 50, 200 or
    500 (spot markets take any limit, and only the first symbol's market is
    looked at).  On acceptance there is one topic
    ['orderbook.' + limit + '.' + marketId] and one message hash
    ['orderbook:' + symbol] per symbol, in order, the limit defaulting to 50
    for spot and 500 otherwise; an empty list is refused with
    ArgumentsRequired and a bad limit with BadRequest. *)
Theorem X5_watchOrderBookForSymbols_validation :
  forall (exchangeId : string) (market : option string -> BybitWatch.Market)
         (marketId : string -> string) (marketSymbols : list string -> list string)
         (publicUrl : option string -> gmap string string -> string)
         (toString : Z -> string) (symbols : list string) (limit : option Z)
         (params : gmap string string),
    let result :=
      BybitWatch.watchOrderBookForSymbols exchangeId market marketId marketSymbols
        publicUrl toString symbols limit params in
    let listed := marketSymbols symbols in
    let spotFirst := BybitWatch.spot (market (listed !! 0%nat)) in
    let effective :=
      match limit with
      | Some l => l
      | None => if spotFirst then 50 else 500
      end in
    ((exists sub, result = inr sub) <->
     symbols <> [] /\
     (limit = None \/ spotFirst = true \/
      exists l, limit = Some l /\ bybit_contract_limit l)) /\
    (forall sub,
       result = inr sub ->
       BybitWatch.sub_topics sub
       = map (fun symbol =>
                String.append "orderbook."
                  (String.append (toString effective)
                     (String.append "." (marketId symbol)))) listed /\
       BybitWatch.sub_messageHashes sub
       = map (fun symbol => String.append "orderbook:" symbol) listed /\
       length (BybitWatch.sub_topics sub) = length (BybitWatch.sub_messageHashes sub)) /\
    (forall e,
       result = inl e ->
       err_class e = OtherError (if (length symbols =? 0)%nat
                                 then "ArgumentsRequired" else "BadRequest")).
Proof.
  intros exchangeId market marketId marketSymbols publicUrl toString symbols limit
         params result listed spotFirst effective.
  unfold result, BybitWatch.watchOrderBookForSymbols.
  fold listed. fold spotFirst.
  destruct symbols as [|s0 rest].
  { simpl. split; [| split].
    - split; [intros [sub H]; discriminate | intros [H _]; congruence].
    - intros sub H. discriminate.
    - intros e H. injection H as <-. reflexivity. }
  cbn [length Nat.eqb].
  destruct limit as [l|].
  - destruct spotFirst eqn:Hspot; cbn [negb andb].
    + split; [| split].
      * split; [intros _; split; [discriminate | right; left; reflexivity] |].
        intros _. eexists. reflexivity.
      * intros sub H. injection H as <-. cbn.
        split; [reflexivity |]. split; [reflexivity |].
        rewrite !length_map. reflexivity.
      * intros e H. discriminate.
    + destruct (l =? 1) eqn:E1; [apply Z.eqb_eq in E1 |];
        [| destruct (l =? 50) eqn:E2; [apply Z.eqb_eq in E2 |];
           [| destruct (l =? 200) eqn:E3; [apply Z.eqb_eq in E3 |];
              [| destruct (l =? 500) eqn:E4; [apply Z.eqb_eq in E4 |]]]];
        cbn [negb andb].
      1-4: split; [| split];
        [ split; [intros _; split; [discriminate |]; right; right; exists l;
                  split; [reflexivity | unfold bybit_contract_limit; lia]
                 | intros _; eexists; reflexivity]
        | intros sub H; injection H as <-; cbn;
          split; [reflexivity |]; split; [reflexivity |];
          rewrite !length_map; reflexivity
        | intros e H; discriminate ].
      apply Z.eqb_neq in E1, E2, E3, E4.
      split; [| split].
      * split; [intros [sub H]; discriminate |].
        intros [_ [H | [H | (l' & H & Hl')]]]; try discriminate.
        injection H as <-. unfold bybit_contract_limit in Hl'. lia.
      * intros sub H. discriminate.
      * intros e H. injection H as <-. reflexivity.
  - split; [| split].
    + split; [intros _; split; [discriminate | left; reflexivity] |].
      intros _. eexists. reflexivity.
    + intros sub H. injection H as <-. cbn.
      split; [reflexivity |]. split; [reflexivity |].
      rewrite !length_map. reflexivity.
    + intros e H. discriminate.
Qed.

Lemma X5_watchOrderBookForSymbols_validation_witness :
  let watch :=
    BybitWatch.watchOrderBookForSymbols "bybit" btc_market (fun _ => "BTCUSDT"%string)
      (fun symbols => symbols) (fun _ _ => gap_url) (fun _ => "40"%string)
      ["BTC/USDT"%string] in
  (forall sub, watch (Some 40) ∅ <> inr sub) /\
  exists sub, watch (Some 50) ∅ = inr sub.
Proof.
  intros watch.
  destruct (X5_watchOrderBookForSymbols_validation "bybit" btc_market
              (fun _ => "BTCUSDT"%string) (fun symbols => symbols)
              (fun _ _ => gap_url) (fun _ => "40"%string) ["BTC/USDT"%string]
              (Some 40) ∅)
    as [[Hrefused _] _].
  destruct (X5_watchOrderBookForSymbols_validation "bybit" btc_market
              (fun _ => "BTCUSDT"%string) (fun symbols => symbols)
              (fun _ _ => gap_url) (fun _ => "40"%string) ["BTC/USDT"%string]
              (Some 50) ∅)
    as [[_ Haccepted] _].
  split.
  - intros sub Hsub.
    destruct (Hrefused (ex_intro _ sub Hsub)) as [_ [H | [H | (l & Hl & Hok)]]];
      [discriminate H | discriminate H |].
    injection Hl as <-. unfold bybit_contract_limit in Hok. lia.
  - apply Haccepted. split; [discriminate |].
    right. right. exists 50. split; [reflexivity |].
    unfold bybit_contract_limit. lia.
Defined.

Section RequestIdFacts.


End RequestIdFacts.



(** ** The subscribe frame of the bybit watchers *)





(** ** From the topic back to the message hash *)

Lemma split_trade_topic marketId :
  lacks "." marketId = true ->
  split "." (String.append "publicTrade." marketId) = ["publicTrade"; marketId]%string.
Proof.
  intros Hid.
  change (String.append "publicTrade." marketId)
    with (String.append "publicTrade" (String "." marketId)).
  rewrite split_app_sep by reflexivity.
  rewrite split_lacks by exact Hid. reflexivity.
Qed.

Lemma split_kline_topic timeframeId marketId :
  lacks "." timeframeId = true -> lacks "." marketId = true ->
  split "."
    (String.append "kline." (String.append timeframeId (String.append "." marketId)))
  = ["kline"; timeframeId; marketId]%string.
Proof.
  intros Htf Hid.
  change (String.append "kline."
            (String.append timeframeId (String.append "." marketId)))
    with (String.append "kline"
            (String "." (String.append timeframeId (String "." marketId)))).
  rewrite split_app_sep by reflexivity.
  rewrite split_app_sep by exact Htf.
  rewrite split_lacks by exact Hid. reflexivity.
Qed.

(** X8: the message hash a bybit handler resolves is the one the watcher
    registered.  For market ids (and timeframe ids) without a dot, and a
    market table in which [safeMarket] finds the market of the id again:
    the i-th topic of [watchTradesForSymbols], read back by [handleTrades]
    through [topic.split ('.')], resolves the i-th message hash, and the
    topic of [watchOHLCV], read back by [handleOHLCV], resolves the hash of
    [watchOHLCV] and files the candles under the market's symbol and the
    timeframe [findTimeframe] gives for the timeframe id. *)
Theorem X8_bybit_topic_resolves_registered_hash :
  forall (safeMarket : option string -> string -> string)
         (findTimeframe : option string -> string)
         (exchangeId : string) (market : option string -> BybitWatch.Market)
         (marketSymbols : list string -> list string)
         (publicUrl : option string -> gmap string string -> string)
         (timeframes : gmap string string),
    (forall symbols params sub,
       BybitWatch.watchTradesForSymbols exchangeId market marketSymbols publicUrl
         symbols params = inr sub ->
       Forall (fun s =>
                 lacks "." (BybitWatch.id (market (Some s))) = true /\
                 forall marketType,
                   safeMarket (Some (BybitWatch.id (market (Some s)))) marketType = s)
              (marketSymbols symbols) ->
       Forall2 (fun topic messageHash =>
                  forall (RawTrade Trade : Type)
                         (parseWsTrade : RawTrade -> string -> Trade) url options
                         trades data,
                    fst (snd (BybitSeries.handleTrades safeMarket parseWsTrade url
                                options trades (BybitSeries.mkMessage topic data)))
                    = messageHash)
               (BybitWatch.sub_topics sub) (BybitWatch.sub_messageHashes sub)) /\
    (forall symbol timeframe params,
       let m := market (Some symbol) in
       let timeframeId := default timeframe (timeframes !! timeframe) in
       let sub :=
         BybitWatch.watchOHLCV market publicUrl timeframes symbol timeframe params in
       lacks "." timeframeId = true ->
       lacks "." (BybitWatch.id m) = true ->
       (forall marketType,
          safeMarket (Some (BybitWatch.id m)) marketType = BybitWatch.symbol m) ->
       exists topic messageHash,
         BybitWatch.sub_topics sub = [topic] /\
         BybitWatch.sub_messageHashes sub = [messageHash] /\
         forall url options ohlcvs data,
           let handled :=
             BybitSeries.handleOHLCV safeMarket findTimeframe url options ohlcvs
               (BybitSeries.mkMessage topic data) in
           fst (snd handled) = messageHash /\
           (fst handled !! BybitWatch.symbol m)
             ≫= (fun byTimeframe => byTimeframe !! findTimeframe (Some timeframeId))
           = Some (snd (snd handled))).
Proof.
  intros safeMarket findTimeframe exchangeId market marketSymbols publicUrl timeframes.
  split.
  - intros symbols params sub Hsub Hmarkets.
    unfold BybitWatch.watchTradesForSymbols in Hsub.
    destruct (length (marketSymbols symbols) =? 0)%nat; [discriminate |].
    injection Hsub as <-. cbn [BybitWatch.sub_topics BybitWatch.sub_messageHashes].
    apply Forall2_fmap, Forall_Forall2_diag.
    eapply Forall_impl; [exact Hmarkets |].
    intros s [Hdot Hinv] RawTrade Trade parseWsTrade url options trades data.
    unfold BybitSeries.handleTrades. cbn [BybitSeries.topic fst snd].
    rewrite split_trade_topic by exact Hdot.
    cbn [lookup list_lookup]. rewrite Hinv. reflexivity.
  - intros symbol timeframe params m timeframeId sub Htf Hid Hinv.
    assert (Htfid : match timeframes !! timeframe with
                    | Some tf => tf
                    | None => timeframe
                    end = timeframeId).
    { unfold timeframeId. destruct (timeframes !! timeframe); reflexivity. }
    eexists. eexists.
    split; [unfold sub, BybitWatch.watchOHLCV; cbn [BybitWatch.sub_topics];
            rewrite Htfid; reflexivity |].
    split; [unfold sub, BybitWatch.watchOHLCV; cbn [BybitWatch.sub_messageHashes];
            rewrite Htfid; reflexivity |].
    intros url options ohlcvs data handled. unfold handled.
    unfold BybitSeries.handleOHLCV. cbn [BybitSeries.topic fst snd].
    fold m. rewrite split_kline_topic by assumption.
    cbn [length Nat.sub lookup list_lookup default from_option id].
    rewrite Hinv. split; [reflexivity |].
    rewrite lookup_insert_eq. cbn [mbind option_bind].
    rewrite lookup_insert_eq. reflexivity.
Qed.

Lemma X8_bybit_topic_resolves_registered_hash_witness :
  Forall2 (fun topic messageHash =>
             forall (RawTrade Trade : Type)
                    (parseWsTrade : RawTrade -> string -> Trade) url options trades data,
               fst (snd (BybitSeries.handleTrades btc_safeMarket parseWsTrade url
                           options trades (BybitSeries.mkMessage topic data)))
               = messageHash)
          ["publicTrade.BTCUSDT"%string] ["trade:BTC/USDT"%string].
Proof.
  destruct (X8_bybit_topic_resolves_registered_hash btc_safeMarket (fun _ => "1m"%string)
              "bybit" btc_market (fun symbols => symbols) (fun _ _ => gap_url) ∅)
    as [Htrades _].
  apply (Htrades ["BTC/USDT"%string] ∅ _ eq_refl).
  repeat constructor.
Defined.

(** X9: a bybit handler changes the entry of one market only.  After
    [handleOrderBook] the table holds, under the message's symbol, the book
    it resolves under ['orderbook:' + symbol], and every other symbol's
    book is the one held before; after [handleTrades] likewise for the
    trade caches; after [handleOHLCV] the candles of every other symbol,
    and of every other timeframe of the same symbol, are the ones held
    before. *)
Theorem X9_bybit_handlers_touch_one_entry :
  forall (safeMarket : option string -> string -> string) (url : string),
    (forall orderbooks message,
       let handled := BybitBook.handleOrderBook safeMarket url orderbooks message in
       let symbol := bybit_symbol safeMarket url message in
       fst handled !! symbol = Some (snd (snd handled)) /\
       fst (snd handled) = String.append "orderbook:" symbol /\
       forall other, other <> symbol -> fst handled !! other = orderbooks !! other) /\
    (forall (RawTrade Trade : Type) (parseWsTrade : RawTrade -> string -> Trade)
            options trades message,
       let handled :=
         BybitSeries.handleTrades safeMarket parseWsTrade url options trades message in
       let symbol :=
         safeMarket (split "." (BybitSeries.topic message) !! 1%nat)
                    (bybit_market_type url) in
       fst handled !! symbol = Some (snd (snd handled)) /\
       fst (snd handled) = String.append "trade:" symbol /\
       forall other, other <> symbol -> fst handled !! other = trades !! other) /\
    (forall findTimeframe options ohlcvs message,
       let handled :=
         BybitSeries.handleOHLCV safeMarket findTimeframe url options ohlcvs message in
       let parts := split "." (BybitSeries.topic message) in
       let symbol :=
         safeMarket (parts !! (length parts - 1)%nat) (bybit_market_type url) in
       let timeframe := findTimeframe (parts !! 1%nat) in
       (forall other, other <> symbol -> fst handled !! other = ohlcvs !! other) /\
       (forall other, other <> timeframe ->
          (fst handled !! symbol) ≫= (fun byTimeframe => byTimeframe !! other)
          = (ohlcvs !! symbol) ≫= (fun byTimeframe => byTimeframe !! other))).
Proof.
  intros safeMarket url. split; [| split].
  - intros orderbooks message handled symbol.
    unfold handled, BybitBook.handleOrderBook. cbn [fst snd].
    fold (bybit_symbol safeMarket url message). fold symbol.
    split; [apply lookup_insert_eq |]. split; [reflexivity |].
    intros other Hother. apply lookup_insert_ne. congruence.
  - intros RawTrade Trade parseWsTrade options trades message handled symbol.
    unfold handled, BybitSeries.handleTrades. cbn [fst snd].
    fold (bybit_market_type url). fold symbol.
    split; [apply lookup_insert_eq |]. split; [reflexivity |].
    intros other Hother. apply lookup_insert_ne. congruence.
  - intros findTimeframe options ohlcvs message handled parts symbol timeframe.
    unfold handled, BybitSeries.handleOHLCV. cbn [fst snd].
    fold (bybit_market_type url). fold parts. fold symbol. fold timeframe.
    split.
    + intros other Hother. apply lookup_insert_ne. congruence.
    + intros other Hother. rewrite lookup_insert_eq. cbn [mbind option_bind].
      rewrite lookup_insert_ne by congruence.
      destruct (ohlcvs !! symbol); [reflexivity | apply lookup_empty].
Qed.

Lemma X9_bybit_handlers_touch_one_entry_witness :
  fst (BybitBook.handleOrderBook unknownMarket gap_url ∅ gap_snapshot)
    !! "ETHUSDT"%string = None.
Proof.
  destruct (X9_bybit_handlers_touch_one_entry unknownMarket gap_url) as [Hbook _].
  destruct (Hbook ∅ gap_snapshot) as (_ & _ & Hother).
  rewrite Hother; [reflexivity |].
  intros H. vm_compute in H. discriminate H.
Defined.

(** ** The private connection and its topics *)

(** X10: the URL [getUrlByMarketType] gives for a private stream is never
    one that [getPrivateType] classifies as ['spot']: it is the ['usdc']
    connection when the market (or the default settle currency) is
    USDC-settled and the ['unified'] one otherwise, provided the host name
    brings neither marker into the URL.  So on the connection the private
    watchers open, [watchMyTrades] subscribes to ['execution'] or
    ['user.openapi.perp.trade'] and never to ['ticketInfo'], [watchOrders]
    never to ['stopOrder'], and [watchBalance] to ['wallet'], or to an
    undefined topic when the connection is the USDC one. *)
Theorem X10_private_connection_is_never_spot :
  forall (market : string -> BybitUrl.Market)
         (handleMarketTypeAndParams :
            option string -> gmap string string -> option string * gmap string string)
         (handleSubTypeAndParams :
            option string -> option BybitUrl.Market -> gmap string string
            -> string * gmap string string)
         (defaultSettleOption : option string)
         (implodeHostname : option string -> string)
         (symbol : option string) (method : option string)
         (params : gmap string string),
    keeps_private_markers implodeHostname ->
    let url :=
      BybitUrl.getUrlByMarketType market handleMarketTypeAndParams
        handleSubTypeAndParams defaultSettleOption implodeHostname
        symbol true method params in
    let usdc :=
      BybitUrl.isUsdcSettled market handleMarketTypeAndParams defaultSettleOption
        symbol method params in
    BybitRouter.getPrivateType url = (if usdc then "usdc" else "unified")%string /\
    BybitWatch.myTradesTopic url
    = Some (if usdc then "user.openapi.perp.trade" else "execution")%string /\
    BybitWatch.ordersTopics url
    = Some (if usdc then ["user.openapi.perp.order"] else ["order"])%string /\
    BybitWatch.balanceTopic url = (if usdc then None else Some "wallet"%string).
Proof.
  intros market handleMarketTypeAndParams handleSubTypeAndParams defaultSettleOption
         implodeHostname symbol method params Hkeeps url usdc.
  unfold keeps_private_markers in Hkeeps.
  apply Forall_cons in Hkeeps. destruct Hkeeps as [[Hc1 Hc2] Hkeeps].
  apply Forall_cons in Hkeeps. destruct Hkeeps as [[Hu1 Hu2] _].
  assert (Htype : BybitRouter.getPrivateType url
                  = (if usdc then "usdc" else "unified")%string).
  { unfold url, BybitUrl.getUrlByMarketType. fold usdc.
    unfold BybitRouter.getPrivateType.
    destruct usdc.
    - rewrite Hu1, Hu2. reflexivity.
    - rewrite Hc1, Hc2. reflexivity. }
  unfold BybitWatch.myTradesTopic, BybitWatch.ordersTopics, BybitWatch.balanceTopic.
  rewrite Htype.
  destruct usdc; repeat split; reflexivity.
Qed.

Lemma X10_private_connection_is_never_spot_witness :
  let url :=
    BybitUrl.getUrlByMarketType (settled_in "USDC") (fun _ params => (None, params))
      (fun _ _ params => ("linear"%string, params)) None (implode_with "bybit.com")
      (Some "BTC/USDC:USDC"%string) true None ∅ in
  url = "wss://stream.bybit.com/trade/option/usdc/private/v1"%string /\
  BybitWatch.balanceTopic url = None.
Proof.
  intros url.
  assert (Hkeeps : keeps_private_markers (implode_with "bybit.com")).
  { repeat constructor. }
  destruct (X10_private_connection_is_never_spot (settled_in "USDC")
              (fun _ params => (None, params))
              (fun _ _ params => ("linear"%string, params)) None
              (implode_with "bybit.com") (Some "BTC/USDC:USDC"%string) None ∅ Hkeeps)
    as (_ & _ & _ & Hbalance).
  split; [reflexivity | exact Hbalance].
Defined.

(** ** The private handlers of bybit *)

Section BybitPrivateFacts.
Import Cache BybitPrivate.
Context {Raw Parsed : Type}.
Variable symbolOf : Parsed -> string.
Variable key : Parsed -> string * string.

Lemma mark_In symbols symbol s :
  In s (mark symbols symbol) <-> In s symbols \/ s = symbol.
Proof.
  unfold mark. destruct (bool_decide_reflect (symbol ∈ symbols)) as [Hin | Hnin].
  - apply list_elem_of_In in Hin. split; [tauto |].
    intros [H | ->]; assumption.
  - rewrite in_app_iff. simpl. intuition (subst; auto).
Qed.

Lemma mark_NoDup symbols symbol :
  NoDup symbols -> NoDup (mark symbols symbol).
Proof.
  intros Hnd. unfold mark.
  destruct (bool_decide_reflect (symbol ∈ symbols)) as [Hin | Hnin]; [exact Hnd |].
  apply NoDup_app. split; [exact Hnd |]. split.
  - intros x Hx Hx'. apply list_elem_of_singleton in Hx'. subst. contradiction.
  - apply NoDup_singleton.
Qed.

Lemma appendAll_spec (parse : Raw -> Parsed) raws cache symbols :
  fold_left (fun acc raw =>
               let parsed := parse raw in
               (appendById key (fst acc) parsed, mark (snd acc) (symbolOf parsed)))
            raws (cache, symbols)
  = (fold_left (appendById key) (map parse raws) cache,
     fold_left mark (map (fun raw => symbolOf (parse raw)) raws) symbols).
Proof.
  revert cache symbols. induction raws as [|raw raws IH]; intros cache symbols.
  - reflexivity.
  - cbn [fold_left map fst snd]. apply IH.
Qed.

Lemma fold_mark_In l symbols s :
  In s (fold_left mark l symbols) <-> In s symbols \/ In s l.
Proof.
  revert symbols. induction l as [|x l IH]; intros symbols.
  - simpl. tauto.
  - cbn [fold_left]. rewrite IH, mark_In. simpl. split.
    + intros [[H | ->] | H]; auto.
    + intros [H | [<- | H]]; auto.
Qed.

Lemma fold_mark_NoDup l symbols :
  NoDup symbols -> NoDup (fold_left mark l symbols).
Proof.
  revert symbols. induction l as [|x l IH]; intros symbols Hnd; [exact Hnd |].
  cbn [fold_left]. apply IH, mark_NoDup, Hnd.
Qed.

(** The hashes resolved for a list of marked symbols. *)
Lemma resolved_hashes (prefix : string) (plain : string) (symbols : list string) :
  NoDup symbols ->
  (forall s, String.append prefix s <> plain) ->
  let resolved := map (fun key => String.append prefix key) symbols ++ [plain] in
  (forall s, In (String.append prefix s) resolved <-> In s symbols) /\
  last resolved = Some plain /\
  NoDup resolved.
Proof.
  intros Hnd Hplain resolved.
  assert (Hinj : forall a b, String.append prefix a = String.append prefix b -> a = b).
  { clear. induction prefix as [|c p IHp]; intros a b H; [exact H |].
    simpl in H. injection H as H. apply IHp, H. }
  split; [| split].
  - intros s. unfold resolved. rewrite in_app_iff, in_map_iff. simpl. split.
    + intros [(x & Hx & Hin) | [H | []]].
      * apply Hinj in Hx. subst. exact Hin.
      * exfalso. apply (Hplain s). symmetry. exact H.
    + intros Hin. left. exists s. split; [reflexivity | exact Hin].
  - unfold resolved. apply last_snoc.
  - unfold resolved. apply NoDup_app. split; [| split].
    + apply (NoDup_fmap_2_strong (fun key => String.append prefix key)); [| exact Hnd].
      intros a b _ _ H. apply Hinj. exact H.
    + intros x Hx Hx'. apply list_elem_of_singleton in Hx'. subst.
      apply list_elem_of_fmap in Hx. destruct Hx as (s & Hs & _).
      apply (Hplain s). symmetry. exact Hs.
    + apply NoDup_singleton.
Qed.

End BybitPrivateFacts.

(** X11: what the private bybit handlers resolve.  [handleMyTrades] parses
    every item of the message (with [parseWsTrade] exactly when the topic
    is ['ticketInfo']), upserts them in arrival order into the cache, and
    resolves ['myTrades:' + symbol] for exactly the symbols that occur
    among the parsed items, each once, and then, last and on every
    message, ['myTrades']; [handleOrder] does the same under ['orders:' +
    symbol] and ['orders'], parsing with [parseWsSpotOrder] exactly when
    the data is an array whose first item has the category ['spot']. *)
Theorem X11_private_handlers_resolve_symbols_then_plain_hash :
  forall (Raw Parsed : Type) (symbolOf : Parsed -> string)
         (key : Parsed -> string * string)
         (parseWsTrade parseTrade parseWsSpotOrder parseOrder : Raw -> Parsed)
         (category : Raw -> option string)
         (options : gmap string nat) (cache : option (Cache.ArrayCache Parsed))
         (message : BybitPrivate.Message Raw),
    let items := bybit_private_items message in
    (let parse :=
       if bool_decide (BybitPrivate.topic message = Some "ticketInfo"%string)
       then parseWsTrade else parseTrade in
     let handled :=
       BybitPrivate.handleMyTrades symbolOf key parseWsTrade parseTrade options cache
         message in
     fst handled
     = fold_left (Cache.appendById key) (map parse items)
         (default (Cache.newArrayCache (safeInteger options "tradesLimit" 1000)) cache) /\
     (forall symbol,
        In (String.append "myTrades:" symbol) (snd handled) <->
        exists raw, In raw items /\ symbolOf (parse raw) = symbol) /\
     last (snd handled) = Some "myTrades"%string /\
     NoDup (snd handled)) /\
    (let parse :=
       if bool_decide (bybit_first_category category message = Some "spot"%string)
       then parseWsSpotOrder else parseOrder in
     let handled :=
       BybitPrivate.handleOrder symbolOf key parseWsSpotOrder parseOrder category
         options cache message in
     fst handled
     = fold_left (Cache.appendById key) (map parse items)
         (default (Cache.newArrayCache (safeInteger options "ordersLimit" 1000)) cache) /\
     (forall symbol,
        In (String.append "orders:" symbol) (snd handled) <->
        exists raw, In raw items /\ symbolOf (parse raw) = symbol) /\
     last (snd handled) = Some "orders"%string /\
     NoDup (snd handled)).
Proof.
  intros Raw Parsed symbolOf key parseWsTrade parseTrade parseWsSpotOrder parseOrder
         category options cache message items.
  assert (Hsymbols : forall (parse : Raw -> Parsed) symbol,
            In symbol (fold_left BybitPrivate.mark
                         (map (fun raw => symbolOf (parse raw)) items) [])
            <-> exists raw, In raw items /\ symbolOf (parse raw) = symbol).
  { intros parse symbol. rewrite fold_mark_In, in_map_iff. simpl. split.
    - intros [[] | (raw & Hs & Hin)]. exists raw. split; assumption.
    - intros (raw & Hin & Hs). right. exists raw. split; assumption. }
  assert (Hresolved : forall (prefix plain : string) (parse : Raw -> Parsed),
            (forall s, String.append prefix s <> plain) ->
            let resolved :=
              map (fun key => String.append prefix key)
                  (fold_left BybitPrivate.mark
                     (map (fun raw => symbolOf (parse raw)) items) [])
              ++ [plain] in
            (forall symbol,
               In (String.append prefix symbol) resolved <->
               exists raw, In raw items /\ symbolOf (parse raw) = symbol) /\
            last resolved = Some plain /\ NoDup resolved).
  { intros prefix plain parse Hplain resolved.
    destruct (resolved_hashes prefix plain
                (fold_left BybitPrivate.mark
                   (map (fun raw => symbolOf (parse raw)) items) []))
      as (Hin & Hlast & Hnd); [apply fold_mark_NoDup, NoDup_nil_2 | exact Hplain |].
    split; [| split; [exact Hlast | exact Hnd]].
    intros symbol. fold resolved in Hin. rewrite Hin. apply Hsymbols. }
  split.
  - intros parse handled.
    unfold handled, BybitPrivate.handleMyTrades, BybitPrivate.appendAll.
    rewrite appendAll_spec. cbn [fst snd]. fold parse.
    assert (Hitems : match BybitPrivate.data message with
                     | Some (BybitPrivate.DArray elements) => elements
                     | Some (BybitPrivate.DObject (Some result)) => result
                     | Some (BybitPrivate.DObject None) => []
                     | None => []
                     end = items).
    { unfold items, bybit_private_items.
      destruct (BybitPrivate.data message) as [[elements | [result|]] |];
        reflexivity. }
    rewrite Hitems.
    split; [destruct cache; reflexivity |].
    apply Hresolved. intros s. discriminate.
  - intros parse handled.
    unfold handled, BybitPrivate.handleOrder, BybitPrivate.appendAll.
    rewrite appendAll_spec. cbn [fst snd].
    assert (Hitems :
              forall isSpot : bool,
                (isSpot = true ->
                 forall result, BybitPrivate.data message
                                <> Some (BybitPrivate.DObject (Some result))) ->
                match BybitPrivate.data message with
                | Some (BybitPrivate.DArray elements) => elements
                | Some (BybitPrivate.DObject (Some result)) =>
                    if isSpot then [] else result
                | Some (BybitPrivate.DObject None) => []
                | None => []
                end = items).
    { intros isSpot HisSpot.
      unfold items, bybit_private_items.
      destruct (BybitPrivate.data message) as [[elements | [result|]] |];
        try reflexivity.
      destruct isSpot; [| reflexivity].
      exfalso. apply (HisSpot eq_refl result). reflexivity. }
    assert (Hcat : match
                     match BybitPrivate.data message with
                     | Some (BybitPrivate.DArray (first :: _)) => Some first
                     | _ => None
                     end
                   with
                   | Some first => category first
                   | None => None
                   end = bybit_first_category category message).
    { unfold bybit_first_category.
      destruct (BybitPrivate.data message) as [[[|first rest] | [result|]] |];
        reflexivity. }
    rewrite Hcat. fold parse.
    rewrite Hitems.
    + split; [destruct cache; reflexivity |].
      apply Hresolved. intros s. discriminate.
    + intros Hspot result Hdata. apply bool_decide_eq_true_1 in Hspot.
      unfold bybit_first_category in Hspot. rewrite Hdata in Hspot. discriminate.
Qed.

Lemma X11_private_handlers_resolve_symbols_then_plain_hash_witness :
  let trade := fun symbol : string => symbol in
  let handled :=
    BybitPrivate.handleMyTrades (fun symbol : string => symbol)
      (fun symbol : string => (symbol, symbol)) trade trade ∅ None
      (BybitPrivate.mkMessage (Some "execution"%string)
         (Some (BybitPrivate.DArray ["BTC/USDT"; "ETH/USDT"; "BTC/USDT"]%string))) in
  In "myTrades:ETH/USDT"%string (snd handled) /\
  ~ In "myTrades:LTC/USDT"%string (snd handled) /\
  last (snd handled) = Some "myTrades"%string.
Proof.
  intros trade handled.
  destruct (X11_private_handlers_resolve_symbols_then_plain_hash string string
              (fun symbol : string => symbol)
              (fun symbol : string => (symbol, symbol)) trade trade trade trade
              (fun _ => None) ∅ None
              (BybitPrivate.mkMessage (Some "execution"%string)
                 (Some (BybitPrivate.DArray ["BTC/USDT"; "ETH/USDT"; "BTC/USDT"]%string))))
    as [(_ & Hin & Hlast & _) _].
  split; [| split; [| exact Hlast]].
  - apply (Hin "ETH/USDT"%string). exists "ETH/USDT"%string.
    split; [right; left; reflexivity | reflexivity].
  - intros H. apply (Hin "LTC/USDT"%string) in H. destruct H as (raw & Hraw & Hsym).
    cbv in Hsym. subst raw.
    destruct Hraw as [H | [H | [H | []]]]; discriminate H.
Defined.

(** ** hitbtc: from the channel back to the message hash *)

Lemma split_first sep s t :
  lacks sep s = true ->
  split sep (String.append s (String sep t)) !! 0%nat = Some s.
Proof.
  intros Hs. rewrite split_app_sep by exact Hs. reflexivity.
Qed.

Lemma hitbtc_orderbook_channel optionsMethod params :
  In (hitbtc_orderbook_method optionsMethod params) hitbtc_orderbook_methods ->
  exists rest,
    HitbtcWs.watchOrderBookName optionsMethod params
    = String.append "orderbook" (String "/" rest).
Proof.
  intros Hin. unfold HitbtcWs.watchOrderBookName.
  change (HitbtcWs.safeString2 params "method" "defaultMethod"
            match optionsMethod with
            | Some m => m
            | None => "orderbook/full"%string
            end)
    with (hitbtc_orderbook_method optionsMethod params).
  simpl in Hin.
  destruct Hin as [<- | [<- | [<- | [<- | [<- | []]]]]]; cbn;
    eexists; reflexivity.
Qed.

(** X12: the channels of hitbtc's public watchers come back to their
    handlers and to the message hashes [subscribePublic] registered.  For
    every documented method of [watchOrderBook], whatever depth and speed
    the params give, a message on the channel the watcher subscribed to is
    handed to [handleOrderBook], which resolves the watcher's message hash
    for the symbol [safeMarket] finds; likewise ['trades'] and
    [handleTrades], and ['candles/' + period] and [handleOHLCV], which
    reads the period back from the channel when it holds no slash. *)
Theorem X12_hitbtc_public_channels_round_trip :
  forall (safeMarket : string -> string) (symbol marketId : string),
    safeMarket marketId = symbol ->
    (forall optionsMethod params method,
       In (hitbtc_orderbook_method optionsMethod params) hitbtc_orderbook_methods ->
       let name := HitbtcWs.watchOrderBookName optionsMethod params in
       HitbtcRouter.channelMethod (Some name) method
       = Some HitbtcRouter.HandleOrderBook /\
       forall orderbooks item,
         map fst (snd (HitbtcBook.handleOrderBook safeMarket orderbooks
                         (HitbtcBook.mkMessage name [(marketId, item)])))
         = [HitbtcNames.publicHash name (Some [symbol])]) /\
    (forall method,
       HitbtcRouter.channelMethod (Some HitbtcNames.watchTradesName) method
       = Some HitbtcRouter.HandleTrades /\
       forall (RawTrade Trade : Type)
              (parseWsTrades : list RawTrade -> string -> list Trade)
              options trades raws,
         map fst (snd (HitbtcSeries.handleTrades safeMarket parseWsTrades options
                         trades
                         (HitbtcSeries.mkMessage HitbtcNames.watchTradesName
                            [(marketId, raws)])))
         = [HitbtcNames.publicHash HitbtcNames.watchTradesName (Some [symbol])]) /\
    (forall timeframes timeframe method,
       let period := default timeframe (timeframes !! timeframe) in
       let name := HitbtcNames.watchOHLCVName timeframes timeframe in
       HitbtcRouter.channelMethod (Some name) method
       = Some HitbtcRouter.HandleOHLCV /\
       (lacks "/" period = true ->
        forall (RawCandle : Type) findTimeframe
               (parseWsOHLCVs : list RawCandle -> string -> list Cache.OHLCV)
               options ohlcvs raws,
          let handled :=
            HitbtcSeries.handleOHLCV safeMarket findTimeframe parseWsOHLCVs options
              ohlcvs (HitbtcSeries.mkMessage name [(marketId, raws)]) in
          map fst (snd handled) = [HitbtcNames.publicHash name (Some [symbol])] /\
          (fst handled !! symbol)
            ≫= (fun byTimeframe => byTimeframe !! findTimeframe (Some period))
          = snd <$> head (snd handled))).
Proof.
  intros safeMarket symbol marketId Hmarket.
  split; [| split].
  - intros optionsMethod params method Hin name.
    destruct (hitbtc_orderbook_channel optionsMethod params Hin) as [rest Hname].
    fold name in Hname.
    split.
    + unfold HitbtcRouter.channelMethod. rewrite Hname.
      rewrite split_first by reflexivity. reflexivity.
    + intros orderbooks item.
      unfold HitbtcBook.handleOrderBook, HitbtcBook.handleItem.
      cbn [HitbtcBook.data HitbtcBook.ch fold_left].
      rewrite Hmarket. reflexivity.
  - intros method. split; [reflexivity |].
    intros RawTrade Trade parseWsTrades options trades raws.
    unfold HitbtcSeries.handleTrades, HitbtcSeries.handleTradesItem.
    cbn [HitbtcSeries.data fold_left]. rewrite Hmarket. reflexivity.
  - intros timeframes timeframe method period name.
    assert (Hname : name = String.append "candles" (String "/" period)).
    { unfold name, HitbtcNames.watchOHLCVName, period.
      destruct (timeframes !! timeframe); reflexivity. }
    split.
    + unfold HitbtcRouter.channelMethod. rewrite Hname.
      rewrite split_first by reflexivity. reflexivity.
    + intros Hperiod RawCandle findTimeframe parseWsOHLCVs options ohlcvs raws handled.
      unfold handled, HitbtcSeries.handleOHLCV, HitbtcSeries.handleOHLCVItem.
      cbn [HitbtcSeries.data HitbtcSeries.ch fold_left].
      rewrite Hmarket. cbn [snd fst map app head fmap option_fmap option_map].
      split; [reflexivity |].
      rewrite lookup_insert_eq. cbn [mbind option_bind].
      rewrite Hname.
      rewrite split_app_sep by reflexivity.
      rewrite split_lacks by exact Hperiod.
      cbn [lookup list_lookup]. rewrite lookup_insert_eq. reflexivity.
Qed.

Lemma X12_hitbtc_public_channels_round_trip_witness :
  let params : gmap string string :=
    {[ "method"%string := "orderbook/{depth}/{speed}"%string;
       "depth"%string := "5"%string ]} in
  HitbtcRouter.channelMethod (Some (HitbtcWs.watchOrderBookName None params)) None
  = Some HitbtcRouter.HandleOrderBook /\
  HitbtcRouter.channelMethod (Some "candles/M1"%string) None
  = Some HitbtcRouter.HandleOHLCV.
Proof.
  intros params.
  destruct (X12_hitbtc_public_channels_round_trip (fun _ => "BTC/USDT"%string)
              "BTC/USDT" "BTCUSDT" eq_refl)
    as (Hbook & _ & Hcandles).
  split.
  - apply (Hbook None params None). right. left. reflexivity.
  - exact (proj1 (Hcandles {[ "1m"%string := "M1"%string ]} "1m"%string None)).
Defined.




(** ** bingx: subscriptions and dispatch *)

(** X14: bingx's [watchOrderBook] accepts a call exactly when the market
    type is ['spot'] or ['swap'] and the limit, if one is given, is one the
    market type supports (5, 10, 20, 50 or 100 for swap, 20 or 100 for
    spot); a limit for any other market type is not looked at, and the
    call is refused for want of a URL.  On acceptance the data type
    subscribed to, which is also the message hash, is the market id,
    ['@depth'] and the limit (100 when none is given), the URL is the
    market type's, and the request carries [reqType: 'sub'] exactly for a
    swap market (unless the query sets that key); every refusal is a
    BadRequest. *)
Theorem X14_bingx_watchOrderBook_validation :
  forall (exchangeId : string) (toString : Z -> string) (uuid : string)
         (market : BingxWatch.Market) (marketType : string)
         (query : gmap string string) (limit : option Z),
    let result :=
      BingxWatch.watchOrderBook exchangeId toString uuid market marketType query
        limit in
    ((exists sub, result = inr sub) <->
     (marketType = "spot"%string \/ marketType = "swap"%string) /\
     (forall l, limit = Some l -> bingx_limit_ok marketType l)) /\
    (forall sub,
       result = inr sub ->
       BingxWatch.sub_messageHash sub
       = String.append (BingxWatch.id market)
           (String.append "@depth" (toString (default 100 limit))) /\
       BingxWatch.urls !! marketType = Some (BingxWatch.sub_url sub) /\
       BingxWatch.sub_request sub !! "dataType"%string
       = Some (JString (default (BingxWatch.sub_messageHash sub)
                          (query !! "dataType"%string))) /\
       (query !! "reqType"%string = None ->
        BingxWatch.sub_request sub !! "reqType"%string
        = if String.eqb marketType "swap" then Some (JString "sub") else None)) /\
    (forall e, result = inl e -> err_class e = OtherError "BadRequest").
Proof.
  intros exchangeId toString uuid market marketType query limit result.
  assert (Hrequest : forall messageHash,
            BingxWatch.request uuid messageHash marketType query !! "dataType"%string
            = Some (JString (default messageHash (query !! "dataType"%string))) /\
            (query !! "reqType"%string = None ->
             BingxWatch.request uuid messageHash marketType query !! "reqType"%string
             = if String.eqb marketType "swap" then Some (JString "sub") else None)).
  { intros messageHash. unfold BingxWatch.request. split.
    - rewrite lookup_union, lookup_fmap.
      destruct (query !! "dataType"%string); simpl;
        destruct (String.eqb marketType "swap"); reflexivity.
    - intros Hq. rewrite lookup_union, lookup_fmap, Hq. simpl.
      destruct (String.eqb marketType "swap"); reflexivity. }
  unfold result, BingxWatch.watchOrderBook.
  destruct (String.eqb_spec marketType "swap") as [-> | Hswap].
  - (* swap *)
    destruct limit as [l|].
    + destruct (l =? 5) eqn:E5; [apply Z.eqb_eq in E5 |];
        [| destruct (l =? 10) eqn:E10; [apply Z.eqb_eq in E10 |];
           [| destruct (l =? 20) eqn:E20; [apply Z.eqb_eq in E20 |];
              [| destruct (l =? 50) eqn:E50; [apply Z.eqb_eq in E50 |];
                 [| destruct (l =? 100) eqn:E100; [apply Z.eqb_eq in E100 |]]]]];
        cbn [negb andb].
      1-5: split; [| split];
        [ split; [intros _; split; [right; reflexivity |];
                  intros l' Hl'; injection Hl' as <-;
                  split; [intros _; lia | discriminate]
                 | intros _; eexists; reflexivity]
        | intros sub H; injection H as <-; cbn;
          split; [reflexivity |]; split; [reflexivity |];
          apply (Hrequest
                   (String.append (BingxWatch.id market)
                      (String.append "@depth" (toString l))))
        | intros e H; discriminate ].
      apply Z.eqb_neq in E5, E10, E20, E50, E100.
      split; [| split].
      * split; [intros [sub H]; discriminate |].
        intros [_ H]. destruct (H l eq_refl) as [Hl _].
        specialize (Hl eq_refl). lia.
      * intros sub H. discriminate.
      * intros e H. injection H as <-. reflexivity.
    + split; [| split].
      * split; [| intros _; eexists; reflexivity].
        intros _. split; [right; reflexivity | intros l H; discriminate].
      * intros sub H. injection H as <-. cbn.
        split; [reflexivity |]. split; [reflexivity |].
        apply (Hrequest
                 (String.append (BingxWatch.id market)
                    (String.append "@depth" (toString 100)))).
      * intros e H. discriminate.
  - destruct (String.eqb_spec marketType "spot") as [-> | Hspot].
    + (* spot *)
      destruct limit as [l|].
      * destruct (l =? 20) eqn:E20; [apply Z.eqb_eq in E20 |];
          [| destruct (l =? 100) eqn:E100; [apply Z.eqb_eq in E100 |]];
          cbn [negb andb].
        1-2: split; [| split];
          [ split; [intros _; split; [left; reflexivity |];
                    intros l' Hl'; injection Hl' as <-;
                    split; [discriminate | intros _; lia]
                   | intros _; eexists; reflexivity]
          | intros sub H; injection H as <-; cbn;
            split; [reflexivity |]; split; [reflexivity |];
            apply (Hrequest
                     (String.append (BingxWatch.id market)
                        (String.append "@depth" (toString l))))
          | intros e H; discriminate ].
        apply Z.eqb_neq in E20, E100.
        split; [| split].
        -- split; [intros [sub H]; discriminate |].
           intros [_ H]. destruct (H l eq_refl) as [_ Hl].
           specialize (Hl eq_refl). lia.
        -- intros sub H. discriminate.
        -- intros e H. injection H as <-. reflexivity.
      * split; [| split].
        -- split; [| intros _; eexists; reflexivity].
           intros _. split; [left; reflexivity | intros l H; discriminate].
        -- intros sub H. injection H as <-. cbn.
           split; [reflexivity |]. split; [reflexivity |].
           apply (Hrequest
                    (String.append (BingxWatch.id market)
                       (String.append "@depth" (toString 100)))).
        -- intros e H. discriminate.
    + (* another market type: no URL *)
      assert (Hurl : BingxWatch.urls !! marketType = None).
      { unfold BingxWatch.urls.
        rewrite lookup_insert_ne by congruence.
        apply lookup_singleton_ne. congruence. }
      assert (Hrefused :
                forall checked : Z,
                  match BingxWatch.urls !! marketType with
                  | Some url =>
                      inr (BingxWatch.mkSubscription url
                             (String.append (BingxWatch.id market)
                                (String.append "@depth" (toString checked)))
                             (BingxWatch.request uuid
                                (String.append (BingxWatch.id market)
                                   (String.append "@depth" (toString checked)))
                                marketType query))
                  | None =>
                      inl (BingxWatch.BadRequest
                             (String.append exchangeId
                                (String.append " watchOrderBook is not supported for "
                                   (String.append marketType " markets."))))
                  end
                  = inl (BingxWatch.BadRequest
                           (String.append exchangeId
                              (String.append " watchOrderBook is not supported for "
                                 (String.append marketType " markets."))))).
      { intros checked. rewrite Hurl. reflexivity. }
      destruct limit as [l|]; rewrite Hrefused.
      all: split; [| split];
        [ split; [intros [sub H]; discriminate | intros [[H | H] _]; congruence]
        | intros sub H; discriminate
        | intros e H; injection H as <-; reflexivity ].
Qed.

Lemma X14_bingx_watchOrderBook_validation_witness :
  let watch :=
    BingxWatch.watchOrderBook "bingx" (fun _ => "20"%string) "uuid" bingx_btc in
  (exists sub, watch "spot"%string ∅ (Some 20) = inr sub) /\
  (forall sub, watch "spot"%string ∅ (Some 50) <> inr sub) /\
  (forall sub, watch "margin"%string ∅ None <> inr sub).
Proof.
  intros watch.
  destruct (X14_bingx_watchOrderBook_validation "bingx" (fun _ => "20"%string) "uuid"
              bingx_btc "spot" ∅ (Some 20)) as [[_ Haccepted] _].
  destruct (X14_bingx_watchOrderBook_validation "bingx" (fun _ => "20"%string) "uuid"
              bingx_btc "spot" ∅ (Some 50)) as [[Hlimit _] _].
  destruct (X14_bingx_watchOrderBook_validation "bingx" (fun _ => "20"%string) "uuid"
              bingx_btc "margin" ∅ None) as [[Htype _] _].
  split; [| split].
  - apply Haccepted. split; [left; reflexivity |].
    intros l Hl. injection Hl as <-. split; [discriminate | intros _; lia].
  - intros sub Hsub. destruct (Hlimit (ex_intro _ sub Hsub)) as [_ Hok].
    destruct (Hok 50 eq_refl) as [_ Hspot]. specialize (Hspot eq_refl). lia.
  - intros sub Hsub. destruct (Htype (ex_intro _ sub Hsub)) as [[H | H] _];
      discriminate H.
Defined.

Lemma before_at_app s t :
  lacks "@" s = true ->
  BingxBook.before_at (String.append s (String "@" t)) = s.
Proof.
  induction s as [|c s IH]; intros Hs; [reflexivity |].
  simpl in Hs. apply andb_true_iff in Hs. destruct Hs as [Hc Hrest].
  simpl. apply negb_true_iff in Hc. rewrite Hc, (IH Hrest). reflexivity.
Qed.

Lemma contains_app_lacks a k s t :
  lacks a s = true ->
  contains (String a k) (String.append s t) = contains (String a k) t.
Proof.
  induction s as [|c s IH]; intros Hs; [reflexivity |].
  simpl in Hs. apply andb_true_iff in Hs. destruct Hs as [Hc Hrest].
  change (String.append (String c s) t) with (String c (String.append s t)).
  rewrite contains_cons, prefix_cons, (IH Hrest).
  destruct (Ascii.eqb a c) eqn:E; [| reflexivity].
  apply Ascii.eqb_eq in E. subst c. rewrite Ascii.eqb_refl in Hc. discriminate.
Qed.

Lemma append_append s t u :
  String.append (String.append s t) u = String.append s (String.append t u).
Proof.
  induction s as [|c s IH]; [reflexivity |].
  change (String c (String.append (String.append s t) u)
          = String c (String.append s (String.append t u))).
  rewrite IH. reflexivity.
Qed.

Lemma prefix_nil s : String.prefix EmptyString s = true.
Proof. destruct s; reflexivity. Qed.

Lemma prefix_app k rest : String.prefix k (String.append k rest) = true.
Proof.
  induction k as [|a k IH]; [apply prefix_nil |].
  change (String.append (String a k) rest) with (String a (String.append k rest)).
  rewrite prefix_cons, Ascii.eqb_refl. exact IH.
Qed.

Lemma contains_prefix k s : String.prefix k s = true -> contains k s = true.
Proof.
  intros H. destruct s as [|c s]; [exact H |].
  rewrite contains_cons, H. reflexivity.
Qed.

(** The calls of bingx's dispatcher on an object without a ["ping"]. *)
Lemma bingx_calls id exact client fields :
  BingxRouter.has_ping fields = false ->
  snd (BingxRouter.handleMessage id exact client (BingxRouter.Object fields))
  = let dataType := default EmptyString (BingxRouter.dataType fields) in
    if contains "@depth" dataType then [BingxRouter.CallOrderBook]
    else if contains "@trade" dataType then [BingxRouter.CallTrades]
    else if contains "@kline" dataType then [BingxRouter.CallOHLCV]
    else if contains "executionReport" dataType then
      (if bool_decide (BingxRouter.data_x fields = Some "TRADE"%string)
       then [BingxRouter.CallMyTrades] else [])
      ++ [BingxRouter.CallOrder]
    else
      (if bool_decide (BingxRouter.e fields = Some "ACCOUNT_UPDATE"%string)
       then [BingxRouter.CallBalance] else [])
      ++ (if bool_decide (BingxRouter.e fields = Some "ORDER_TRADE_UPDATE"%string)
          then BingxRouter.CallOrder
               :: (if bool_decide (BingxRouter.o_x fields = Some "TRADE"%string)
                      && bool_decide (BingxRouter.o_X fields = Some "FILLED"%string)
                   then [BingxRouter.CallMyTrades] else [])
          else []).
Proof.
  intros Hping. unfold BingxRouter.handleMessage, BingxWs.handleErrorMessage.
  cbn [negb]. rewrite Hping.
  change (match BingxRouter.dataType fields with
          | Some d => d
          | None => EmptyString
          end) with (default EmptyString (BingxRouter.dataType fields)).
  cbv zeta.
  repeat match goal with
         | |- context [if ?b then _ else _] =>
             lazymatch b with
             | contains _ _ => destruct b
             end
         end; reflexivity.
Qed.

(** X15: the data type a public bingx watcher subscribes to comes back to
    its handler and message hash.  For a market id without ['@'], a
    message carrying the data type of [watchOrderBook] is handed to
    [handleOrderBook], one carrying that of [watchTrades] to
    [handleTrades], and one carrying that of [watchOHLCV] (for an interval
    without ['@']) to [handleOHLCV]; each handler reads the market id back
    from the data type and resolves the data type itself, the message hash
    the watcher registered; [handleOHLCV] files the candles under the
    interval when neither the market id nor the interval holds an
    underscore. *)
Theorem X15_bingx_data_type_round_trip :
  forall (safeMarket : option string -> string -> string)
         (exchangeId : string) (toString : Z -> string) (uuid : string)
         (id : string) (exact : gmap string ErrorClass)
         (market : BingxWatch.Market) (marketType : string)
         (query : gmap string string),
    lacks "@" (BingxWatch.id market) = true ->
    (forall marketType,
       safeMarket (Some (BingxWatch.id market)) marketType = BingxWatch.symbol market) ->
    (forall limit sub client fields,
       BingxWatch.watchOrderBook exchangeId toString uuid market marketType query limit
       = inr sub ->
       BingxRouter.has_ping fields = false ->
       BingxRouter.dataType fields = Some (BingxWatch.sub_messageHash sub) ->
       snd (BingxRouter.handleMessage id exact client (BingxRouter.Object fields))
       = [BingxRouter.CallOrderBook] /\
       forall url orderbooks bids asks,
         let handled :=
           BingxBook.handleOrderBook safeMarket url orderbooks
             (BingxBook.mkMessage (BingxWatch.sub_messageHash sub) bids asks) in
         fst (snd handled) = BingxWatch.sub_messageHash sub /\
         fst handled !! BingxWatch.symbol market = Some (snd (snd handled))) /\
    (forall sub client fields,
       BingxWatch.watchTrades exchangeId uuid market marketType query = inr sub ->
       BingxRouter.has_ping fields = false ->
       BingxRouter.dataType fields = Some (BingxWatch.sub_messageHash sub) ->
       snd (BingxRouter.handleMessage id exact client (BingxRouter.Object fields))
       = [BingxRouter.CallTrades] /\
       forall (RawTrade Trade : Type)
              (parseTrades : list RawTrade -> string -> list Trade)
              (parseTrade : RawTrade -> string -> Trade) url options trades data,
         let handled :=
           BingxSeries.handleTrades safeMarket parseTrades parseTrade url options
             trades (BingxSeries.mkMessage (BingxWatch.sub_messageHash sub) data) in
         fst (snd handled) = BingxWatch.sub_messageHash sub /\
         fst handled !! BingxWatch.symbol market = Some (snd (snd handled))) /\
    (forall timeframes timeframe sub client fields,
       let interval := default timeframe (timeframes !! timeframe) in
       BingxWatch.watchOHLCV exchangeId uuid market marketType query timeframes
         timeframe = inr sub ->
       lacks "@" interval = true ->
       BingxRouter.has_ping fields = false ->
       BingxRouter.dataType fields = Some (BingxWatch.sub_messageHash sub) ->
       snd (BingxRouter.handleMessage id exact client (BingxRouter.Object fields))
       = [BingxRouter.CallOHLCV] /\
       forall (RawCandle : Type)
              (parseWsOHLCV : RawCandle -> string -> Cache.OHLCV)
              (fieldK : RawCandle -> RawCandle) url options ohlcvs data,
         let handled :=
           BingxSeries.handleOHLCV safeMarket parseWsOHLCV fieldK url options ohlcvs
             (BingxSeries.mkMessage (BingxWatch.sub_messageHash sub) data) in
         fst (snd handled) = BingxWatch.sub_messageHash sub /\
         (lacks "_" (BingxWatch.id market) = true -> lacks "_" interval = true ->
          (fst handled !! BingxWatch.symbol market)
            ≫= (fun byTimeframe => byTimeframe !! interval)
          = Some (snd (snd handled)))).
Proof.
  intros safeMarket exchangeId toString uuid id exact market marketType query
         Hat Hmarket.
  split; [| split].
  - intros limit sub client fields Hsub Hping Hdata.
    assert (Hhash : exists rest,
               BingxWatch.sub_messageHash sub
               = String.append (BingxWatch.id market)
                   (String.append "@depth" rest)).
    { unfold BingxWatch.watchOrderBook in Hsub.
      destruct (match limit with
                | Some l => _
                | None => inr 100
                end) as [e | l]; [discriminate |].
      destruct (BingxWatch.urls !! marketType); [| discriminate].
      injection Hsub as <-. eexists. reflexivity. }
    destruct Hhash as [rest Hhash].
    split.
    + rewrite bingx_calls by exact Hping. rewrite Hdata.
      cbn [default from_option Datatypes.id]. cbv zeta.
      rewrite Hhash. rewrite contains_app_lacks by exact Hat.
      rewrite contains_prefix by apply prefix_app. reflexivity.
    + intros url orderbooks bids asks handled.
      unfold handled, BingxBook.handleOrderBook.
      cbn [BingxBook.dataType fst snd]. split; [reflexivity |].
      rewrite Hhash.
      change (String.append "@depth" rest) with (String "@" (String.append "depth" rest)).
      rewrite before_at_app by exact Hat.
      rewrite Hmarket. apply lookup_insert_eq.
  - intros sub client fields Hsub Hping Hdata.
    assert (Hhash : BingxWatch.sub_messageHash sub
                    = String.append (BingxWatch.id market) (String "@" "trade")).
    { unfold BingxWatch.watchTrades in Hsub.
      destruct (BingxWatch.urls !! marketType); [| discriminate].
      injection Hsub as <-. reflexivity. }
    split.
    + rewrite bingx_calls by exact Hping. rewrite Hdata.
      cbn [default from_option Datatypes.id]. cbv zeta.
      rewrite Hhash. rewrite !contains_app_lacks by exact Hat. reflexivity.
    + intros RawTrade Trade parseTrades parseTrade url options trades data handled.
      unfold handled, BingxSeries.handleTrades.
      cbn [BingxSeries.dataType fst snd]. split; [reflexivity |].
      rewrite Hhash, before_at_app by exact Hat.
      rewrite Hmarket. apply lookup_insert_eq.
  - intros timeframes timeframe sub client fields interval Hsub Hinterval Hping Hdata.
    assert (Hhash : BingxWatch.sub_messageHash sub
                    = String.append (BingxWatch.id market)
                        (String "@" (String.append "kline_" interval))).
    { unfold BingxWatch.watchOHLCV in Hsub.
      destruct (BingxWatch.urls !! marketType); [| discriminate].
      injection Hsub as <-. unfold interval.
      destruct (timeframes !! timeframe); reflexivity. }
    split.
    + rewrite bingx_calls by exact Hping. rewrite Hdata.
      cbn [default from_option Datatypes.id]. cbv zeta.
      rewrite Hhash. rewrite !contains_app_lacks by exact Hat.
      cbn. rewrite !contains_lacks by exact Hinterval. reflexivity.
    + intros RawCandle parseWsOHLCV fieldK url options ohlcvs data handled.
      unfold handled, BingxSeries.handleOHLCV.
      cbn [BingxSeries.dataType fst snd]. split; [reflexivity |].
      intros Hid_ Hinterval_.
      assert (Hbefore : BingxBook.before_at (BingxWatch.sub_messageHash sub)
                        = BingxWatch.id market).
      { rewrite Hhash. apply before_at_app, Hat. }
      assert (Hsplit : split "_" (BingxWatch.sub_messageHash sub) !! 1%nat
                       = Some interval).
      { rewrite Hhash.
        assert (Hleft : lacks "_" (String.append (BingxWatch.id market) "@kline")
                        = true).
        { rewrite lacks_app, Hid_. reflexivity. }
        replace (String.append (BingxWatch.id market)
                   (String "@" (String.append "kline_" interval)))
          with (String.append (String.append (BingxWatch.id market) "@kline")
                  (String "_" interval)).
        - rewrite split_app_sep by exact Hleft.
          rewrite split_lacks by exact Hinterval_. reflexivity.
        - rewrite append_append. reflexivity. }
      rewrite Hbefore, Hsplit, Hmarket, lookup_insert_eq.
      cbn [mbind option_bind BybitWs.orUndefined].
      apply lookup_insert_eq.
Qed.

Lemma X15_bingx_data_type_round_trip_witness :
  snd (BingxRouter.handleMessage "bingx" ∅ (fresh_client "wss://open-api-ws.bingx.com/market")
         (BingxRouter.Object (bingx_object (Some "BTC-USDT@trade"%string) None)))
  = [BingxRouter.CallTrades].
Proof.
  destruct (X15_bingx_data_type_round_trip btc_safeMarket "bingx" (fun _ => "20"%string)
              "uuid" "bingx" ∅ bingx_btc "spot" ∅ eq_refl (fun _ => eq_refl))
    as (_ & Htrades & _).
  destruct (Htrades _ (fresh_client "wss://open-api-ws.bingx.com/market")
              (bingx_object (Some "BTC-USDT@trade"%string) None) eq_refl eq_refl eq_refl)
    as [Hcalls _].
  exact Hcalls.
Defined.

(** X16: how bingx dispatches the private streams.  An error code never
    stops the dispatch: the handlers called are the same whatever ["code"]
    the message carries.  A message with the data type the spot request of
    [watchOrders] / [watchMyTrades] subscribes to is handed to
    [handleOrder], after [handleMyTrades] when its execution type is
    ['TRADE'], and both resolve the ['spot:...'] hashes the spot watchers
    register; a swap ['ORDER_TRADE_UPDATE'] (which has no data type) is
    handed to [handleOrder], and then to [handleMyTrades] only when it is a
    ['TRADE'] that is ['FILLED'], and both resolve the ['swap:...'] hashes
    registered for any market type other than spot; an ['ACCOUNT_UPDATE']
    is handed to [handleBalance] only. *)
Theorem X16_bingx_private_dispatch :
  forall (id : string) (exact : gmap string ErrorClass) (client : Client.t)
         (fields : BingxRouter.Fields),
    BingxRouter.has_ping fields = false ->
    let calls :=
      snd (BingxRouter.handleMessage id exact client (BingxRouter.Object fields)) in
    (forall code json client',
       snd (BingxRouter.handleMessage id exact client'
              (BingxRouter.Object (bingx_with_code code json fields)))
       = calls) /\
    (forall uuid request dataType,
       BingxWatch.privateRequest uuid (Some "spot"%string) = Some request ->
       request !! "dataType"%string = Some (JString dataType) ->
       BingxRouter.dataType fields = Some dataType ->
       calls
       = (if bool_decide (BingxRouter.data_x fields = Some "TRADE"%string)
          then [BingxRouter.CallMyTrades] else [])
         ++ [BingxRouter.CallOrder] /\
       forall kind symbol,
         BingxRouter.privateHashes kind fields symbol
         = [BingxWatch.privateHash kind (Some "spot"%string) None;
            BingxWatch.privateHash kind (Some "spot"%string) (Some symbol)]) /\
    (BingxRouter.dataType fields = None ->
     BingxRouter.e fields = Some "ORDER_TRADE_UPDATE"%string ->
     calls
     = BingxRouter.CallOrder
       :: (if bool_decide (BingxRouter.o_x fields = Some "TRADE"%string)
              && bool_decide (BingxRouter.o_X fields = Some "FILLED"%string)
           then [BingxRouter.CallMyTrades] else []) /\
     forall kind type symbol,
       type <> Some "spot"%string ->
       BingxRouter.privateHashes kind fields symbol
       = [BingxWatch.privateHash kind type None;
          BingxWatch.privateHash kind type (Some symbol)]) /\
    (BingxRouter.dataType fields = None ->
     BingxRouter.e fields = Some "ACCOUNT_UPDATE"%string ->
     calls = [BingxRouter.CallBalance]).
Proof.
  intros id exact client fields Hping calls. unfold calls.
  rewrite bingx_calls by exact Hping.
  split; [| split; [| split]].
  - intros code json client'. rewrite bingx_calls by exact Hping. reflexivity.
  - intros uuid request dataType Hrequest Hlookup Hdata.
    unfold BingxWatch.privateRequest in Hrequest.
    rewrite bool_decide_eq_true_2 in Hrequest by reflexivity.
    injection Hrequest as <-.
    assert (dataType = "spot.executionReport"%string) as ->.
    { vm_compute in Hlookup. injection Hlookup as <-. reflexivity. }
    rewrite Hdata. split; [reflexivity |].
    intros kind symbol. unfold BingxRouter.privateHashes, BingxWatch.privateHash.
    rewrite Hdata. rewrite bool_decide_eq_true_2 by reflexivity. reflexivity.
  - intros Hdata He. rewrite Hdata, He. split; [reflexivity |].
    intros kind type symbol Htype.
    unfold BingxRouter.privateHashes, BingxWatch.privateHash.
    rewrite Hdata. rewrite bool_decide_eq_false_2 by exact Htype. reflexivity.
  - intros Hdata He. rewrite Hdata, He. reflexivity.
Qed.

Lemma X16_bingx_private_dispatch_witness :
  snd (BingxRouter.handleMessage "bingx" ∅ (fresh_client "wss://open-api-ws.bingx.com/market")
         (BingxRouter.Object
            (bingx_object (Some "spot.executionReport"%string) (Some "TRADE"%string))))
  = [BingxRouter.CallMyTrades; BingxRouter.CallOrder].
Proof.
  destruct (X16_bingx_private_dispatch "bingx" ∅
              (fresh_client "wss://open-api-ws.bingx.com/market")
              (bingx_object (Some "spot.executionReport"%string) (Some "TRADE"%string))
              eq_refl)
    as (_ & Hspot & _).
  destruct (Hspot "uuid"%string _ "spot.executionReport"%string eq_refl eq_refl eq_refl)
    as [Hcalls _].
  exact Hcalls.
Defined.

(** X17: bingx's [authenticate] asks the exchange only when it has to.  It
    makes no REST call exactly when a listen key is stored and no more
    than the refresh rate has passed since the stored time (0 when none is
    stored); it never makes more than one call, creating a key when none
    is stored and extending the stored one otherwise.  Once a call has
    left a key stored, a further [authenticate] within the refresh rate
    of that call changes nothing and calls nothing; and
    when the response to an extension carries no listen key, the stored key
    is lost and the next [authenticate] creates a new one. *)
Theorem X17_bingx_authenticate_refresh :
  forall (postResponse : option string) (putResponse : string -> option string)
         (options : BingxAuth.Options) (time : Z),
    let authenticate := BingxAuth.authenticate postResponse putResponse in
    let after := fst (authenticate options time) in
    let calls := snd (authenticate options time) in
    (calls = [] <->
     exists key,
       BingxAuth.listenKey options = Some key /\
       time - default 0 (BingxAuth.lastAuthenticatedTime options)
       <= bingx_refresh_rate options) /\
    (calls = [] -> after = options) /\
    (calls = [] \/ calls = [BingxAuth.PostUserDataStream] \/
     exists key, BingxAuth.listenKey options = Some key /\
                 calls = [BingxAuth.PutUserDataStream key]) /\
    (calls <> [] ->
     BingxAuth.lastAuthenticatedTime after = Some time /\
     bingx_refresh_rate after = bingx_refresh_rate options /\
     (forall later,
        BingxAuth.listenKey after <> None ->
        later - time <= bingx_refresh_rate options ->
        authenticate after later = (after, [])) /\
     (forall later,
        BingxAuth.listenKey after = None ->
        snd (authenticate after later) = [BingxAuth.PostUserDataStream])).
Proof.
  intros postResponse putResponse options time authenticate after calls.
  unfold calls, after, authenticate, BingxAuth.authenticate, bingx_refresh_rate.
  destruct options as [[key|] last rate]; cbn [BingxAuth.listenKey
    BingxAuth.lastAuthenticatedTime BingxAuth.listenKeyRefreshRate].
  - change (match last with Some t => t | None => 0 end) with (default 0 last).
    change (match rate with Some r => r | None => 3600000 end)
      with (default 3600000 rate).
    destruct (Z.gtb_spec (time - default 0 last) (default 3600000 rate)) as [Hgt | Hle];
      cbn [fst snd BingxAuth.listenKey BingxAuth.lastAuthenticatedTime
           BingxAuth.listenKeyRefreshRate].
    + split; [| split; [| split]].
      * split; [discriminate |]. intros (k & Hk & Hle). lia.
      * discriminate.
      * right. right. exists key. split; reflexivity.
      * intros _. split; [reflexivity |]. split; [reflexivity |]. split.
        -- intros later Hkey H2.
           destruct (putResponse key) as [key'|]; [| congruence].
           cbn [default from_option Datatypes.id].
           change (match rate with Some r => r | None => 3600000 end)
             with (default 3600000 rate).
           destruct (Z.gtb_spec (later - time) (default 3600000 rate)); [lia |].
           reflexivity.
        -- intros later Hkey. rewrite Hkey. reflexivity.
    + split; [| split; [| split]].
      * split; [| reflexivity]. intros _. exists key. split; [reflexivity | lia].
      * reflexivity.
      * left. reflexivity.
      * intros H. congruence.
  - cbn [fst snd BingxAuth.listenKey BingxAuth.lastAuthenticatedTime
         BingxAuth.listenKeyRefreshRate].
    split; [| split; [| split]].
    + split; [discriminate |]. intros (k & Hk & _). discriminate.
    + discriminate.
    + right. left. reflexivity.
    + intros _. split; [reflexivity |]. split; [reflexivity |]. split.
      * intros later Hkey H2.
        destruct postResponse as [key'|]; [| congruence].
        cbn [default from_option Datatypes.id].
        change (match rate with Some r => r | None => 3600000 end)
          with (default 3600000 rate).
        destruct (Z.gtb_spec (later - time) (default 3600000 rate)); [lia |].
        reflexivity.
      * intros later Hkey. rewrite Hkey. reflexivity.
Qed.

Lemma X17_bingx_authenticate_refresh_witness :
  let authenticate := BingxAuth.authenticate (Some "key"%string) (fun key => Some key) in
  let created := fst (authenticate (BingxAuth.mkOptions None None (Some 3540000)) 1000) in
  authenticate created 3541000 = (created, []).
Proof.
  intros authenticate created.
  destruct (X17_bingx_authenticate_refresh (Some "key"%string) (fun key => Some key)
              (BingxAuth.mkOptions None None (Some 3540000)) 1000)
    as (_ & _ & _ & Hcalled).
  destruct Hcalled as (_ & _ & Hquiet & _); [discriminate |].
  apply Hquiet; [discriminate |]. vm_compute. discriminate.
Defined.

(** ** bybit tickers *)

(** X18: how bybit's [handleTicker] builds the ticker it stores.  A message
    whose data has no ['fundingRate'] is taken for a spot ticker and parsed
    on its own, whatever its type: a delta without that field is not
    merged with the stored ticker.  A message with the field is parsed on
    its own when it is a snapshot; when it is a delta the stored raw
    ticker of the market named last in the topic is extended by the delta
    (a field of the delta replaces the stored one, every other stored
    field is kept) and the result is parsed and filed under that market's
    symbol; any other type raises a TypeError and stores nothing.  What is
    stored carries the message's timestamp, is resolved under ['ticker:' +
    symbol], and no other symbol's ticker changes. *)
Theorem X18_bybit_ticker_delta_merge :
  forall (Ticker : Type) (parseTicker : gmap string string -> Ticker)
         (symbolOf : Ticker -> string) (infoOf : Ticker -> gmap string string)
         (safeMarket : option string -> string -> string)
         (tickers : gmap string (Ticker * option Z)) (message : BybitTicker.Message),
    let data := BybitTicker.data message in
    let handled :=
      BybitTicker.handleTicker parseTicker symbolOf infoOf safeMarket tickers message in
    let stored_as (symbol : string) (parsed : Ticker) :=
      handled
      = Some (<[symbol := (parsed, BybitTicker.ts message)]> tickers,
              (String.append "ticker:" symbol, (parsed, BybitTicker.ts message))) in
    (data !! "fundingRate"%string = None \/
     BybitTicker.type message = Some "snapshot"%string ->
     stored_as (symbolOf (parseTicker data)) (parseTicker data)) /\
    (data !! "fundingRate"%string <> None ->
     BybitTicker.type message = Some "delta"%string ->
     let symbol := bybit_topic_symbol safeMarket message in
     let merged := data ∪ bybit_stored_info infoOf tickers symbol in
     stored_as symbol (parseTicker merged) /\
     (forall k v, data !! k = Some v -> merged !! k = Some v) /\
     (forall k, data !! k = None ->
                merged !! k = bybit_stored_info infoOf tickers symbol !! k)) /\
    (data !! "fundingRate"%string <> None ->
     BybitTicker.type message <> Some "snapshot"%string ->
     BybitTicker.type message <> Some "delta"%string ->
     handled = None) /\
    (forall tickers' resolved symbol,
       handled = Some (tickers', resolved) ->
       fst resolved = String.append "ticker:" symbol ->
       tickers' !! symbol = Some (snd resolved) /\
       forall other, other <> symbol -> tickers' !! other = tickers !! other).
Proof.
  intros Ticker parseTicker symbolOf infoOf safeMarket tickers message data handled
         stored_as.
  assert (Htype : forall t,
            String.eqb (match BybitTicker.type message with
                        | Some x => x
                        | None => EmptyString
                        end) t = true ->
            t <> EmptyString -> BybitTicker.type message = Some t).
  { intros t Ht Hne. apply String.eqb_eq in Ht.
    destruct (BybitTicker.type message); congruence. }
  split; [| split; [| split]].
  - intros Hcase. unfold stored_as, handled, BybitTicker.handleTicker. fold data.
    destruct Hcase as [Hspot | Hsnap].
    + rewrite (bool_decide_eq_true_2 _ Hspot), orb_true_r. reflexivity.
    + rewrite Hsnap. reflexivity.
  - intros Hfunding Hdelta symbol merged.
    split; [| split].
    + unfold stored_as, handled, BybitTicker.handleTicker. fold data.
      rewrite (bool_decide_eq_false_2 _ Hfunding), Hdelta. reflexivity.
    + intros k v Hk. unfold merged. apply lookup_union_Some_l. exact Hk.
    + intros k Hk. unfold merged. apply lookup_union_r. exact Hk.
  - intros Hfunding Hsnap Hdelta. unfold handled, BybitTicker.handleTicker. fold data.
    rewrite (bool_decide_eq_false_2 _ Hfunding), orb_false_r.
    destruct (String.eqb _ "snapshot") eqn:E1.
    { exfalso. apply Hsnap, Htype; [exact E1 | discriminate]. }
    destruct (String.eqb _ "delta") eqn:E2.
    { exfalso. apply Hdelta, Htype; [exact E2 | discriminate]. }
    reflexivity.
  - intros tickers' resolved symbol Hhandled Hhash.
    assert (Hinj : forall a b, String.append "ticker:" a = String.append "ticker:" b
                               -> a = b).
    { intros a b H. simpl in H. injection H as H. exact H. }
    unfold handled, BybitTicker.handleTicker in Hhandled.
    destruct (if String.eqb _ "snapshot" || _ then _ else _) as [[symbol' parsed]|];
      [| discriminate].
    injection Hhandled as <- <-. cbn [fst snd] in *.
    apply Hinj in Hhash. subst symbol'.
    split; [apply lookup_insert_eq |].
    intros other Hother. apply lookup_insert_ne. congruence.
Qed.

Lemma X18_bybit_ticker_delta_merge_witness :
  let parseTicker := fun raw : gmap string string => raw in
  let symbolOf := fun _ : gmap string string => "BTC/USDT"%string in
  let infoOf := fun ticker : gmap string string => ticker in
  let stored : gmap string (gmap string string * option Z) :=
    {[ "BTC/USDT"%string :=
         ({[ "lastPrice"%string := "100"%string; "fundingRate"%string := "0.0001"%string ]},
          Some 1000) ]} in
  let delta :=
    BybitTicker.mkMessage (Some "tickers.BTCUSDT"%string) (Some "delta"%string)
      {[ "fundingRate"%string := "0.0002"%string ]} (Some 2000) in
  exists tickers,
    BybitTicker.handleTicker parseTicker symbolOf infoOf btc_safeMarket stored delta
    = Some (tickers,
            ("ticker:BTC/USDT"%string,
             ({[ "lastPrice"%string := "100"%string;
                 "fundingRate"%string := "0.0002"%string ]}, Some 2000))).
Proof.
  intros parseTicker symbolOf infoOf stored delta.
  destruct (X18_bybit_ticker_delta_merge (gmap string string) parseTicker symbolOf
              infoOf btc_safeMarket stored delta)
    as (_ & Hdelta & _).
  destruct Hdelta as (Hstored & _); [discriminate | reflexivity |].
  eexists. rewrite Hstored. reflexivity.
Defined.

(** ** bybit balances *)

Lemma wallet_rounds {Raw : Type} (toLower : string -> string)
    (first : BybitBalance.Element Raw) (rounds : list (BybitBalance.Element Raw))
    (acc : option string * list Raw) :
  rounds <> [] ->
  fold_left (fun acc _ =>
               (toLower <$> BybitBalance.accountType first,
                snd acc ++ BybitBalance.coin first))
            rounds acc
  = (toLower <$> BybitBalance.accountType first,
     snd acc ++ concat (replicate (length rounds) (BybitBalance.coin first))).
Proof.
  revert acc. induction rounds as [|r rounds IH]; intros acc Hne; [congruence |].
  cbn [fold_left]. destruct rounds as [|r' rounds'].
  - cbn. rewrite app_nil_r. reflexivity.
  - rewrite IH by discriminate. cbn [snd length replicate concat].
    rewrite <- app_assoc. reflexivity.
Qed.

(** X19: of a wallet message bybit's [handleBalance] reads the first
    element only.  With [n] elements in the data, the account is the
    lowercased account type of the first element and the raw balances are
    that element's coins, [n] times over; the other elements are never
    read, so two messages that differ only in them give the same account,
    balances and message hash.  Of a spot message it reads the ["B"] list
    of every element, in order, under the account ['spot']; any other topic
    gives no account and nothing to parse, and is resolved under
    ['balances']. *)
Theorem X19_bybit_wallet_reads_first_element :
  forall (Raw : Type) (toLower : string -> string),
    (forall first rest,
       let message :=
         BybitBalance.mkMessage (Some "wallet"%string) (first :: rest) in
       BybitBalance.rawBalances toLower message
       = (toLower <$> BybitBalance.accountType first,
          concat (replicate (S (length rest)) (BybitBalance.coin first))) /\
       forall rest' : list (BybitBalance.Element Raw),
         length rest' = length rest ->
         BybitBalance.rawBalances toLower
           (BybitBalance.mkMessage (Some "wallet"%string) (first :: rest'))
         = BybitBalance.rawBalances toLower message /\
         BybitBalance.messageHash toLower
           (BybitBalance.mkMessage (Some "wallet"%string) (first :: rest'))
         = BybitBalance.messageHash toLower message) /\
    (forall data : list (BybitBalance.Element Raw),
       BybitBalance.rawBalances toLower
         (BybitBalance.mkMessage (Some "outboundAccountInfo"%string) data)
       = (Some "spot"%string, concat (map BybitBalance.B data))) /\
    (forall (topic : option string) (data : list (BybitBalance.Element Raw)),
       topic <> Some "wallet"%string ->
       topic <> Some "outboundAccountInfo"%string ->
       BybitBalance.rawBalances toLower (BybitBalance.mkMessage topic data)
       = (None, []) /\
       BybitBalance.messageHash toLower (BybitBalance.mkMessage topic data)
       = "balances"%string).
Proof.
  intros Raw toLower.
  assert (Hwallet : forall (first : BybitBalance.Element Raw) rest,
            BybitBalance.rawBalances toLower
              (BybitBalance.mkMessage (Some "wallet"%string) (first :: rest))
            = (toLower <$> BybitBalance.accountType first,
               concat (replicate (S (length rest)) (BybitBalance.coin first)))).
  { intros first rest. unfold BybitBalance.rawBalances.
    cbn [BybitBalance.topic BybitBalance.data].
    rewrite bool_decide_eq_false_2 by discriminate.
    rewrite bool_decide_eq_true_2 by reflexivity.
    cbn [lookup list_lookup].
    rewrite (wallet_rounds toLower first (first :: rest)) by discriminate.
    reflexivity. }
  split; [| split].
  - intros first rest message. split; [apply Hwallet |].
    intros rest' Hlen. unfold message, BybitBalance.messageHash.
    rewrite !Hwallet, Hlen. split; reflexivity.
  - intros data. unfold BybitBalance.rawBalances.
    cbn [BybitBalance.topic BybitBalance.data].
    rewrite bool_decide_eq_true_2 by reflexivity.
    rewrite bool_decide_eq_false_2 by discriminate.
    f_equal.
    assert (Hfold : forall acc,
              fold_left (fun rawBalances element =>
                           rawBalances ++ BybitBalance.B element) data acc
              = acc ++ concat (map BybitBalance.B data)).
    { induction data as [|el data IH]; intros acc.
      - cbn. rewrite app_nil_r. reflexivity.
      - cbn [fold_left map concat]. rewrite IH, <- app_assoc. reflexivity. }
    apply Hfold.
  - intros topic data Hw Ho.
    assert (Hraw : BybitBalance.rawBalances toLower (BybitBalance.mkMessage topic data)
                   = (None, [])).
    { unfold BybitBalance.rawBalances. cbn [BybitBalance.topic BybitBalance.data].
      rewrite (bool_decide_eq_false_2 _ Ho), (bool_decide_eq_false_2 _ Hw).
      reflexivity. }
    split; [exact Hraw |].
    unfold BybitBalance.messageHash. rewrite Hraw. reflexivity.
Qed.

Lemma X19_bybit_wallet_reads_first_element_witness :
  let unified := BybitBalance.mkElement [] (Some "UNIFIED"%string) ["BTC"; "USDT"]%string in
  let contract := BybitBalance.mkElement [] (Some "CONTRACT"%string) ["ETH"%string] in
  BybitBalance.rawBalances (fun _ => "unified"%string)
    (BybitBalance.mkMessage (Some "wallet"%string) [unified; contract])
  = (Some "unified"%string, ["BTC"; "USDT"; "BTC"; "USDT"]%string).
Proof.
  intros unified contract.
  destruct (X19_bybit_wallet_reads_first_element string (fun _ => "unified"%string))
    as [Hwallet _].
  exact (proj1 (Hwallet unified [contract])).
Defined.
